(** * serve.py: a static file server with a WebAssembly MIME type and CORS

    A shallow embedding of [serve.py] and of the part of CPython's
    [http.server], [socketserver] and [posixpath] modules that the script
    inherits from or calls, followed by the properties of the script.

    Conventions.  A Python [str] is a [string]; a request line is decoded
    as ISO-8859-1, one character per byte.  Method calls on [self] become
    functions in a state-and-exception monad over the handler object.
    Methods that [WasmHandler] overrides are reached through a record of
    methods, as Python's dynamic dispatch does. *)

From Stdlib Require Import String Ascii List Bool Arith ZArith Lia DecimalString.
Import ListNotations.
Open Scope string_scope.

(* ================================================================== *)
(** ** Python string operations *)

Definition dquote : string := String (ascii_of_nat 34) EmptyString.
Definition CRLF : string := String (ascii_of_nat 13) (String (ascii_of_nat 10) EmptyString).

(** [str(n)] for a non-negative integer. *)
Definition str_of_nat (n : nat) : string := NilZero.string_of_uint (Nat.to_uint n).

Definition str_of_N (n : N) : string := NilZero.string_of_uint (N.to_uint n).

Fixpoint startswith (s p : string) {struct p} : bool :=
  match p with
  | EmptyString => true
  | String c p' =>
      match s with
      | EmptyString => false
      | String d s' => Ascii.eqb d c && startswith s' p'
      end
  end.

Fixpoint rev_onto (s acc : string) : string :=
  match s with
  | EmptyString => acc
  | String c s' => rev_onto s' (String c acc)
  end.

Definition rev_string (s : string) : string := rev_onto s EmptyString.

(** [s.endswith(suffix)] *)
Definition endswith (s suffix : string) : bool :=
  startswith (rev_string s) (rev_string suffix).

Definition is_empty (s : string) : bool :=
  match s with EmptyString => true | _ => false end.

(** [c.isspace()] for a character below U+0100. *)
Definition isspace (c : ascii) : bool :=
  let n := nat_of_ascii c in
  (((9 <=? n) && (n <=? 13)) || ((28 <=? n) && (n <=? 32))
   || (n =? 133) || (n =? 160))%nat.

Definition lower_char (c : ascii) : ascii :=
  let n := nat_of_ascii c in
  if ((65 <=? n) && (n <=? 90))%nat then ascii_of_nat (n + 32) else c.

(** [s.lower()] on ASCII letters. *)
Fixpoint lower (s : string) : string :=
  match s with
  | EmptyString => EmptyString
  | String c s' => String (lower_char c) (lower s')
  end.

(** [s.lstrip(chars)] with the set of characters given as a predicate. *)
Fixpoint lstrip (p : ascii -> bool) (s : string) : string :=
  match s with
  | EmptyString => EmptyString
  | String c s' => if p c then lstrip p s' else s
  end.

(** [s.rstrip(chars)] *)
Definition rstrip (p : ascii -> bool) (s : string) : string :=
  rev_string (lstrip p (rev_string s)).

Definition is_crlf (c : ascii) : bool :=
  Ascii.eqb c (ascii_of_nat 13) || Ascii.eqb c (ascii_of_nat 10).

Definition is_slash (c : ascii) : bool := Ascii.eqb c "/"%char.

(** [s.split(sep, 1)[0]]: the part of [s] before the first [sep]. *)
Fixpoint before (sep : ascii) (s : string) : string :=
  match s with
  | EmptyString => EmptyString
  | String c s' => if Ascii.eqb c sep then EmptyString else String c (before sep s')
  end.

(** [s.split(sep, 1)[1]], absent (an [IndexError]) when [sep] does not occur. *)
Fixpoint after (sep : ascii) (s : string) : option string :=
  match s with
  | EmptyString => None
  | String c s' => if Ascii.eqb c sep then Some s' else after sep s'
  end.

(** [s.split(sep)] for a one-character separator; [cur] is the word being
    read, reversed. *)
Fixpoint split_on (sep : ascii) (s : string) (cur : string) : list string :=
  match s with
  | EmptyString => [rev_string cur]
  | String c s' =>
      if Ascii.eqb c sep then rev_string cur :: split_on sep s' EmptyString
      else split_on sep s' (String c cur)
  end.

Definition split (sep : ascii) (s : string) : list string := split_on sep s EmptyString.

(** [s.split()]: maximal runs of characters that are not white space. *)
Fixpoint split_ws_from (s : string) (cur : string) : list string :=
  match s with
  | EmptyString => if is_empty cur then [] else [rev_string cur]
  | String c s' =>
      if isspace c
      then (if is_empty cur then split_ws_from s' EmptyString
            else rev_string cur :: split_ws_from s' EmptyString)
      else split_ws_from s' (String c cur)
  end.

Definition split_ws (s : string) : list string := split_ws_from s EmptyString.

(** [sep.join(words)] *)
Fixpoint join (sep : string) (words : list string) : string :=
  match words with
  | [] => EmptyString
  | [w] => w
  | w :: ws => w ++ sep ++ join sep ws
  end.

(** [c in s] *)
Fixpoint contains_char (c : ascii) (s : string) : bool :=
  match s with
  | EmptyString => false
  | String d s' => Ascii.eqb d c || contains_char c s'
  end.

(** Values passed to the [%] operator. *)
Inductive pyval : Type :=
| VStr (s : string)
| VInt (n : nat).

(** [format % args] for the directives [%s], [%d] and [%%]; [None] is the
    [TypeError] or [ValueError] that a mismatch raises. *)
Fixpoint pyformat (fmt : string) (args : list pyval) : option string :=
  match fmt with
  | EmptyString => match args with [] => Some EmptyString | _ => None end
  | String c rest =>
      if Ascii.eqb c "%"%char then
        match rest with
        | EmptyString => None
        | String d rest' =>
            if Ascii.eqb d "s"%char then
              match args with
              | VStr s :: args' => option_map (append s) (pyformat rest' args')
              | VInt n :: args' => option_map (append (str_of_nat n)) (pyformat rest' args')
              | [] => None
              end
            else if Ascii.eqb d "d"%char then
              match args with
              | VInt n :: args' => option_map (append (str_of_nat n)) (pyformat rest' args')
              | _ => None
              end
            else if Ascii.eqb d "%"%char then
              option_map (String "%"%char) (pyformat rest' args)
            else None
        end
      else option_map (String c) (pyformat rest args)
  end.

Definition is_digit (c : ascii) : bool :=
  let n := nat_of_ascii c in ((48 <=? n) && (n <=? 57))%nat.

(** The digits of an [int] literal, most significant first: digits
    separated by single underscores.  [prev_digit] tells whether the
    character before was a digit. *)
Fixpoint int_digits (s : string) (prev_digit : bool) (acc : Z) (count : nat)
  : option (Z * nat) :=
  match s with
  | EmptyString => if prev_digit then Some (acc, count) else None
  | String c s' =>
      if is_digit c
      then int_digits s' true (10 * acc + Z.of_nat (nat_of_ascii c - 48))%Z (S count)
      else if Ascii.eqb c "_"%char && prev_digit then int_digits s' false acc count
      else None
  end.

(** [int(s)] in base ten on a string without white space; [None] is the
    [ValueError].  Literals of more than 4300 digits are refused. *)
Definition py_int (s : string) : option Z :=
  let '(neg, body) :=
    match s with
    | String c s' =>
        if Ascii.eqb c "-"%char then (true, s')
        else if Ascii.eqb c "+"%char then (false, s')
        else (false, s)
    | EmptyString => (false, s)
    end in
  match int_digits body false 0%Z 0 with
  | Some (v, count) =>
      if (4300 <? count)%nat then None else Some (if neg then (- v)%Z else v)
  | None => None
  end.

(* ================================================================== *)
(** ** [posixpath] *)

(** [posixpath.join(a, b)] *)
Definition path_join (a b : string) : string :=
  if startswith b "/" then b
  else if is_empty a || endswith a "/" then a ++ b
  else a ++ "/" ++ b.

(** The loop of [posixpath.normpath] over the components; [new_comps] is
    kept reversed, so its head is Python's [new_comps[-1]]. *)
Fixpoint normpath_comps (initial_slashes : nat) (comps : list string)
  (new_comps : list string) : list string :=
  match comps with
  | [] => rev new_comps
  | comp :: rest =>
      if is_empty comp || String.eqb comp "." then
        normpath_comps initial_slashes rest new_comps
      else if negb (String.eqb comp "..")
              || ((initial_slashes =? 0)%nat && match new_comps with [] => true | _ => false end)
              || match new_comps with last :: _ => String.eqb last ".." | [] => false end
      then normpath_comps initial_slashes rest (comp :: new_comps)
      else
        match new_comps with
        | _ :: popped => normpath_comps initial_slashes rest popped
        | [] => normpath_comps initial_slashes rest new_comps
        end
  end.

(** [posixpath.normpath(path)] *)
Definition normpath (path : string) : string :=
  if is_empty path then "."
  else
    let initial_slashes :=
      if startswith path "/" then
        (if startswith path "//" && negb (startswith path "///") then 2 else 1)
      else 0 in
    let comps := normpath_comps initial_slashes (split "/"%char path) [] in
    let path := join "/" comps in
    let path :=
      match initial_slashes with
      | 0 => path
      | 1 => "/" ++ path
      | _ => "//" ++ path
      end in
    if is_empty path then "." else path.

(* ================================================================== *)
(** ** The world outside the process *)

(** What [os.stat] finds at a path. *)
Inductive node : Type :=
| NoEntry
| Dir (listing : option (list string))
| File (data : string) (mtime : Z) (readable : bool).

(** The environment of one run, and the library functions whose results
    the script passes through without looking at them. *)
Record World : Type := mkWorld {
  (** the file system, by path name *)
  fs : string -> node;
  (** whether [print] takes a text, given the number of texts already
      printed: it raises when it does not.  A text that is taken is
      written at once or kept in the buffer of [sys.stdout] *)
  console : nat -> string -> bool;
  (** whether [socket.bind] succeeds on a port *)
  bind_ok : N -> bool;
  (** whether [os.chdir] to the script's directory succeeds *)
  chdir_ok : bool;
  (** the type that [extensions_map] and the tables of [mimetypes] give
      for a file name *)
  mime_type : string -> string;
  (** [urllib.parse.unquote] *)
  unquote : string -> string;
  (** [urllib.parse.urlsplit(url).path] *)
  urlsplit_path : string -> string;
  (** [urlunsplit] of the parts of a URL with [/] added to its path *)
  redirect_url : string -> string;
  (** [email.utils.formatdate(t, usegmt=True)] *)
  formatdate : Z -> string;
  (** [time.time()] *)
  clock : Z;
  (** [email.utils.parsedate_to_datetime] as a UTC time stamp; [None]
      for an ill-formed date or one in another time zone *)
  parsedate_utc : string -> option Z;
  (** the HTML page of [list_directory], encoded *)
  listing_page : string -> string -> list string -> string;
  (** [sys.getfilesystemencoding()] *)
  fsencoding : string;
  (** [error_message_format] filled in and encoded *)
  error_page : nat -> string -> string -> string;
  (** [repr] of a string *)
  py_repr : string -> string;
  (** [sys.version.split()[0]] *)
  sys_version : string;
  (** whether the flush of [sys.stdout] at interpreter exit succeeds,
      given the number of texts printed; when it fails, what the buffer
      still holds never reaches the console *)
  flush_ok : nat -> bool
}.

(* ================================================================== *)
(** ** The request handler object *)

(** An entry of [_headers_buffer]. *)
Inductive hline : Type :=
| StatusLine (proto : string) (code : nat) (message : string)
| Header (keyword value : string)
| BlankLine.

(** The bytes of an entry, as [send_response_only], [send_header] and
    [end_headers] format them. *)
Definition render_hline (l : hline) : string :=
  match l with
  | StatusLine proto code message =>
      proto ++ " " ++ str_of_nat code ++ " " ++ message ++ CRLF
  | Header keyword value => keyword ++ ": " ++ value ++ CRLF
  | BlankLine => CRLF
  end.

(** One [wfile.write]: the joined header buffer, or body bytes. *)
Inductive chunk : Type :=
| HeaderBlock (lines : list hline)
| Body (data : string).

Definition render_chunk (c : chunk) : string :=
  match c with
  | HeaderBlock lines => String.concat EmptyString (map render_hline lines)
  | Body data => data
  end.

(** The bytes received by the client. *)
Definition wire (out : list chunk) : string :=
  String.concat EmptyString (map render_chunk out).

Inductive exn : Type :=
| AttributeError (attribute : string)
| TypeError
| ConsoleError
| OSError
| KeyboardInterrupt.

(** A file object: its name ([None] for an [io.BytesIO]) and content. *)
Record pyfile : Type := mkFile {
  f_name : option string;
  f_data : string
}.

(** The attributes of a handler instance.  [path] and [_headers_buffer]
    are [None] while the attribute does not exist.  [stdout] is the
    process's standard output so far and [opened] the names of the files
    opened so far. *)
Record handler : Type := mkHandler {
  client_address : string * N;
  directory : string;
  requestline : string;
  request_version : string;
  command : option string;
  path : option string;
  headers : list (string * string);
  close_connection : bool;
  headers_buffer : option (list hline);
  wfile : list chunk;
  stdout : list string;
  opened : list string
}.

Definition set_requestline (v : string) (h : handler) : handler :=
  mkHandler (client_address h) (directory h) v (request_version h) (command h)
    (path h) (headers h) (close_connection h) (headers_buffer h) (wfile h)
    (stdout h) (opened h).

Definition set_request_version (v : string) (h : handler) : handler :=
  mkHandler (client_address h) (directory h) (requestline h) v (command h)
    (path h) (headers h) (close_connection h) (headers_buffer h) (wfile h)
    (stdout h) (opened h).

Definition set_command (v : option string) (h : handler) : handler :=
  mkHandler (client_address h) (directory h) (requestline h) (request_version h) v
    (path h) (headers h) (close_connection h) (headers_buffer h) (wfile h)
    (stdout h) (opened h).

Definition set_path (v : string) (h : handler) : handler :=
  mkHandler (client_address h) (directory h) (requestline h) (request_version h)
    (command h) (Some v) (headers h) (close_connection h) (headers_buffer h)
    (wfile h) (stdout h) (opened h).

Definition set_headers (v : list (string * string)) (h : handler) : handler :=
  mkHandler (client_address h) (directory h) (requestline h) (request_version h)
    (command h) (path h) v (close_connection h) (headers_buffer h) (wfile h)
    (stdout h) (opened h).

Definition set_close_connection (v : bool) (h : handler) : handler :=
  mkHandler (client_address h) (directory h) (requestline h) (request_version h)
    (command h) (path h) (headers h) v (headers_buffer h) (wfile h)
    (stdout h) (opened h).

Definition set_headers_buffer (v : list hline) (h : handler) : handler :=
  mkHandler (client_address h) (directory h) (requestline h) (request_version h)
    (command h) (path h) (headers h) (close_connection h) (Some v) (wfile h)
    (stdout h) (opened h).

Definition set_wfile (v : list chunk) (h : handler) : handler :=
  mkHandler (client_address h) (directory h) (requestline h) (request_version h)
    (command h) (path h) (headers h) (close_connection h) (headers_buffer h) v
    (stdout h) (opened h).

Definition set_stdout (v : list string) (h : handler) : handler :=
  mkHandler (client_address h) (directory h) (requestline h) (request_version h)
    (command h) (path h) (headers h) (close_connection h) (headers_buffer h)
    (wfile h) v (opened h).

Definition set_opened (v : list string) (h : handler) : handler :=
  mkHandler (client_address h) (directory h) (requestline h) (request_version h)
    (command h) (path h) (headers h) (close_connection h) (headers_buffer h)
    (wfile h) (stdout h) v.

(* ------------------------------------------------------------------ *)
(** *** Methods as computations on the handler *)

(** The outcome of a call: a value, or an exception, with the handler as
    the call left it. *)
Inductive res (A : Type) : Type :=
| Ret (a : A) (h : handler)
| Raise (e : exn) (h : handler).

Arguments Ret {A} a h.
Arguments Raise {A} e h.

Definition M (A : Type) : Type := handler -> res A.

Definition ret {A : Type} (a : A) : M A := fun h => Ret a h.

Definition raise {A : Type} (e : exn) : M A := fun h => Raise e h.

Definition bind {A B : Type} (m : M A) (k : A -> M B) : M B :=
  fun h =>
    match m h with
    | Ret a h' => k a h'
    | Raise e h' => Raise e h'
    end.

Definition gets {A : Type} (f : handler -> A) : M A := fun h => Ret (f h) h.

Definition modify (f : handler -> handler) : M unit := fun h => Ret tt (f h).

Definition state_of {A : Type} (r : res A) : handler :=
  match r with
  | Ret _ h => h
  | Raise _ h => h
  end.

Definition raised {A : Type} (r : res A) : option exn :=
  match r with
  | Ret _ _ => None
  | Raise e _ => Some e
  end.

Notation "x <- m ;; k" := (bind m (fun x => k))
  (at level 61, m at next level, right associativity).
Notation "m ;; k" := (bind m (fun _ => k))
  (at level 61, right associativity).

(** [if c: m] *)
Definition when (c : bool) (m : M unit) : M unit := if c then m else ret tt.

(** [self.wfile.write(data)] *)
Definition wfile_write (c : chunk) : M unit :=
  modify (fun h => set_wfile (wfile h ++ [c]) h).

(** [print(text)] on standard output. *)
Definition print (W : World) (text : string) : M unit :=
  fun h =>
    if console W (length (stdout h)) text
    then Ret tt (set_stdout (stdout h ++ [text]) h)
    else Raise ConsoleError h.

(** The methods that a subclass of [SimpleHTTPRequestHandler] may
    override and that the base classes call on [self]. *)
Record methods : Type := mkMethods {
  m_end_headers : M unit;
  m_log_message : string -> list pyval -> M unit
}.

(** One request as the handler reads it from the connection: the first
    line, at most 65537 bytes of it (empty at end of input), and what
    [http.client.parse_headers] makes of the lines after it. *)
Inductive header_input : Type :=
| HeadersOk (hs : list (string * string))
| LineTooLong (err : string)
| TooManyHeaders (err : string).

Record request : Type := mkRequest {
  raw_requestline : string;
  raw_headers : header_input
}.

(** [self.headers.get(name)]: names compare without case. *)
Fixpoint headers_get (name : string) (hs : list (string * string)) : option string :=
  match hs with
  | [] => None
  | (k, v) :: rest =>
      if lower k =? lower name then Some v else headers_get name rest
  end.

(** [a >= b] on pairs of integers. *)
Definition tuple_ge (a b : Z * Z) : bool :=
  ((fst b <? fst a) || ((fst a =? fst b) && (snd b <=? snd a)))%Z.

(** [http.HTTPStatus]: phrase and description of the codes the handler
    uses. *)
Definition responses (code : nat) : option (string * string) :=
  if (code =? 100)%nat then Some ("Continue", "Request received, please continue")
  else if (code =? 200)%nat then Some ("OK", "Request fulfilled, document follows")
  else if (code =? 301)%nat then
    Some ("Moved Permanently", "Object moved permanently -- see URI list")
  else if (code =? 304)%nat then
    Some ("Not Modified", "Document has not changed since given time")
  else if (code =? 400)%nat then
    Some ("Bad Request", "Bad request syntax or unsupported method")
  else if (code =? 404)%nat then Some ("Not Found", "Nothing matches the given URI")
  else if (code =? 414)%nat then Some ("Request-URI Too Long", "URI is too long")
  else if (code =? 431)%nat then
    Some ("Request Header Fields Too Large",
          "The server is unwilling to process the request because its header fields are too large")
  else if (code =? 501)%nat then
    Some ("Not Implemented", "Server does not support this operation")
  else if (code =? 505)%nat then
    Some ("HTTP Version Not Supported", "Cannot fulfill request")
  else None.

(* ================================================================== *)
(** ** [http.server.BaseHTTPRequestHandler] *)

Module BaseHTTPRequestHandler.

Definition default_request_version : string := "HTTP/0.9".
Definition protocol_version : string := "HTTP/1.0".
Definition error_content_type : string := "text/html;charset=utf-8".

(** The lines in [_headers_buffer]; none while the attribute does not
    exist. *)
Definition pending (h : handler) : list hline :=
  match headers_buffer h with
  | Some b => b
  | None => []
  end.

(** [self._headers_buffer.append(line)], after the list is created when
    the attribute does not exist. *)
Definition buffer_append (l : hline) (h : handler) : handler :=
  set_headers_buffer (pending h ++ [l]) h.

Definition send_response_only (code : nat) (message : option string) : M unit :=
  v <- gets request_version ;;
  when (negb (v =? "HTTP/0.9"))
    (let message :=
       match message with
       | Some m => m
       | None =>
           match responses code with
           | Some (phrase, _) => phrase
           | None => EmptyString
           end
       end in
     modify (buffer_append (StatusLine protocol_version code message))).

Definition send_header (keyword value : string) : M unit :=
  v <- gets request_version ;;
  when (negb (v =? "HTTP/0.9")) (modify (buffer_append (Header keyword value))) ;;
  when (lower keyword =? "connection")
    (if lower value =? "close" then modify (set_close_connection true)
     else when (lower value =? "keep-alive") (modify (set_close_connection false))).

Definition flush_headers : M unit :=
  b <- gets headers_buffer ;;
  match b with
  | Some lines => wfile_write (HeaderBlock lines) ;; modify (set_headers_buffer [])
  | None => ret tt
  end.

Definition end_headers : M unit :=
  v <- gets request_version ;;
  when (negb (v =? "HTTP/0.9"))
    (b <- gets headers_buffer ;;
     match b with
     | Some _ => modify (buffer_append BlankLine) ;; flush_headers
     | None => raise (AttributeError "_headers_buffer")
     end).

Definition address_string : M string := gets (fun h => fst (client_address h)).

Section Methods.

Variable W : World.
Variable self : methods.

(** What [getattr(self, 'do_' + command)] finds, if anything. *)
Variable do_method : string -> option (M unit).

Definition server_version : string := "SimpleHTTP/0.6".

Definition version_string : string := server_version ++ " " ++ "Python/" ++ sys_version W.

Definition date_time_string (timestamp : option Z) : string :=
  match timestamp with
  | None => formatdate W (clock W)
  | Some t => formatdate W t
  end.

Definition log_request (code : nat) : M unit :=
  line <- gets requestline ;;
  m_log_message self (dquote ++ "%s" ++ dquote ++ " %s %s")
    [VStr line; VStr (str_of_nat code); VStr "-"].

Definition log_error (format : string) (args : list pyval) : M unit :=
  m_log_message self format args.

Definition send_response (code : nat) (message : option string) : M unit :=
  log_request code ;;
  send_response_only code message ;;
  send_header "Server" version_string ;;
  send_header "Date" (date_time_string None).

Definition send_error (code : nat) (message explain : option string) : M unit :=
  let '(shortmsg, longmsg) :=
    match responses code with
    | Some p => p
    | None => ("???", "???")
    end in
  let message := match message with Some m => m | None => shortmsg end in
  let explain := match explain with Some e => e | None => longmsg end in
  log_error "code %d, message %s" [VInt code; VStr message] ;;
  send_response code (Some message) ;;
  send_header "Connection" "close" ;;
  body <-
    (if (200 <=? code)%nat
        && negb ((code =? 204)%nat || (code =? 205)%nat || (code =? 304)%nat)
     then
       let body := error_page W code message explain in
       send_header "Content-Type" error_content_type ;;
       send_header "Content-Length" (str_of_nat (String.length body)) ;;
       ret (Some body)
     else ret None) ;;
  m_end_headers self ;;
  cmd <- gets command ;;
  match body with
  | Some body =>
      when (negb match cmd with Some c => c =? "HEAD" | None => false end
            && negb (is_empty body))
        (wfile_write (Body body))
  | None => ret tt
  end.

(** The version check of [parse_request]: the part after [HTTP/] and the
    two numbers, or [None] where the code raises [ValueError]. *)
Definition parse_version (version : string) : option (string * (Z * Z)) :=
  if negb (startswith version "HTTP/") then None
  else
    match after "/"%char version with
    | None => None
    | Some base_version_number =>
        match split "."%char base_version_number with
        | [major; minor] =>
            match py_int major, py_int minor with
            | Some a, Some b => Some (base_version_number, (a, b))
            | _, _ => None
            end
        | _ => None
        end
    end.

Definition handle_expect_100 : M bool :=
  send_response_only 100 None ;;
  m_end_headers self ;;
  ret true.

(** The part of [parse_request] after [self.command, self.path] are
    set. *)
Definition parse_request_headers (req : request) : M bool :=
  p <- gets path ;;
  when (match p with Some p => startswith p "//" | None => false end)
    (match p with
     | Some p => modify (set_path ("/" ++ lstrip is_slash p))
     | None => ret tt
     end) ;;
  match raw_headers req with
  | LineTooLong err => send_error 431 (Some "Line too long") (Some err) ;; ret false
  | TooManyHeaders err => send_error 431 (Some "Too many headers") (Some err) ;; ret false
  | HeadersOk hs =>
      modify (set_headers hs) ;;
      let conntype := match headers_get "Connection" hs with Some v => v | None => EmptyString end in
      (if lower conntype =? "close" then modify (set_close_connection true)
       else when ((lower conntype =? "keep-alive") && ("HTTP/1.1" <=? protocol_version))
              (modify (set_close_connection false))) ;;
      let expect := match headers_get "Expect" hs with Some v => v | None => EmptyString end in
      v <- gets request_version ;;
      if (lower expect =? "100-continue") && ("HTTP/1.1" <=? protocol_version)
         && ("HTTP/1.1" <=? v)
      then (ok <- handle_expect_100 ;; ret ok)
      else ret true
  end.

(** The part of [parse_request] after the version check. *)
Definition parse_request_words (req : request) (requestline : string)
  (words : list string) : M bool :=
  if negb ((2 <=? length words)%nat && (length words <=? 3)%nat) then
    send_error 400 (Some ("Bad request syntax (" ++ py_repr W requestline ++ ")")) None ;;
    ret false
  else
    match words with
    | cmd :: p :: _ =>
        ok <-
          (if (length words =? 2)%nat then
             modify (set_close_connection true) ;;
             if negb (cmd =? "GET") then
               send_error 400
                 (Some ("Bad HTTP/0.9 request type (" ++ py_repr W cmd ++ ")")) None ;;
               ret false
             else ret true
           else ret true) ;;
        if negb ok then ret false
        else
          modify (set_command (Some cmd)) ;;
          modify (set_path p) ;;
          parse_request_headers req
    | _ => ret false
    end.

Definition parse_request (req : request) : M bool :=
  modify (set_command None) ;;
  modify (set_request_version default_request_version) ;;
  modify (set_close_connection true) ;;
  let requestline := rstrip is_crlf (raw_requestline req) in
  modify (set_requestline requestline) ;;
  let words := split_ws requestline in
  if (length words =? 0)%nat then ret false
  else if (3 <=? length words)%nat then
    let version := last words EmptyString in
    match parse_version version with
    | None =>
        send_error 400 (Some ("Bad request version (" ++ py_repr W version ++ ")")) None ;;
        ret false
    | Some (base_version_number, version_number) =>
        when (tuple_ge version_number (1, 1)%Z && ("HTTP/1.1" <=? protocol_version))
          (modify (set_close_connection false)) ;;
        if tuple_ge version_number (2, 0)%Z then
          send_error 505 (Some ("Invalid HTTP version (" ++ base_version_number ++ ")")) None ;;
          ret false
        else
          modify (set_request_version version) ;;
          parse_request_words req requestline words
    end
  else parse_request_words req requestline words.

Definition handle_one_request (req : request) : M unit :=
  if (65536 <? Z.of_nat (String.length (raw_requestline req)))%Z then
    modify (set_requestline EmptyString) ;;
    modify (set_request_version EmptyString) ;;
    modify (set_command (Some EmptyString)) ;;
    send_error 414 None None
  else if is_empty (raw_requestline req) then modify (set_close_connection true)
  else
    ok <- parse_request req ;;
    if negb ok then ret tt
    else
      cmd <- gets command ;;
      match cmd with
      | Some c =>
          match do_method c with
          | None =>
              send_error 501 (Some ("Unsupported method (" ++ py_repr W c ++ ")")) None
          | Some method => method
          end
      | None => raise TypeError
      end.

(** The loop of [handle] over the requests still to be read from the
    connection; reading past the last one finds the end of input. *)
Fixpoint handle_requests (reqs : list request) : M unit :=
  match reqs with
  | [] => handle_one_request (mkRequest EmptyString (HeadersOk []))
  | req :: rest =>
      handle_one_request req ;;
      closing <- gets close_connection ;;
      if closing then ret tt else handle_requests rest
  end.

Definition handle (reqs : list request) : M unit :=
  modify (set_close_connection true) ;;
  handle_requests reqs.

End Methods.

End BaseHTTPRequestHandler.

(* ================================================================== *)
(** ** [http.server.SimpleHTTPRequestHandler] *)

Module SimpleHTTPRequestHandler.

(** The loop of [translate_path]: components that are not simple names
    are passed over.  [os.path.dirname(word)] is not empty exactly when
    [word] contains the separator. *)
Fixpoint translate_words (path : string) (words : list string) : string :=
  match words with
  | [] => path
  | word :: rest =>
      if contains_char "/"%char word || (word =? ".") || (word =? "..")
      then translate_words path rest
      else translate_words (path_join path word) rest
  end.

Section Methods.

Variable W : World.
Variable self : methods.

Definition translate_path (directory : string) (path : string) : string :=
  let path := before "?"%char path in
  let path := before "#"%char path in
  let trailing_slash := endswith (rstrip isspace path) "/" in
  let path := unquote W path in
  let path := normpath path in
  let words := split "/"%char path in
  let words := filter (fun w => negb (is_empty w)) words in
  let path := translate_words directory words in
  if trailing_slash then path ++ "/" else path.

Definition isdir (path : string) : bool :=
  match fs W path with Dir _ => true | _ => false end.

Definition isfile (path : string) : bool :=
  match fs W path with File _ _ _ => true | _ => false end.

Definition guess_type (path : string) : string := mime_type W path.

Definition list_directory (local : string) : M (option pyfile) :=
  match fs W local with
  | Dir (Some names) =>
      p <- gets path ;;
      match p with
      | None => raise (AttributeError "path")
      | Some p =>
          let encoded := listing_page W p local names in
          BaseHTTPRequestHandler.send_response W self 200 None ;;
          BaseHTTPRequestHandler.send_header "Content-type"
            ("text/html; charset=" ++ fsencoding W) ;;
          BaseHTTPRequestHandler.send_header "Content-Length"
            (str_of_nat (String.length encoded)) ;;
          m_end_headers self ;;
          ret (Some (mkFile None encoded))
      end
  | _ =>
      BaseHTTPRequestHandler.send_error W self 404
        (Some "No permission to list directory") None ;;
      ret None
  end.

(** The test on [If-Modified-Since] in [send_head]: whether the file,
    last modified at [mtime], is answered with 304. *)
Definition not_modified (hs : list (string * string)) (mtime : Z) : bool :=
  match headers_get "If-Modified-Since" hs, headers_get "If-None-Match" hs with
  | Some since, None =>
      match parsedate_utc W since with
      | Some ims => (mtime <=? ims)%Z
      | None => false
      end
  | _, _ => false
  end.

(** [send_head] from [ctype = self.guess_type(path)] on. *)
Definition send_head_file (path : string) : M (option pyfile) :=
  let ctype := guess_type path in
  if endswith path "/" then
    BaseHTTPRequestHandler.send_error W self 404 (Some "File not found") None ;;
    ret None
  else
    match fs W path with
    | File data mtime true =>
        modify (fun h => set_opened (opened h ++ [path]) h) ;;
        hs <- gets headers ;;
        if not_modified hs mtime then
          BaseHTTPRequestHandler.send_response W self 304 None ;;
          m_end_headers self ;;
          ret None
        else
          BaseHTTPRequestHandler.send_response W self 200 None ;;
          BaseHTTPRequestHandler.send_header "Content-type" ctype ;;
          BaseHTTPRequestHandler.send_header "Content-Length"
            (str_of_nat (String.length data)) ;;
          BaseHTTPRequestHandler.send_header "Last-Modified"
            (BaseHTTPRequestHandler.date_time_string W (Some mtime)) ;;
          m_end_headers self ;;
          ret (Some (mkFile (Some path) data))
    | _ =>
        BaseHTTPRequestHandler.send_error W self 404 (Some "File not found") None ;;
        ret None
    end.

Definition send_head : M (option pyfile) :=
  p <- gets path ;;
  match p with
  | None => raise (AttributeError "path")
  | Some p =>
      dir <- gets directory ;;
      let local := translate_path dir p in
      if isdir local then
        if negb (endswith (urlsplit_path W p) "/") then
          BaseHTTPRequestHandler.send_response W self 301 None ;;
          BaseHTTPRequestHandler.send_header "Location" (redirect_url W p) ;;
          BaseHTTPRequestHandler.send_header "Content-Length" "0" ;;
          m_end_headers self ;;
          ret None
        else if isfile (path_join local "index.html") then
          send_head_file (path_join local "index.html")
        else if isfile (path_join local "index.htm") then
          send_head_file (path_join local "index.htm")
        else list_directory local
      else send_head_file local
  end.

(** [shutil.copyfileobj(source, outputfile)]; nothing is written for an
    empty source. *)
Definition copyfile (source : pyfile) : M unit :=
  when (negb (is_empty (f_data source))) (wfile_write (Body (f_data source))).

Definition do_GET : M unit :=
  f <- send_head ;;
  match f with
  | Some f => copyfile f
  | None => ret tt
  end.

Definition do_HEAD : M unit :=
  f <- send_head ;;
  ret tt.

End Methods.

End SimpleHTTPRequestHandler.

(* ================================================================== *)
(** ** [serve.py] *)

Definition PORT : N := 8000%N.

(** The marker that starts every log line (U+1F310, as UTF-8). *)
Definition marker : string := "🌐".

Module WasmHandler.

Definition end_headers : M unit :=
  p <- gets path ;;
  match p with
  | None => raise (AttributeError "path")
  | Some p =>
      when (endswith p ".wasm")
        (BaseHTTPRequestHandler.send_header "Content-Type" "application/wasm") ;;
      BaseHTTPRequestHandler.send_header "Access-Control-Allow-Origin" "*" ;;
      BaseHTTPRequestHandler.end_headers
  end.

Section Methods.

Variable W : World.

Definition log_message (format : string) (args : list pyval) : M unit :=
  address <- BaseHTTPRequestHandler.address_string ;;
  match pyformat format args with
  | None => raise TypeError
  | Some message => print W (marker ++ " " ++ address ++ " - " ++ message)
  end.

(** The class: its two overriding methods. *)
Definition self : methods := mkMethods end_headers log_message.

(** The [do_GET] and [do_HEAD] attributes, inherited. *)
Definition do_method (cmd : string) : option (M unit) :=
  if cmd =? "GET" then Some (SimpleHTTPRequestHandler.do_GET W self)
  else if cmd =? "HEAD" then Some (SimpleHTTPRequestHandler.do_HEAD W self)
  else None.

Definition handle_one_request (req : request) : M unit :=
  BaseHTTPRequestHandler.handle_one_request W self do_method req.

Definition handle (reqs : list request) : M unit :=
  BaseHTTPRequestHandler.handle W self do_method reqs.

End Methods.

End WasmHandler.

(* ================================================================== *)
(** ** [socketserver.TCPServer] and the script's main block *)

Definition LF : string := String (ascii_of_nat 10) EmptyString.

(** The text of the start-up banner. *)
Definition banner : string :=
  join LF
    [ EmptyString;
      "╔════════════════════════════════════════════════════════════╗";
      "║                                                            ║";
      "║   🔥 RavensOne Development Server                         ║";
      "║                                                            ║";
      "║   Running at: http://localhost:" ++ str_of_N PORT ++ "                       ║";
      "║                                                            ║";
      "║   Test pages:                                              ║";
      "║   • http://localhost:" ++ str_of_N PORT ++ "/test-reactive.html              ║";
      "║   • http://localhost:" ++ str_of_N PORT ++ "/test-wasm.html                  ║";
      "║   • http://localhost:" ++ str_of_N PORT ++ "/runtime/index.html              ║";
      "║                                                            ║";
      "║   Press Ctrl+C to stop                                     ║";
      "║                                                            ║";
      "╚════════════════════════════════════════════════════════════╝";
      "        " ].

(** The text printed on interrupt. *)
Definition farewell : string := LF ++ LF ++ "👋 Server stopped".

(** What the process asks of the operating system. *)
Inductive syscall : Type :=
| SysChdir
| SysSocket
| SysBind (port : N)
| SysListen
| SysAccept
| SysCloseRequest
| SysClose.

(** A connection: the peer's address and the requests it sends. *)
Record connection : Type := mkConnection {
  peer : string * N;
  requests : list request
}.

(** What [get_request] finds when the selector reports the socket
    ready. *)
Inductive arrival : Type :=
| Accepted (c : connection)
| AcceptFailed.

(** One run of the server: the connections that arrive, and the
    exception that ends [serve_forever] (nothing calls [shutdown]). *)
Record run : Type := mkRun {
  arrivals : list arrival;
  ending : exn
}.

(** The observable state of the process: the texts that [print] has
    taken, the exceptions reported on standard error, its system calls
    in order and what each connection received. *)
Record process : Type := mkProcess {
  proc_stdout : list string;
  proc_stderr : list exn;
  proc_calls : list syscall;
  proc_sent : list (list chunk)
}.

Inductive exit_status : Type :=
| Exited (code : nat)
| KilledBySigint.

Definition call (c : syscall) (p : process) : process :=
  mkProcess (proc_stdout p) (proc_stderr p) (proc_calls p ++ [c]) (proc_sent p).

Definition traceback (e : exn) (p : process) : process :=
  mkProcess (proc_stdout p) (proc_stderr p ++ [e]) (proc_calls p) (proc_sent p).

(** [print(text)] in the main block: the process after it, or the
    exception. *)
Definition proc_print (W : World) (text : string) (p : process) : option process :=
  if console W (length (proc_stdout p)) text
  then Some (mkProcess (proc_stdout p ++ [text]) (proc_stderr p) (proc_calls p) (proc_sent p))
  else None.

(** [except Exception] catches everything but [KeyboardInterrupt]. *)
Definition is_Exception (e : exn) : bool :=
  match e with
  | KeyboardInterrupt => false
  | _ => true
  end.

Module TCPServer.

Definition server_close (p : process) : process := call SysClose p.

(** [TCPServer.__init__]: the socket is created, bound and made to
    listen; on failure it is closed and the exception raised again. *)
Definition init (W : World) (port : N) (p : process) : process + exn * process :=
  let p := call SysSocket p in
  let p := call (SysBind port) p in
  if bind_ok W port then inl (call SysListen p)
  else inr (OSError, server_close p).

(** The handler instance that [finish_request] creates; [directory] is
    [os.getcwd()]. *)
Definition new_handler (cwd : string) (c : connection) (p : process) : handler :=
  mkHandler (peer c) cwd EmptyString EmptyString None None [] true None []
    (proc_stdout p) [].

(** [_handle_request_noblock]: [None] when it returns, the exception
    when it raises. *)
Definition handle_request_noblock (W : World) (cwd : string) (a : arrival)
  (p : process) : option exn * process :=
  match a with
  | AcceptFailed => (None, call SysAccept p)
  | Accepted c =>
      let p := call SysAccept p in
      let r := WasmHandler.handle W (requests c) (new_handler cwd c p) in
      let h := state_of r in
      let p := mkProcess (stdout h) (proc_stderr p) (proc_calls p)
                 (proc_sent p ++ [wfile h]) in
      match raised r with
      | None => (None, call SysCloseRequest p)
      | Some e =>
          if is_Exception e
          then (None, call SysCloseRequest (traceback e p))
          else (Some e, call SysCloseRequest p)
      end
  end.

(** [serve_forever]: it ends only by an exception. *)
Fixpoint serve_forever (W : World) (cwd : string) (incoming : list arrival)
  (last : exn) (p : process) : exn * process :=
  match incoming with
  | [] => (last, p)
  | a :: rest =>
      match handle_request_noblock W cwd a p with
      | (None, p') => serve_forever W cwd rest last p'
      | (Some e, p') => (e, p')
      end
  end.

End TCPServer.

(** The interpreter on an exception that nothing catches: a traceback
    and exit status 1, or death by [SIGINT] for [KeyboardInterrupt]. *)
Definition uncaught (e : exn) (p : process) : process * exit_status :=
  (traceback e p,
   match e with
   | KeyboardInterrupt => KilledBySigint
   | _ => Exited 1
   end).

(** The body of the [with] statement: [None] when it ends, the
    exception when it raises. *)
Definition with_body (W : World) (cwd : string) (r : run) (p : process)
  : option exn * process :=
  match proc_print W banner p with
  | None => (Some ConsoleError, p)
  | Some p =>
      let '(e, p) := TCPServer.serve_forever W cwd (arrivals r) (ending r) p in
      match e with
      | KeyboardInterrupt =>
          match proc_print W farewell p with
          | None => (Some ConsoleError, p)
          | Some p => (None, p)
          end
      | _ => (Some e, p)
      end
  end.

(** The interpreter at exit, after the script has called [print]: it
    flushes [sys.stdout]; when that fails, the exception is reported on
    standard error and the exit status becomes 120, whatever it was,
    unless the process dies by [SIGINT]. *)
Definition Py_Finalize (W : World) (outcome : process * exit_status)
  : process * exit_status :=
  let '(p, status) := outcome in
  if flush_ok W (length (proc_stdout p)) then (p, status)
  else
    (traceback OSError p,
     match status with
     | Exited _ => Exited 120
     | KilledBySigint => KilledBySigint
     end).

(** The script run as a program, in the directory [cwd] of the script
    file.  Where it ends before the [with] body, nothing has been passed
    to [sys.stdout] and the flush at exit has nothing to write. *)
Definition main (W : World) (cwd : string) (r : run) : process * exit_status :=
  let p := call SysChdir (mkProcess [] [] [] []) in
  if negb (chdir_ok W) then uncaught OSError p
  else
    match TCPServer.init W PORT p with
    | inr (e, p) => uncaught e p
    | inl p =>
        let '(e, p) := with_body W cwd r p in
        let p := TCPServer.server_close p in
        Py_Finalize W
          match e with
          | None => (p, Exited 0)
          | Some e => uncaught e p
          end
    end.

(* ================================================================== *)
(** ** Example worlds *)

Definition hex_value (c : ascii) : option nat :=
  let n := nat_of_ascii c in
  if ((48 <=? n) && (n <=? 57))%nat then Some (n - 48)
  else if ((65 <=? n) && (n <=? 70))%nat then Some (n - 55)
  else if ((97 <=? n) && (n <=? 102))%nat then Some (n - 87)
  else None.

(** Percent-decoding byte by byte; it is [urllib.parse.unquote] on the
    strings whose escapes stand for ASCII characters. *)
Fixpoint pct_decode (s : string) : string :=
  match s with
  | EmptyString => EmptyString
  | String c rest =>
      match rest with
      | String a (String b rest') =>
          match Ascii.eqb c "%"%char, hex_value a, hex_value b with
          | true, Some x, Some y => String (ascii_of_nat (16 * x + y)) (pct_decode rest')
          | _, _, _ => String c (pct_decode rest)
          end
      | _ => String c (pct_decode rest)
      end
  end.

(** A served directory [/srv/www] holding [index.html] and [m.wasm],
    the latter with bytes that are no WebAssembly module. *)
Definition www_fs (name : string) : node :=
  if name =? "/srv/www" then Dir (Some ["index.html"; "m.wasm"])
  else if name =? "/srv/www/" then Dir (Some ["index.html"; "m.wasm"])
  else if name =? "/srv/www/index.html" then File "<h1>hello</h1>" 0 true
  else if name =? "/srv/www/m.wasm" then File "not a module" 0 true
  else if name =? "/etc/passwd" then File "root:x:0:0" 0 true
  else NoEntry.

(** Extension tables that know [.wasm], as those of Python 3.11. *)
Definition mime_with_wasm (name : string) : string :=
  if endswith name ".html" then "text/html"
  else if endswith name ".wasm" then "application/wasm"
  else "application/octet-stream".

(** Extension tables without [.wasm]. *)
Definition mime_without_wasm (name : string) : string :=
  if endswith name ".html" then "text/html"
  else "application/octet-stream".

(** A console that takes every text. *)
Definition console_utf8 (n : nat) (text : string) : bool := true.



(** A standard output whose flush at exit succeeds, as a terminal, and
    one whose flush fails, as a pipe that the reader has closed. *)
Definition flush_works (n : nat) : bool := true.
Definition flush_fails (n : nat) : bool := false.

Fixpoint all_ascii (s : string) : bool :=
  match s with
  | EmptyString => true
  | String c s' => (nat_of_ascii c <? 128)%nat && all_ascii s'
  end.

(** A console with an ASCII encoding: [print] raises
    [UnicodeEncodeError] on any other character. *)
Definition console_ascii (n : nat) (text : string) : bool := all_ascii text.

Definition example_world (mime : string -> string) (con : nat -> string -> bool)
  (port_free : bool) : World :=
  mkWorld www_fs con (fun _ => port_free) true mime pct_decode
    (fun url => before "#"%char (before "?"%char url))
    (fun url => url ++ "/")
    (fun _ => "Thu, 01 Jan 1970 00:00:00 GMT") 0%Z
    (fun _ => None)
    (fun _ _ names => join LF names)
    "utf-8"
    (fun code message _ => "Error " ++ str_of_nat code ++ ": " ++ message)
    (fun s => "'" ++ s ++ "'")
    "3.11.2"
    flush_works.

Definition world311 : World := example_world mime_with_wasm console_utf8 true.

(** The world of [world311] with standard output a pipe that the reader
    has closed: [print] takes every text into the buffer, and the flush
    at exit fails. *)
Definition world_pipe : World :=
  mkWorld (fs world311) (console world311) (bind_ok world311) (chdir_ok world311)
    (mime_type world311) (unquote world311) (urlsplit_path world311)
    (redirect_url world311) (formatdate world311) (clock world311)
    (parsedate_utc world311) (listing_page world311) (fsencoding world311)
    (error_page world311) (py_repr world311) (sys_version world311)
    flush_fails.
Definition world_old : World := example_world mime_without_wasm console_utf8 true.

(** A handler as [finish_request] creates it for a peer at 127.0.0.1. *)
Definition fresh : handler :=
  TCPServer.new_handler "/srv/www" (mkConnection ("127.0.0.1", 50000%N) [])
    (mkProcess [] [] [] []).

Definition get (line : string) : request := mkRequest (line ++ CRLF) (HeadersOk []).

(** What a client at 127.0.0.1 receives for one request line. *)
Definition answer (W : World) (line : string) : list chunk :=
  wfile (state_of (WasmHandler.handle_one_request W (get line) fresh)).

(** A run with one connection that sends one request, ended by an
    interrupt. *)
Definition one_request (line : string) : run :=
  mkRun [Accepted (mkConnection ("127.0.0.1", 50000%N) [get line])] KeyboardInterrupt.

(* ================================================================== *)
(** ** What the properties speak of *)

(** The two headers that [WasmHandler.end_headers] adds. *)
Definition cors_header : hline := Header "Access-Control-Allow-Origin" "*".
Definition wasm_header : hline := Header "Content-Type" "application/wasm".

(** The values of the Content-Type headers of a block, in the order
    sent; header names compare without case. *)
Fixpoint content_types (ls : list hline) : list string :=
  match ls with
  | [] => []
  | Header k v :: rest =>
      if lower k =? "content-type" then v :: content_types rest
      else content_types rest
  | _ :: rest => content_types rest
  end.

(** The position of a line in a block. *)
Fixpoint position (l : hline) (ls : list hline) : option nat :=
  match ls with
  | [] => None
  | l' :: rest =>
      match l, l' with
      | Header k v, Header k' v' =>
          if (k =? k') && (v =? v') then Some 0 else option_map S (position l rest)
      | _, _ => option_map S (position l rest)
      end
  end.

(** The header lines of the first thing written to the client, if that
    is a header block. *)
Definition response_headers (out : list chunk) : list hline :=
  match out with
  | HeaderBlock ls :: _ => ls
  | _ => []
  end.

(** The status code of a response. *)
Definition status (out : list chunk) : option nat :=
  match response_headers out with
  | StatusLine _ code _ :: _ => Some code
  | _ => None
  end.

(** Every Content-Type header of a response has the value [v], and
    there is one. *)
Definition content_type_is (v : string) (out : list chunk) : Prop :=
  content_types (response_headers out) <> []
  /\ Forall (eq v) (content_types (response_headers out)).

(** Line [a] is sent before line [b]. *)
Definition sent_before (a b : hline) (ls : list hline) : Prop :=
  exists i j, position a ls = Some i /\ position b ls = Some j /\ i < j.


(** A response carries a header line. *)
Definition carries (l : hline) (out : list chunk) : Prop :=
  exists ls, In (HeaderBlock ls) out /\ In l ls.

(** A header block with the CORS header; a body chunk has none to carry. *)
Definition has_cors (c : chunk) : Prop :=
  match c with
  | HeaderBlock ls => In cors_header ls
  | Body _ => True
  end.

(** A header block that ends with the added Content-Type header, the
    CORS header and the blank line. *)
Definition ends_with_wasm (c : chunk) : Prop :=
  match c with
  | HeaderBlock ls => exists lib, ls = (lib ++ [wasm_header; cors_header; BlankLine])%list
  | Body _ => True
  end.




(** The line that [log_message] prints for a message. *)
Definition log_line (h : handler) (message : string) : string :=
  marker ++ " " ++ fst (client_address h) ++ " - " ++ message.

(** The messages that [log_request] and [send_error] pass to
    [log_message]. *)
Definition request_log (h : handler) (code : nat) : string :=
  dquote ++ requestline h ++ dquote ++ " " ++ str_of_nat code ++ " -".

Definition error_log (code : nat) (message : string) : string :=
  "code " ++ str_of_nat code ++ ", message " ++ message.

(** The lines that [send_response] puts in the buffer. *)
Definition response_head (W : World) (code : nat) (message : string) : list hline :=
  [StatusLine BaseHTTPRequestHandler.protocol_version code message;
   Header "Server" (BaseHTTPRequestHandler.version_string W);
   Header "Date" (BaseHTTPRequestHandler.date_time_string W None)].

(** The lines that [send_error] puts in the buffer for a code that has a
    body. *)
Definition error_head (W : World) (code : nat) (message body : string) : list hline :=
  (response_head W code message ++
   [Header "Connection" "close";
    Header "Content-Type" BaseHTTPRequestHandler.error_content_type;
    Header "Content-Length" (str_of_nat (String.length body))])%list.

(** The lines that [WasmHandler.end_headers] adds, for [self.path]. *)
Definition added (p : string) : list hline :=
  ((if endswith p ".wasm" then [wasm_header] else []) ++ [cors_header; BlankLine])%list.

(** The reason phrase of a status line. *)
Definition phrase (code : nat) (message : option string) : string :=
  match message with
  | Some m => m
  | None =>
      match responses code with
      | Some (ph, _) => ph
      | None => EmptyString
      end
  end.

(** The codes for which [send_error] sends a body. *)
Definition has_body (code : nat) : bool :=
  (200 <=? code)%nat && negb ((code =? 204)%nat || (code =? 205)%nat || (code =? 304)%nat).

(** [self.path] after [parse_request] has read the path [p]. *)
Definition effective_path (p : string) : string :=
  if startswith p "//" then "/" ++ lstrip is_slash p else p.

(** A request with a request line of three words, [cmd p v], whose
    version [v] the handler accepts and answers with headers, and with
    well-formed header lines [hs]. *)
Definition http1_request (req : request) (cmd p v : string)
  (hs : list (string * string)) : Prop :=
  (Z.of_nat (String.length (raw_requestline req)) <= 65536)%Z
  /\ split_ws (rstrip is_crlf (raw_requestline req)) = [cmd; p; v]
  /\ (exists base vn,
         BaseHTTPRequestHandler.parse_version v = Some (base, vn)
         /\ tuple_ge vn (2, 0)%Z = false)
  /\ v <> "HTTP/0.9"
  /\ raw_headers req = HeadersOk hs.

(** The console takes every text. *)
Definition console_works (W : World) : Prop :=
  forall n text, console W n text = true.

(** The handler after [parse_request] has accepted the request line
    [cmd p v] and the headers [hs]. *)
Definition parsed (req : request) (cmd p v : string) (hs : list (string * string))
  (h : handler) : handler :=
  mkHandler (client_address h) (directory h)
    (rstrip is_crlf (raw_requestline req)) v (Some cmd) (Some (effective_path p))
    hs true (headers_buffer h) (wfile h) (stdout h) (opened h).

(** The message and the explanation that [send_error] settles on, and
    the body it sends. *)
Definition error_message (code : nat) (message : option string) : string :=
  match message with
  | Some m => m
  | None => match responses code with Some (s, _) => s | None => "???" end
  end.

Definition error_explain (code : nat) (explain : option string) : string :=
  match explain with
  | Some e => e
  | None => match responses code with Some (_, l) => l | None => "???" end
  end.

Definition error_body (W : World) (code : nat) (message explain : option string)
  : string :=
  error_page W code (error_message code message) (error_explain code explain).

(** The body of the 404 response of [send_head]. *)
Definition not_found_body (W : World) : string :=
  error_body W 404 (Some "File not found") None.

(** The lines that [send_head] puts in the buffer for a file it sends. *)
Definition file_head (W : World) (name data : string) (mtime : Z) : list hline :=
  (response_head W 200 "OK" ++
   [Header "Content-type" (mime_type W name);
    Header "Content-Length" (str_of_nat (String.length data));
    Header "Last-Modified" (formatdate W mtime)])%list.

(** The method that [handle_one_request] calls for a command. *)
Definition dispatched (W : World) (cmd : string) : M unit :=
  match WasmHandler.do_method W cmd with
  | Some method => method
  | None =>
      BaseHTTPRequestHandler.send_error W (WasmHandler.self W) 501
        (Some ("Unsupported method (" ++ py_repr W cmd ++ ")")) None
  end.

(** [m] keeps the invariant [I], returns values in [Q] and raises
    exceptions in [E]. *)
Definition keeps {A : Type} (I : handler -> Prop) (m : M A) (Q : A -> Prop)
  (E : exn -> Prop) : Prop :=
  forall h, I h ->
    match m h with
    | Ret a h' => I h' /\ Q a
    | Raise e h' => I h' /\ E e
    end.

Definition any {A : Type} (a : A) : Prop := True.



(** Every header block written so far carries the CORS header. *)
Definition all_cors (h : handler) : Prop := Forall has_cors (wfile h).

(** The request has the path [p], and every header block written so far
    ends with the lines added for a [.wasm] path. *)
Definition wasm_blocks (p : string) (h : handler) : Prop :=
  path h = Some p /\ Forall ends_with_wasm (wfile h).






(** A handler that is about to end the headers of a 200 response for
    [/m.wasm]. *)
Definition before_end_headers : handler :=
  set_headers_buffer (file_head world_old "/srv/www/m.wasm" "not a module" 0)
    (set_request_version "HTTP/1.1" (set_path "/m.wasm" fresh)).

(* ================================================================== *)
(** ** What the further properties speak of *)

(** A line that the library itself puts in the header buffer: the status
    line, and the headers of [send_response], [send_error], [send_head]
    and [list_directory]. *)
Inductive library_line : hline -> Prop :=
| library_status : forall code message,
    library_line (StatusLine BaseHTTPRequestHandler.protocol_version code message)
| library_server : forall v, library_line (Header "Server" v)
| library_date : forall v, library_line (Header "Date" v)
| library_connection : library_line (Header "Connection" "close")
| library_error_type :
    library_line (Header "Content-Type" BaseHTTPRequestHandler.error_content_type)
| library_length : forall v, library_line (Header "Content-Length" v)
| library_type : forall v, library_line (Header "Content-type" v)
| library_location : forall v, library_line (Header "Location" v)
| library_modified : forall v, library_line (Header "Last-Modified" v).

(** An [Access-Control-Allow-Origin] header, whatever its value; header
    names compare without case. *)
Definition is_cors (l : hline) : bool :=
  match l with
  | Header k _ => lower k =? "access-control-allow-origin"
  | _ => false
  end.

(** A header block with one [Access-Control-Allow-Origin] header, the
    last line before the blank line. *)
Definition cors_once (c : chunk) : Prop :=
  match c with
  | HeaderBlock ls =>
      exists front, ls = (front ++ [cors_header; BlankLine])%list
                    /\ filter is_cors front = []
  | Body _ => True
  end.

(** A header block made of lines of the library followed by the lines
    that [WasmHandler.end_headers] adds for the path [p]. *)
Definition library_block (p : string) (c : chunk) : Prop :=
  match c with
  | HeaderBlock ls => exists lib, Forall library_line lib /\ ls = (lib ++ added p)%list
  | Body _ => True
  end.

(** The same for some path. *)
Definition hooked_block (c : chunk) : Prop := exists p, library_block p c.

(** The buffer holds lines of the library only, and every header block
    written so far is one of the library's with the added lines. *)
Definition hooked (h : handler) : Prop :=
  Forall library_line (BaseHTTPRequestHandler.pending h)
  /\ Forall hooked_block (wfile h).

(** The same while the request has the path [p]. *)
Definition hooked_for (p : string) (sent : list chunk) (h : handler) : Prop :=
  path h = Some p
  /\ Forall library_line (BaseHTTPRequestHandler.pending h)
  /\ exists blocks, wfile h = (sent ++ blocks)%list /\ Forall (library_block p) blocks.

(** The connection is to be closed after the request. *)
Definition closing (h : handler) : Prop := close_connection h = true.

(** A line as [log_message] prints it for a client at [host]. *)
Definition marked (host line : string) : Prop :=
  exists message, line = marker ++ " " ++ host ++ " - " ++ message.

(** Since the console had [printed], a handler for the client at
    [address] has printed log lines only. *)
Definition logging (address : string * N) (printed : list string) (h : handler) : Prop :=
  client_address h = address
  /\ exists lines, stdout h = (printed ++ lines)%list
                   /\ Forall (marked (fst address)) lines.




(** The connections among the arrivals. *)
Fixpoint accepted (incoming : list arrival) : list connection :=
  match incoming with
  | [] => []
  | Accepted c :: rest => c :: accepted rest
  | AcceptFailed :: rest => accepted rest
  end.

(** A chunk that is a header block. *)
Definition is_header_block (c : chunk) : bool :=
  match c with
  | HeaderBlock _ => true
  | Body _ => false
  end.

(** The request is a [HEAD], and only header blocks have been written
    since the client had received [sent]. *)
Definition head_only (sent : list chunk) (h : handler) : Prop :=
  command h = Some "HEAD"
  /\ exists blocks, wfile h = (sent ++ blocks)%list
                    /\ forallb is_header_block blocks = true.

(** A log line of one of the connections among the arrivals. *)
Definition logged_for (incoming : list arrival) (line : string) : Prop :=
  exists c, In c (accepted incoming) /\ marked (fst (peer c)) line.



(** The request line has no version ([HTTP/0.9]), and only bodies have
    been written since the client had received [sent]. *)
Definition bare (sent : list chunk) (h : handler) : Prop :=
  request_version h = "HTTP/0.9"
  /\ exists bodies, wfile h = (sent ++ bodies)%list
                    /\ forallb (fun c => negb (is_header_block c)) bodies = true.

(** A request with a request line of two words, [GET p], and with
    well-formed header lines [hs]. *)
Definition simple_request (req : request) (p : string)
  (hs : list (string * string)) : Prop :=
  (Z.of_nat (String.length (raw_requestline req)) <= 65536)%Z
  /\ split_ws (rstrip is_crlf (raw_requestline req)) = ["GET"; p]
  /\ raw_headers req = HeadersOk hs.

(** The index file that [send_head] finds in a directory: [index.html],
    or else [index.htm]. *)
Definition index_of (W : World) (local : string) : option string :=
  if SimpleHTTPRequestHandler.isfile W (path_join local "index.html")
  then Some (path_join local "index.html")
  else if SimpleHTTPRequestHandler.isfile W (path_join local "index.htm")
  then Some (path_join local "index.htm")
  else None.

(** The lines that [send_head] puts in the buffer for a redirection. *)
Definition redirect_head (W : World) (p : string) : list hline :=
  (response_head W 301 "Moved Permanently" ++
   [Header "Location" (redirect_url W p); Header "Content-Length" "0"])%list.


(** Two runs of a method agree: on related handlers they return the same
    value or raise the same exception, and leave related handlers. *)
Definition agree {A : Type} (R : handler -> handler -> Prop) (m1 m2 : M A) : Prop :=
  forall h1 h2, R h1 h2 ->
    match m1 h1, m2 h2 with
    | Ret a h1', Ret b h2' => a = b /\ R h1' h2'
    | Raise e h1', Raise e' h2' => e = e' /\ R h1' h2'
    | _, _ => False
    end.

(** The header blocks among the chunks written. *)
Definition header_blocks (out : list chunk) : list chunk := filter is_header_block out.

(** A handler of a [HEAD] request beside one of a [GET] request for the
    same path, version and headers: the client of the first has received
    the header blocks that the client of the second has. *)
Definition head_beside_get (g h : handler) : Prop :=
  command g = Some "GET" /\ command h = Some "HEAD"
  /\ client_address h = client_address g
  /\ directory h = directory g
  /\ request_version h = request_version g
  /\ path h = path g
  /\ headers h = headers g
  /\ close_connection h = close_connection g
  /\ headers_buffer h = headers_buffer g
  /\ opened h = opened g
  /\ wfile h = header_blocks (wfile g).

(* ================================================================== *)
(** ** A second example world *)

(** The served directory of [www_fs] with a subdirectory [pkg] that has
    no index file. *)
Definition site_fs (name : string) : node :=
  if name =? "/srv/www/pkg" then Dir (Some ["a.wasm"])
  else if name =? "/srv/www/pkg/" then Dir (Some ["a.wasm"])
  else if name =? "/srv/www/pkg/a.wasm" then File "module" 0 true
  else www_fs name.

Definition epoch : string := "Thu, 01 Jan 1970 00:00:00 GMT".

(** A world on [site_fs] in which the date [epoch] is understood. *)
Definition site_world : World :=
  mkWorld site_fs console_utf8 (fun _ => true) true mime_with_wasm pct_decode
    (fun url => before "#"%char (before "?"%char url))
    (fun url => url ++ "/")
    (fun _ => epoch) 0%Z
    (fun date => if date =? epoch then Some 0%Z else None)
    (fun _ _ names => join LF names)
    "utf-8"
    (fun code message _ => "Error " ++ str_of_nat code ++ ": " ++ message)
    (fun s => "'" ++ s ++ "'")
    "3.11.2"
    flush_works.

(** A request that asks whether the file has changed since [epoch]. *)
Definition conditional_get (line : string) : request :=
  mkRequest (line ++ CRLF) (HeadersOk [("If-Modified-Since", epoch)]).

(* ================================================================== *)
(** * Properties *)

Import BaseHTTPRequestHandler SimpleHTTPRequestHandler.

(** ** Strings *)
Lemma append_empty_r (s : string) : s ++ EmptyString = s.
Proof. induction s as [|c s IH]; simpl; [reflexivity | now rewrite IH]. Qed.

Lemma append_assoc (a b c : string) : (a ++ b) ++ c = a ++ (b ++ c).
Proof. induction a as [|x a IH]; simpl; [reflexivity | now rewrite IH]. Qed.

Lemma rev_onto_spec (s acc : string) : rev_onto s acc = rev_string s ++ acc.
Proof.
  unfold rev_string. revert acc.
  induction s as [|c s IH]; intros acc; simpl.
  - reflexivity.
  - rewrite IH. rewrite (IH (String c EmptyString)).
    now rewrite append_assoc.
Qed.

Lemma rev_string_cons (c : ascii) (s : string) :
  rev_string (String c s) = rev_string s ++ String c EmptyString.
Proof. unfold rev_string at 1. simpl. apply rev_onto_spec. Qed.

Lemma rev_string_app (a b : string) :
  rev_string (a ++ b) = rev_string b ++ rev_string a.
Proof.
  induction a as [|c a IH]; simpl.
  - now rewrite append_empty_r.
  - rewrite !rev_string_cons, IH. apply append_assoc.
Qed.

Lemma rev_string_involutive (s : string) : rev_string (rev_string s) = s.
Proof.
  induction s as [|c s IH]; [reflexivity|].
  rewrite rev_string_cons, rev_string_app, IH. reflexivity.
Qed.

Lemma startswith_app (p rest : string) : startswith (p ++ rest) p = true.
Proof.
  induction p as [|c p IH]; simpl; [reflexivity|].
  now rewrite Ascii.eqb_refl, IH.
Qed.

Lemma startswith_inv (s p : string) :
  startswith s p = true -> exists rest, s = p ++ rest.
Proof.
  revert s. induction p as [|c p IH]; intros s H; simpl in *.
  - now exists s.
  - destruct s as [|d s]; [discriminate|].
    apply andb_true_iff in H as [Hc Hp].
    apply Ascii.eqb_eq in Hc. subst d.
    destruct (IH s Hp) as [rest ->]. now exists rest.
Qed.

Lemma endswith_app (pre suffix : string) : endswith (pre ++ suffix) suffix = true.
Proof. unfold endswith. rewrite rev_string_app. apply startswith_app. Qed.

Lemma endswith_inv (s suffix : string) :
  endswith s suffix = true -> exists pre, s = pre ++ suffix.
Proof.
  unfold endswith. intros H.
  destruct (startswith_inv _ _ H) as [rest Hrest].
  exists (rev_string rest).
  rewrite <- (rev_string_involutive s), Hrest, rev_string_app.
  now rewrite rev_string_involutive.
Qed.

(** A prefix of [a ++ c :: b] is a prefix of [a] or reaches [c]. *)
Lemma startswith_through (a b x : string) (c : ascii) :
  startswith (a ++ String c b) x = true ->
  startswith a x = true \/ contains_char c x = true.
Proof.
  revert x. induction a as [|e a IH]; intros x H.
  - destruct x as [|d x]; [now left|]. simpl in *.
    apply andb_true_iff in H as [Hc _]. right.
    rewrite Ascii.eqb_sym in Hc. now rewrite Hc.
  - destruct x as [|d x]; [now left|]. simpl in *.
    apply andb_true_iff in H as [Hc Hx].
    destruct (IH x Hx) as [Hl | Hr].
    + left. now rewrite Hc, Hl.
    + right. rewrite Hr. apply orb_true_r.
Qed.

(** A suffix of [p ++ sep :: q] lies within [q] or contains [sep]. *)
Lemma endswith_after_sep (p q suffix : string) (sep : ascii) :
  endswith (p ++ String sep q) suffix = true ->
  endswith q suffix = true \/ contains_char sep (rev_string suffix) = true.
Proof.
  unfold endswith. rewrite rev_string_app, rev_string_cons, append_assoc.
  simpl. apply startswith_through.
Qed.

Lemma lstrip_slash_wasm (pre : string) :
  lstrip is_slash (pre ++ ".wasm") = lstrip is_slash pre ++ ".wasm".
Proof.
  induction pre as [|c pre IH]; [reflexivity|].
  simpl. destruct (is_slash c); [exact IH | reflexivity].
Qed.

Lemma effective_path_wasm (p : string) :
  endswith p ".wasm" = true -> endswith (effective_path p) ".wasm" = true.
Proof.
  intros H. unfold effective_path.
  destruct (startswith p "//"); [|exact H].
  destruct (endswith_inv _ _ H) as [pre ->].
  rewrite lstrip_slash_wasm.
  change ("/" ++ lstrip is_slash pre ++ ".wasm")
    with (("/" ++ lstrip is_slash pre) ++ ".wasm").
  apply endswith_app.
Qed.

Lemma pyformat_request (a b c : string) :
  pyformat (dquote ++ "%s" ++ dquote ++ " %s %s") [VStr a; VStr b; VStr c]
  = Some (dquote ++ a ++ dquote ++ " " ++ b ++ " " ++ c).
Proof. cbn. now rewrite append_empty_r. Qed.

Lemma pyformat_error (code : nat) (m : string) :
  pyformat "code %d, message %s" [VInt code; VStr m]
  = Some ("code " ++ str_of_nat code ++ ", message " ++ m).
Proof. cbn. now rewrite append_empty_r. Qed.

Arguments endswith : simpl never.
Arguments startswith : simpl never.
Arguments pyformat : simpl never.
Arguments str_of_nat : simpl never.
Arguments lower : simpl never.
Arguments String.eqb : simpl never.
Arguments BaseHTTPRequestHandler.buffer_append : simpl never.
Arguments SimpleHTTPRequestHandler.translate_path : simpl never.

Lemma version_test (v : string) : v <> "HTTP/0.9" -> (v =? "HTTP/0.9") = false.
Proof. intros H. now apply String.eqb_neq. Qed.

(** *** Sequencing *)

Lemma bind_Ret {A B : Type} (m : M A) (k : A -> M B) (h h' : handler) (a : A) :
  m h = Ret a h' -> bind m k h = k a h'.
Proof. unfold bind. now intros ->. Qed.


Lemma bind_assoc {A B C : Type} (m : M A) (k1 : A -> M B) (k2 : B -> M C)
  (h : handler) :
  bind (bind m k1) k2 h = bind m (fun a => bind (k1 a) k2) h.
Proof. unfold bind. destruct (m h); reflexivity. Qed.

Lemma bind_ret {A B : Type} (a : A) (k : A -> M B) (h : handler) :
  bind (ret a) k h = k a h.
Proof. reflexivity. Qed.

(** *** The header buffer *)

Lemma send_header_plain (keyword value : string) (h : handler) :
  request_version h <> "HTTP/0.9" ->
  (lower keyword =? "connection") = false ->
  send_header keyword value h = Ret tt (buffer_append (Header keyword value) h).
Proof.
  intros Hv Hk. apply version_test in Hv.
  unfold send_header, when, bind, gets, modify, ret.
  now rewrite Hv, Hk.
Qed.

Lemma send_header_close (h : handler) :
  request_version h <> "HTTP/0.9" ->
  send_header "Connection" "close" h =
  Ret tt (set_close_connection true (buffer_append (Header "Connection" "close") h)).
Proof.
  intros Hv. apply version_test in Hv.
  unfold send_header, when, bind, gets, modify, ret.
  now rewrite Hv.
Qed.

Lemma send_header_09 (keyword value : string) (h : handler) :
  request_version h = "HTTP/0.9" ->
  (lower keyword =? "connection") = false ->
  send_header keyword value h = Ret tt h.
Proof.
  intros Hv Hk. unfold send_header, when, bind, gets, modify, ret.
  now rewrite Hv, Hk.
Qed.

(** *** [WasmHandler.end_headers] *)

Lemma end_headers_spec (h : handler) (p : string) :
  path h = Some p ->
  request_version h <> "HTTP/0.9" ->
  WasmHandler.end_headers h =
  Ret tt
    (set_headers_buffer []
       (set_wfile
          (wfile h ++
           [HeaderBlock
              (pending h ++ (if endswith p ".wasm" then [wasm_header] else [])
                 ++ [cors_header; BlankLine])]) h)).
Proof.
  intros Hp Hv. unfold WasmHandler.end_headers.
  unfold bind at 1, gets at 1. rewrite Hp.
  destruct (endswith p ".wasm"); unfold when.
  - erewrite bind_Ret by (now apply send_header_plain).
    erewrite bind_Ret by (now apply send_header_plain).
    pose proof (version_test _ Hv) as Hv'.
    unfold end_headers, flush_headers, when, bind, gets, modify, ret, wfile_write.
    simpl. rewrite Hv'. unfold buffer_append, pending.
    destruct h; simpl. rewrite <- !app_assoc. reflexivity.
  - unfold ret at 1. unfold bind at 1.
    erewrite bind_Ret by (now apply send_header_plain).
    pose proof (version_test _ Hv) as Hv'.
    unfold end_headers, flush_headers, when, bind, gets, modify, ret, wfile_write.
    simpl. rewrite Hv'. unfold buffer_append, pending.
    destruct h; simpl. rewrite <- !app_assoc. reflexivity.
Qed.

Section Logging.

Variable W : World.

Lemma log_message_spec (format : string) (args : list pyval) (message : string)
  (h : handler) :
  pyformat format args = Some message ->
  console W (length (stdout h)) (log_line h message) = true ->
  WasmHandler.log_message W format args h =
  Ret tt (set_stdout (stdout h ++ [log_line h message]) h).
Proof.
  intros Hf Hc. unfold WasmHandler.log_message, address_string, bind, gets, print.
  rewrite Hf. unfold log_line in Hc. now rewrite Hc.
Qed.


End Logging.

Section Responses.

Variable W : World.

Lemma send_response_only_spec (code : nat) (message : option string) (h : handler) :
  request_version h <> "HTTP/0.9" ->
  send_response_only code message h =
  Ret tt (buffer_append (StatusLine protocol_version code (phrase code message)) h).
Proof.
  intros Hv. apply version_test in Hv.
  unfold send_response_only, when, bind, gets, modify. rewrite Hv. simpl.
  unfold phrase. destruct message as [m|]; [reflexivity|].
  destruct (responses code) as [[ph d]|]; reflexivity.
Qed.

Lemma send_response_spec (code : nat) (message : option string) (h : handler) :
  console W (length (stdout h)) (log_line h (request_log h code)) = true ->
  request_version h <> "HTTP/0.9" ->
  send_response W (WasmHandler.self W) code message h =
  Ret tt
    (set_headers_buffer (pending h ++ response_head W code (phrase code message))
       (set_stdout (stdout h ++ [log_line h (request_log h code)]) h)).
Proof.
  intros Hc Hv. unfold send_response, log_request.
  unfold bind at 1. unfold bind at 1, gets at 1.
  cbn [m_log_message WasmHandler.self].
  erewrite log_message_spec; [| apply pyformat_request | exact Hc].
  erewrite bind_Ret by (now apply send_response_only_spec).
  erewrite bind_Ret by (now apply send_header_plain).
  rewrite send_header_plain by (auto).
  unfold buffer_append, pending, response_head. destruct h; simpl.
  rewrite <- !app_assoc. reflexivity.
Qed.


End Responses.

Section Errors.

Variable W : World.

Lemma send_error_spec (code : nat) (message explain : option string)
  (h : handler) (p : string) :
  console_works W ->
  has_body code = true ->
  path h = Some p ->
  request_version h <> "HTTP/0.9" ->
  let m := error_message code message in
  let body := error_body W code message explain in
  send_error W (WasmHandler.self W) code message explain h =
  Ret tt
    (set_wfile
       (wfile h
        ++ [HeaderBlock (pending h ++ error_head W code m body ++ added p)]
        ++ (if negb match command h with Some c => c =? "HEAD" | None => false end
               && negb (is_empty body)
            then [Body body] else []))
       (set_headers_buffer []
          (set_close_connection true
             (set_stdout
                (stdout h ++ [log_line h (error_log code m);
                              log_line h (request_log h code)]) h)))).
Proof.
  intros Hcon Hb Hp Hv m body.
  unfold send_error, error_body, error_message, error_explain in *.
  destruct (responses code) as [[shortmsg longmsg]|];
    fold (has_body code); rewrite Hb;
    unfold log_error; cbn [m_log_message WasmHandler.self].
  all: erewrite bind_Ret
      by (apply log_message_spec; [apply pyformat_error | apply Hcon]).
  all: erewrite bind_Ret by (apply send_response_spec; [apply Hcon | exact Hv]).
  all: erewrite bind_Ret by (now apply send_header_close).
  all: rewrite bind_assoc; erewrite bind_Ret by (now apply send_header_plain).
  all: rewrite bind_assoc; erewrite bind_Ret by (now apply send_header_plain).
  all: rewrite bind_ret.
  all: cbn [m_end_headers WasmHandler.self].
  all: erewrite bind_Ret by (now apply end_headers_spec with (p := p)).
  all: unfold bind, gets, when, wfile_write, modify, ret; simpl.
  all: subst m body; unfold buffer_append, pending, error_head, response_head,
         added, log_line, request_log, phrase; simpl.
  all: match goal with
       | |- context [if ?c then _ else _] => destruct c
       end.
  all: destruct h; simpl; rewrite <- ?app_assoc; simpl; try reflexivity.
Qed.

End Errors.

Section Parsing.

Variable W : World.
Variable self : methods.

Lemma protocol_is_1_0 : ("HTTP/1.1" <=? protocol_version) = false.
Proof. reflexivity. Qed.

Lemma parse_request_headers_ok (req : request) (p : string)
  (hs : list (string * string)) (h : handler) :
  raw_headers req = HeadersOk hs ->
  path h = Some p ->
  close_connection h = true ->
  parse_request_headers W self req h =
  Ret true (set_headers hs (set_path (effective_path p) h)).
Proof.
  intros Hh Hp Hc.
  unfold parse_request_headers. rewrite Hh.
  unfold bind at 1, gets at 1. rewrite Hp.
  unfold effective_path.
  rewrite !protocol_is_1_0, !andb_false_r.
  destruct (startswith p "//");
    destruct (lower _ =? "close");
    unfold when, bind, modify, gets, ret;
    destruct h; simpl in *; subst; reflexivity.
Qed.

Lemma parse_request_ok (req : request) (cmd p v : string)
  (hs : list (string * string)) (h : handler) :
  http1_request req cmd p v hs ->
  parse_request W self req h = Ret true (parsed req cmd p v hs h).
Proof.
  intros (Hlen & Hwords & (base & vn & Hpv & Hlt) & Hv & Hh).
  unfold parse_request.
  cbn [when ret bind modify gets]. rewrite Hwords.
  cbn [length Nat.eqb Nat.leb last].
  rewrite Hpv, Hlt, protocol_is_1_0, andb_false_r.
  cbn [when ret bind modify gets].
  unfold parse_request_words.
  cbn [length Nat.eqb Nat.leb andb negb when ret bind modify gets].
  erewrite parse_request_headers_ok by (first [exact Hh | reflexivity]).
  unfold parsed. destruct h; reflexivity.
Qed.

Lemma words_not_empty (raw cmd p v : string) :
  split_ws (rstrip is_crlf raw) = [cmd; p; v] -> is_empty raw = false.
Proof. destruct raw; [discriminate | reflexivity]. Qed.

Variable do_method : string -> option (M unit).

Lemma handle_one_request_ok (req : request) (cmd p v : string)
  (hs : list (string * string)) (h : handler) :
  http1_request req cmd p v hs ->
  handle_one_request W self do_method req h =
  match do_method cmd with
  | None =>
      send_error W self 501
        (Some ("Unsupported method (" ++ py_repr W cmd ++ ")")) None
  | Some method => method
  end (parsed req cmd p v hs h).
Proof.
  intros Hreq. pose proof Hreq as (Hlen & Hwords & _).
  unfold handle_one_request.
  apply Z.ltb_ge in Hlen. rewrite Hlen.
  rewrite (words_not_empty _ _ _ _ Hwords).
  erewrite bind_Ret by (eapply parse_request_ok; eassumption).
  reflexivity.
Qed.

End Parsing.

Section Files.

Variable W : World.

Lemma send_head_file_200 (name data p : string) (mtime : Z) (h : handler) :
  console_works W ->
  path h = Some p ->
  request_version h <> "HTTP/0.9" ->
  endswith name "/" = false ->
  fs W name = File data mtime true ->
  not_modified W (headers h) mtime = false ->
  send_head_file W (WasmHandler.self W) name h =
  Ret (Some (mkFile (Some name) data))
    (set_wfile
       (wfile h ++ [HeaderBlock (pending h ++ file_head W name data mtime ++ added p)])
       (set_headers_buffer []
          (set_stdout (stdout h ++ [log_line h (request_log h 200)])
             (set_opened (opened h ++ [name]) h)))).
Proof.
  intros Hcon Hp Hv Hslash Hfs Hims.
  unfold send_head_file. rewrite Hslash, Hfs.
  cbn [bind modify gets set_opened headers]. rewrite Hims.
  erewrite bind_Ret by (apply send_response_spec; [apply Hcon | exact Hv]).
  erewrite bind_Ret by (now apply send_header_plain).
  erewrite bind_Ret by (now apply send_header_plain).
  erewrite bind_Ret by (now apply send_header_plain).
  cbn [m_end_headers WasmHandler.self].
  erewrite bind_Ret by (now apply end_headers_spec with (p := p)).
  unfold ret, buffer_append, pending, file_head, response_head, added, guess_type,
    date_time_string, log_line, request_log.
  destruct h; simpl. rewrite <- !app_assoc. reflexivity.
Qed.

Lemma send_head_regular (name data p : string) (mtime : Z) (h : handler) :
  path h = Some p ->
  name = translate_path W (directory h) p ->
  fs W name = File data mtime true ->
  send_head W (WasmHandler.self W) h = send_head_file W (WasmHandler.self W) name h.
Proof.
  intros Hp -> Hfs. unfold send_head.
  cbn [bind gets]. rewrite Hp. cbn [bind gets].
  unfold isdir. now rewrite Hfs.
Qed.

End Files.

Lemma lstrip_suffix (f : ascii -> bool) (s : string) :
  exists pre, s = pre ++ lstrip f s.
Proof.
  induction s as [|c s [pre IH]].
  - now exists EmptyString.
  - simpl. destruct (f c).
    + exists (String c pre). simpl. now rewrite <- IH.
    + now exists EmptyString.
Qed.

Lemma effective_path_wasm_eq (p : string) :
  endswith (effective_path p) ".wasm" = endswith p ".wasm".
Proof.
  destruct (endswith p ".wasm") eqn:E.
  - now apply effective_path_wasm.
  - unfold effective_path. destruct (startswith p "//"); [|exact E].
    destruct (endswith ("/" ++ lstrip is_slash p) ".wasm") eqn:E'; [|reflexivity].
    destruct (endswith_inv _ _ E') as [pre Hpre].
    destruct pre as [|c pre]; [discriminate|].
    simpl in Hpre. injection Hpre as _ Hpre.
    destruct (lstrip_suffix is_slash p) as [front Hfront].
    rewrite Hpre in Hfront.
    rewrite <- E. rewrite Hfront.
    change (front ++ pre ++ ".wasm") with (front ++ (pre ++ ".wasm")).
    rewrite <- append_assoc. symmetry. apply endswith_app.
Qed.

Lemma content_types_app (a b : list hline) :
  content_types (a ++ b) = (content_types a ++ content_types b)%list.
Proof.
  induction a as [|l a IH]; [reflexivity|].
  destruct l as [proto code m | k v |]; simpl; try exact IH.
  destruct (lower k =? "content-type"); simpl; now rewrite IH.
Qed.

Section Requests.

Variable W : World.

Lemma do_GET_200 (name data p : string) (mtime : Z) (h : handler) :
  console_works W ->
  path h = Some p ->
  request_version h <> "HTTP/0.9" ->
  name = translate_path W (directory h) p ->
  endswith name "/" = false ->
  fs W name = File data mtime true ->
  not_modified W (headers h) mtime = false ->
  do_GET W (WasmHandler.self W) h =
  Ret tt
    (set_wfile
       (wfile h ++ [HeaderBlock (pending h ++ file_head W name data mtime ++ added p)]
        ++ (if is_empty data then [] else [Body data]))
       (set_headers_buffer []
          (set_stdout (stdout h ++ [log_line h (request_log h 200)])
             (set_opened (opened h ++ [name]) h)))).
Proof.
  intros Hcon Hp Hv Hname Hslash Hfs Hims.
  unfold do_GET.
  erewrite bind_Ret.
  2:{ erewrite send_head_regular by eassumption.
      eapply send_head_file_200 with (p := p); eassumption. }
  unfold copyfile, when, wfile_write, modify, ret. cbn [f_data].
  destruct (is_empty data); destruct h; simpl; rewrite <- ?app_assoc; reflexivity.
Qed.

End Requests.

(** C1, as amended.  For every GET request with an HTTP/1.x request line
    whose path ends in [.wasm] and resolves to an existing readable file
    that is sent with status 200, the header block of the response is the
    library's own lines, among them [Content-type] with the type inferred
    from the file name, followed by the added [Content-Type:
    application/wasm], the CORS header and the blank line.  So the
    response has two Content-Type headers, the inferred one first and
    [application/wasm] last, whatever the bytes of the file: the added
    header follows the inferred one and does not replace it. *)
Theorem wasm_type_follows_inferred_type (W : World) (req : request)
  (p v data : string) (hs : list (string * string)) (mtime : Z) (h : handler) :
  console_works W ->
  http1_request req "GET" p v hs ->
  endswith p ".wasm" = true ->
  let name := translate_path W (directory h) (effective_path p) in
  fs W name = File data mtime true ->
  endswith name "/" = false ->
  not_modified W hs mtime = false ->
  wfile h = [] ->
  pending h = [] ->
  let r := WasmHandler.handle_one_request W req h in
  raised r = None
  /\ wfile (state_of r) =
     HeaderBlock (file_head W name data mtime ++ [wasm_header; cors_header; BlankLine])
     :: (if is_empty data then [] else [Body data])
  /\ content_types (response_headers (wfile (state_of r)))
     = [mime_type W name; "application/wasm"].
Proof.
  intros Hcon Hreq Hwasm name Hfs Hslash Hims Hw Hpend r.
  assert (Hr : r = Ret tt
     (set_wfile
       (HeaderBlock (file_head W name data mtime ++ [wasm_header; cors_header; BlankLine])
        :: (if is_empty data then [] else [Body data]))
       (set_headers_buffer []
          (set_stdout (stdout h ++ [log_line (parsed req "GET" p v hs h)
                                      (request_log (parsed req "GET" p v hs h) 200)])
             (set_opened (opened h ++ [name]) (parsed req "GET" p v hs h)))))).
  { subst r. unfold WasmHandler.handle_one_request.
    rewrite (handle_one_request_ok W _ _ req "GET" p v hs h Hreq).
    destruct Hreq as (_ & _ & _ & Hv & _).
    change (WasmHandler.do_method W "GET") with (Some (do_GET W (WasmHandler.self W))).
    cbv iota.
    erewrite do_GET_200 with (name := name) (p := effective_path p); eauto.
    unfold added. rewrite effective_path_wasm_eq, Hwasm.
    change (pending (parsed req "GET" p v hs h)) with (pending h).
    change (wfile (parsed req "GET" p v hs h)) with (wfile h).
    rewrite Hpend, Hw. reflexivity. }
  rewrite Hr. simpl. repeat split.
Qed.

Section Keeps.

Context {A B : Type}.
Variable I : handler -> Prop.
Variable E : exn -> Prop.

Lemma keeps_ret (a : A) (Q : A -> Prop) : Q a -> keeps I (ret a) Q E.
Proof. intros Hq h Hi. now split. Qed.

Lemma keeps_raise (e : exn) (Q : A -> Prop) : E e -> keeps I (raise e) Q E.
Proof. intros He h Hi. now split. Qed.

Lemma keeps_gets (f : handler -> A) (Q : A -> Prop) :
  (forall h, I h -> Q (f h)) -> keeps I (gets f) Q E.
Proof. intros Hq h Hi. split; auto. Qed.

Lemma keeps_bind (m : M A) (k : A -> M B) (Q1 : A -> Prop) (Q : B -> Prop) :
  keeps I m Q1 E ->
  (forall a, Q1 a -> keeps I (k a) Q E) ->
  keeps I (bind m k) Q E.
Proof.
  intros Hm Hk h Hi. unfold bind. specialize (Hm h Hi).
  destruct (m h) as [a h' | e h'].
  - destruct Hm as [Hi' Ha]. now apply Hk.
  - exact Hm.
Qed.

Lemma keeps_bind_gets (f : handler -> A) (k : A -> M B) (Q : B -> Prop) :
  (forall h0, I h0 -> keeps I (k (f h0)) Q E) ->
  keeps I (bind (gets f) k) Q E.
Proof. intros Hk h Hi. unfold bind, gets. now apply (Hk h). Qed.


End Keeps.

Lemma keeps_modify (I : handler -> Prop) (E : exn -> Prop) (f : handler -> handler)
  (Q : unit -> Prop) :
  (forall h, I h -> I (f h)) -> Q tt -> keeps I (modify f) Q E.
Proof. intros Hf Hq h Hi. split; auto. Qed.

Lemma keeps_when (I : handler -> Prop) (E : exn -> Prop) (c : bool) (m : M unit) :
  keeps I m any E -> keeps I (when c m) any E.
Proof. intros Hm. destruct c; [exact Hm | now apply keeps_ret]. Qed.

(** One step of a proof that a method keeps an invariant, for values
    that do not matter. *)
Ltac keeps_step :=
  lazymatch goal with
  | |- keeps _ (bind _ _) _ _ => apply keeps_bind with (Q1 := any); [ | intros ? _ ]
  | |- keeps _ (ret _) _ _ => apply keeps_ret; exact Logic.I
  | |- keeps _ (raise _) _ _ => apply keeps_raise; try exact Logic.I
  | |- keeps _ (gets _) _ _ => apply keeps_gets; intros; exact Logic.I
  | |- keeps _ (when _ _) _ _ => apply keeps_when
  | |- keeps _ (if ?c then _ else _) _ _ => destruct c
  | |- keeps _ (match ?x with _ => _ end) _ _ => destruct x
  end.

(** *** Invariants that the methods keep

    An invariant that does not depend on the attributes of the request
    and that survives printing, the sending of a header block through
    [WasmHandler.end_headers], the writing of a body and the opening of
    a file is kept by every method that answers a request. *)

Section Answering.

Variable W : World.
Variable I : handler -> Prop.

Hypothesis I_requestline : forall v h, I h -> I (set_requestline v h).
Hypothesis I_request_version : forall v h, I h -> I (set_request_version v h).
Hypothesis I_command : forall v h, I h -> I (set_command v h).
Hypothesis I_headers : forall v h, I h -> I (set_headers v h).
Hypothesis I_close_connection : forall v h, I h -> I (set_close_connection v h).
Hypothesis I_headers_buffer : forall v h, I h -> I (set_headers_buffer v h).
Hypothesis I_stdout : forall v h, I h -> I (set_stdout v h).
Hypothesis I_error_page :
  forall code message explain h,
    I h -> I (set_wfile (wfile h ++ [Body (error_page W code message explain)]) h).
Hypothesis I_hook : keeps I WasmHandler.end_headers any any.

Ltac setter :=
  solve [ auto
        | intros; unfold buffer_append; auto ].

Ltac keeps_auto :=
  repeat first
    [ solve [eauto 2]
    | keeps_step
    | apply keeps_modify; [setter | exact Logic.I] ].

Lemma keeps_print (text : string) : keeps I (print W text) any any.
Proof.
  intros h Hi. unfold print.
  destruct (console W (length (stdout h)) text); split; auto; exact Logic.I.
Qed.

Lemma keeps_log_message (format : string) (args : list pyval) :
  keeps I (WasmHandler.log_message W format args) any any.
Proof.
  unfold WasmHandler.log_message, address_string.
  pose proof keeps_print. keeps_auto.
Qed.

Lemma keeps_send_response_only (code : nat) (message : option string) :
  keeps I (send_response_only code message) any any.
Proof. unfold send_response_only. keeps_auto. Qed.

Lemma keeps_send_header (keyword value : string) :
  keeps I (send_header keyword value) any any.
Proof. unfold send_header. keeps_auto. Qed.

Lemma keeps_send_response (code : nat) (message : option string) :
  keeps I (send_response W (WasmHandler.self W) code message) any any.
Proof.
  unfold send_response, log_request.
  cbn [m_log_message WasmHandler.self].
  pose proof keeps_log_message. pose proof keeps_send_response_only.
  pose proof keeps_send_header. keeps_auto.
Qed.

Lemma keeps_send_error (code : nat) (message explain : option string) :
  keeps I (send_error W (WasmHandler.self W) code message explain) any any.
Proof.
  unfold send_error, log_error, wfile_write.
  cbn [m_log_message m_end_headers WasmHandler.self].
  pose proof keeps_log_message. pose proof keeps_send_response.
  pose proof keeps_send_header.
  destruct (responses code) as [[shortmsg longmsg]|].
  all: do 3 (apply keeps_bind with (Q1 := any); [solve [eauto 2] | intros ? _]).
  all: apply keeps_bind
         with (Q1 := fun b => match b with
                              | Some d => exists c m e, d = error_page W c m e
                              | None => True
                              end).
  all: try (destruct (_ && _); keeps_auto; apply keeps_ret; eauto).
  all: intros [d|] Hd; keeps_auto.
  all: destruct Hd as (c & m & e & ->); apply keeps_modify; [auto | exact Logic.I].
Qed.

(** With an invariant that survives the opening of any file and the
    writing of any body, the methods that send files keep it. *)

Hypothesis I_opened : forall v h, I h -> I (set_opened v h).
Hypothesis I_body : forall data h, I h -> I (set_wfile (wfile h ++ [Body data]) h).

Lemma keeps_wfile_body (data : string) : keeps I (wfile_write (Body data)) any any.
Proof. unfold wfile_write. apply keeps_modify; [auto | exact Logic.I]. Qed.

Lemma keeps_list_directory (name : string) :
  keeps I (list_directory W (WasmHandler.self W) name) any any.
Proof.
  unfold list_directory. cbn [m_end_headers WasmHandler.self].
  pose proof keeps_send_response. pose proof keeps_send_error.
  pose proof keeps_send_header. keeps_auto.
Qed.

Lemma keeps_send_head_file (name : string) :
  keeps I (send_head_file W (WasmHandler.self W) name) any any.
Proof.
  unfold send_head_file. cbn [m_end_headers WasmHandler.self].
  pose proof keeps_send_response. pose proof keeps_send_error.
  pose proof keeps_send_header. keeps_auto.
Qed.

Lemma keeps_send_head : keeps I (send_head W (WasmHandler.self W)) any any.
Proof.
  unfold send_head. cbn [m_end_headers WasmHandler.self].
  pose proof keeps_send_response. pose proof keeps_send_header.
  pose proof keeps_send_head_file. pose proof keeps_list_directory.
  keeps_auto.
Qed.

Lemma keeps_do_GET : keeps I (do_GET W (WasmHandler.self W)) any any.
Proof.
  unfold do_GET, copyfile. pose proof keeps_send_head. pose proof keeps_wfile_body.
  keeps_auto.
Qed.

Lemma keeps_do_HEAD : keeps I (do_HEAD W (WasmHandler.self W)) any any.
Proof. unfold do_HEAD. pose proof keeps_send_head. keeps_auto. Qed.

(** The method that a well-formed request is dispatched to. *)
Lemma keeps_dispatch (cmd : string) :
  keeps I
    match WasmHandler.do_method W cmd with
    | Some method => method
    | None =>
        send_error W (WasmHandler.self W) 501 (Some ("Unsupported method (" ++ py_repr W cmd ++ ")")) None
    end any any.
Proof.
  unfold WasmHandler.do_method.
  destruct (cmd =? "GET"); [apply keeps_do_GET|].
  destruct (cmd =? "HEAD"); [apply keeps_do_HEAD | apply keeps_send_error].
Qed.

(** With an invariant that does not depend on [(WasmHandler.self W).path] either, the
    whole of the handling of a connection keeps it. *)

Hypothesis I_path : forall v h, I h -> I (set_path v h).

Lemma keeps_parse_request (req : request) :
  keeps I (parse_request W (WasmHandler.self W) req) any any.
Proof.
  unfold parse_request, parse_request_words, parse_request_headers, handle_expect_100.
  cbn [m_end_headers WasmHandler.self].
  pose proof keeps_send_error. pose proof keeps_send_response_only.
  keeps_auto.
Qed.

Hypothesis I_dispatched : forall cmd, keeps I (dispatched W cmd) any any.

Lemma keeps_handle_one_request (req : request) :
  keeps I (WasmHandler.handle_one_request W req) any any.
Proof.
  unfold WasmHandler.handle_one_request, handle_one_request.
  pose proof keeps_send_error. pose proof keeps_parse_request.
  pose proof I_dispatched as Hd. unfold dispatched in Hd.
  keeps_auto.
Qed.

Lemma keeps_handle (reqs : list request) :
  keeps I (WasmHandler.handle W reqs) any any.
Proof.
  unfold WasmHandler.handle, handle.
  apply keeps_bind with (Q1 := any); [apply keeps_modify; auto; exact Logic.I | intros _ _].
  induction reqs as [|req rest IH]; cbn [handle_requests].
  - apply keeps_handle_one_request.
  - pose proof keeps_handle_one_request. keeps_auto.
Qed.

End Answering.

Ltac inert :=
  lazymatch goal with
  | |- forall v (h : handler), ?I h -> ?I (?f v h) => intros v [] Hi; exact Hi
  end.

(** *** Every header block carries the CORS header *)

Lemma end_headers_09 (h : handler) (p : string) :
  path h = Some p ->
  request_version h = "HTTP/0.9" ->
  WasmHandler.end_headers h = Ret tt h.
Proof.
  intros Hp Hv. unfold WasmHandler.end_headers.
  cbn [bind gets]. rewrite Hp.
  unfold when. destruct (endswith p ".wasm").
  - erewrite bind_Ret by (now apply send_header_09).
    erewrite bind_Ret by (now apply send_header_09).
    unfold end_headers, when, bind, gets. now rewrite Hv.
  - rewrite bind_ret.
    erewrite bind_Ret by (now apply send_header_09).
    unfold end_headers, when, bind, gets. now rewrite Hv.
Qed.

Lemma all_cors_hook : keeps all_cors WasmHandler.end_headers any any.
Proof.
  intros h Hi.
  destruct (path h) as [p|] eqn:Hp.
  - destruct (String.eqb_spec (request_version h) "HTTP/0.9") as [Hv | Hv].
    + rewrite (end_headers_09 h p Hp Hv). now split.
    + rewrite (end_headers_spec h p Hp Hv). split; [|exact Logic.I].
      unfold all_cors. simpl. apply Forall_app. split; [exact Hi|].
      constructor; [|constructor]. simpl.
      apply in_or_app. right. unfold added. apply in_or_app. right. now left.
  - unfold WasmHandler.end_headers. cbn [bind gets]. rewrite Hp. now split.
Qed.

Lemma all_cors_body (data : string) (h : handler) :
  all_cors h -> all_cors (set_wfile (wfile h ++ [Body data]) h).
Proof.
  intros Hi. unfold all_cors in *. simpl.
  apply Forall_app. split; [exact Hi | repeat constructor].
Qed.

Lemma all_cors_handle (W : World) (reqs : list request) :
  keeps all_cors (WasmHandler.handle W reqs) any any.
Proof.
  apply keeps_handle; try inert; try exact all_cors_hook;
    try (intros; now apply all_cors_body).
  intros cmd. unfold dispatched.
  apply keeps_dispatch; try inert; try exact all_cors_hook;
    intros; now apply all_cors_body.
Qed.

Lemma all_cors_noblock (W : World) (cwd : string) (a : arrival) (p : process) :
  Forall (Forall has_cors) (proc_sent p) ->
  Forall (Forall has_cors) (proc_sent (snd (TCPServer.handle_request_noblock W cwd a p))).
Proof.
  intros Hp. destruct a as [c|]; [|exact Hp].
  unfold TCPServer.handle_request_noblock.
  pose proof (all_cors_handle W (requests c)
                (TCPServer.new_handler cwd c (call SysAccept p))) as Hh.
  specialize (Hh (Forall_nil _)).
  destruct (WasmHandler.handle W (requests c) _) as [[] h | e h];
    destruct Hh as [Hh _]; simpl.
  - apply Forall_app. split; [exact Hp | repeat constructor; exact Hh].
  - destruct (is_Exception e); simpl;
      (apply Forall_app; split; [exact Hp | repeat constructor; exact Hh]).
Qed.

Lemma all_cors_serve_forever (W : World) (cwd : string) (incoming : list arrival)
  (last : exn) (p : process) :
  Forall (Forall has_cors) (proc_sent p) ->
  Forall (Forall has_cors)
    (proc_sent (snd (TCPServer.serve_forever W cwd incoming last p))).
Proof.
  revert p. induction incoming as [|a rest IH]; intros p Hp; simpl; [exact Hp|].
  pose proof (all_cors_noblock W cwd a p Hp) as Ha.
  destruct (TCPServer.handle_request_noblock W cwd a p) as [[e|] p'];
    simpl in *; [exact Ha | now apply IH].
Qed.

(** The flush at interpreter exit changes the exit status and what is
    reported on standard error, and nothing else. *)
Lemma finalize_stdout (W : World) (outcome : process * exit_status) :
  proc_stdout (fst (Py_Finalize W outcome)) = proc_stdout (fst outcome).
Proof.
  destruct outcome as [p status]. unfold Py_Finalize.
  now destruct (flush_ok W _).
Qed.

Lemma finalize_calls (W : World) (outcome : process * exit_status) :
  proc_calls (fst (Py_Finalize W outcome)) = proc_calls (fst outcome).
Proof.
  destruct outcome as [p status]. unfold Py_Finalize.
  now destruct (flush_ok W _).
Qed.

Lemma finalize_sent (W : World) (outcome : process * exit_status) :
  proc_sent (fst (Py_Finalize W outcome)) = proc_sent (fst outcome).
Proof.
  destruct outcome as [p status]. unfold Py_Finalize.
  now destruct (flush_ok W _).
Qed.

Lemma finalize_status (W : World) (outcome : process * exit_status) :
  snd (Py_Finalize W outcome)
  = if flush_ok W (length (proc_stdout (fst outcome))) then snd outcome
    else match snd outcome with
         | Exited _ => Exited 120
         | KilledBySigint => KilledBySigint
         end.
Proof.
  destruct outcome as [p status]. unfold Py_Finalize. cbn [fst snd].
  now destruct (flush_ok W _).
Qed.

Lemma finalize_exit_0 (W : World) (outcome : process * exit_status) :
  snd (Py_Finalize W outcome) = Exited 0 -> snd outcome = Exited 0.
Proof.
  rewrite finalize_status. destruct (flush_ok W _); [trivial|].
  now destruct (snd outcome).
Qed.

Lemma all_cors_main (W : World) (cwd : string) (r : run) :
  Forall (Forall has_cors) (proc_sent (fst (main W cwd r))).
Proof.
  unfold main. destruct (chdir_ok W); cbn [negb]; [|constructor].
  unfold TCPServer.init. destruct (bind_ok W PORT); [|constructor].
  cbv zeta.
  assert (Hbody : forall p,
             proc_sent p = [] ->
             Forall (Forall has_cors) (proc_sent (snd (with_body W cwd r p)))).
  { intros p Hp. unfold with_body, proc_print.
    destruct (console W _ banner); cbn [snd]; [|rewrite Hp; constructor].
    match goal with
    | |- context [TCPServer.serve_forever W cwd ?i ?l ?q] =>
        pose proof (all_cors_serve_forever W cwd i l q) as Hs;
        destruct (TCPServer.serve_forever W cwd i l q) as [e p']
    end.
    cbn [proc_sent snd] in Hs. rewrite Hp in Hs. specialize (Hs (Forall_nil _)).
    destruct e; cbn [snd]; try exact Hs.
    destruct (console W _ farewell); exact Hs. }
  match goal with
  | |- context [with_body W cwd r ?p] =>
      specialize (Hbody p eq_refl); destruct (with_body W cwd r p) as [e p']
  end.
  rewrite finalize_sent. cbn [snd] in Hbody.
  destruct e; exact Hbody.
Qed.

Section Missing.

Variable W : World.

Lemma do_GET_missing (name p : string) (h : handler) :
  console_works W ->
  path h = Some p ->
  request_version h <> "HTTP/0.9" ->
  name = translate_path W (directory h) p ->
  fs W name = NoEntry ->
  do_GET W (WasmHandler.self W) h =
  send_error W (WasmHandler.self W) 404 (Some "File not found") None h.
Proof.
  intros Hcon Hp Hv Hname Hfs.
  unfold do_GET.
  assert (Hhead : send_head W (WasmHandler.self W) h =
                  (send_error W (WasmHandler.self W) 404 (Some "File not found") None ;; ret None) h).
  { unfold send_head. unfold bind at 1, gets at 1. rewrite Hp.
    unfold bind at 1, gets at 1. rewrite <- Hname. unfold isdir. rewrite Hfs.
    unfold send_head_file. rewrite Hfs. now destruct (endswith name "/"). }
  unfold bind at 1. rewrite Hhead.
  rewrite (bind_Ret _ _ _ _ _
             (send_error_spec W 404 (Some "File not found") None h p Hcon eq_refl Hp Hv)).
  now rewrite (send_error_spec W 404 (Some "File not found") None h p Hcon eq_refl Hp Hv).
Qed.

End Missing.

(** C2, as amended.  Every header block that the server sends, to every
    connection of every run and for every status code, carries
    [Access-Control-Allow-Origin: *]; and a GET request with an HTTP/1.x
    request line for a path that names no file is answered with status
    404 in a header block that carries it.  (A response without a header
    block, as for an HTTP/0.9 request line, has no header to carry.) *)
Theorem cors_on_every_header_block :
  (forall (W : World) (cwd : string) (r : run),
      Forall (Forall has_cors) (proc_sent (fst (main W cwd r))))
  /\ (forall (W : World) (req : request) (p v : string)
             (hs : list (string * string)) (h : handler),
         console_works W ->
         http1_request req "GET" p v hs ->
         fs W (translate_path W (directory h) (effective_path p)) = NoEntry ->
         wfile h = [] ->
         pending h = [] ->
         let out := wfile (state_of (WasmHandler.handle_one_request W req h)) in
         status out = Some 404 /\ carries cors_header out).
Proof.
  split; [exact all_cors_main|].
  intros W req p v hs h Hcon Hreq Hfs Hw Hpend out. subst out.
  unfold WasmHandler.handle_one_request.
  rewrite (handle_one_request_ok W _ _ req "GET" p v hs h Hreq).
  destruct Hreq as (_ & _ & _ & Hv & _).
  change (WasmHandler.do_method W "GET") with (Some (do_GET W (WasmHandler.self W))).
  cbv iota.
  rewrite (do_GET_missing W _ (effective_path p)) by (auto; reflexivity).
  rewrite (send_error_spec W 404 (Some "File not found") None _ (effective_path p))
    by (auto; reflexivity).
  change (pending (parsed req "GET" p v hs h)) with (pending h).
  change (wfile (parsed req "GET" p v hs h)) with (wfile h).
  rewrite Hpend, Hw. cbn [state_of wfile set_wfile app].
  split; [reflexivity|].
  eexists. split; [left; reflexivity|].
  apply in_or_app. right. unfold added. apply in_or_app. right. now left.
Qed.

(** *** Header blocks of a request whose path ends in [.wasm] *)

Lemma wasm_blocks_hook (p : string) :
  endswith p ".wasm" = true ->
  keeps (wasm_blocks p) WasmHandler.end_headers any any.
Proof.
  intros Hwasm h [Hp Hi].
  destruct (String.eqb_spec (request_version h) "HTTP/0.9") as [Hv | Hv].
  - rewrite (end_headers_09 h p Hp Hv). now repeat split.
  - rewrite (end_headers_spec h p Hp Hv). rewrite Hwasm.
    repeat split; [exact Hp|]. simpl.
    apply Forall_app. split; [exact Hi|].
    constructor; [|constructor]. now exists (pending h).
Qed.

Lemma wasm_blocks_dispatch (W : World) (p cmd : string) :
  endswith p ".wasm" = true ->
  keeps (wasm_blocks p)
    match WasmHandler.do_method W cmd with
    | Some method => method
    | None =>
        send_error W (WasmHandler.self W) 501
          (Some ("Unsupported method (" ++ py_repr W cmd ++ ")")) None
    end any any.
Proof.
  intros Hwasm.
  assert (Hbody : forall data h,
             wasm_blocks p h -> wasm_blocks p (set_wfile (wfile h ++ [Body data]) h)).
  { intros data h [Hp Hi]. split; [exact Hp|]. simpl.
    apply Forall_app. split; [exact Hi | repeat constructor]. }
  apply keeps_dispatch; try inert;
    try (now apply wasm_blocks_hook); intros; now apply Hbody.
Qed.

(** C9, as amended.  The added Content-Type is decided by the raw path:
    for every request with an HTTP/1.x request line whose path ends in
    [.wasm], whatever the command and whatever the file system holds,
    every header block written for it ends with [Content-Type:
    application/wasm], the CORS header and the blank line; and when the
    path of a GET names no file, the response has status 404 and these
    header lines, the library's [Content-Type: text/html;charset=utf-8]
    among them before the added one. *)
Theorem wasm_type_decided_by_raw_path :
  (forall (W : World) (req : request) (cmd p v : string)
          (hs : list (string * string)) (h : handler),
      http1_request req cmd p v hs ->
      endswith p ".wasm" = true ->
      Forall ends_with_wasm (wfile h) ->
      Forall ends_with_wasm
        (wfile (state_of (WasmHandler.handle_one_request W req h))))
  /\ (forall (W : World) (req : request) (p v : string)
             (hs : list (string * string)) (h : handler),
         console_works W ->
         http1_request req "GET" p v hs ->
         endswith p ".wasm" = true ->
         fs W (translate_path W (directory h) (effective_path p)) = NoEntry ->
         wfile h = [] ->
         pending h = [] ->
         let out := wfile (state_of (WasmHandler.handle_one_request W req h)) in
         status out = Some 404
         /\ response_headers out =
            (error_head W 404 "File not found" (not_found_body W)
             ++ [wasm_header; cors_header; BlankLine])%list).
Proof.
  split.
  - intros W req cmd p v hs h Hreq Hwasm Hi.
    unfold WasmHandler.handle_one_request.
    rewrite (handle_one_request_ok W _ _ req cmd p v hs h Hreq).
    pose proof (wasm_blocks_dispatch W (effective_path p) cmd
                  (effective_path_wasm p Hwasm) (parsed req cmd p v hs h)) as Hk.
    destruct (match WasmHandler.do_method W cmd with
              | Some method => method
              | None => _
              end (parsed req cmd p v hs h)) as [a h' | e h'];
      apply Hk; now split.
  - intros W req p v hs h Hcon Hreq Hwasm Hfs Hw Hpend out. subst out.
    unfold WasmHandler.handle_one_request.
    rewrite (handle_one_request_ok W _ _ req "GET" p v hs h Hreq).
    destruct Hreq as (_ & _ & _ & Hv & _).
    change (WasmHandler.do_method W "GET") with (Some (do_GET W (WasmHandler.self W))).
    cbv iota.
    rewrite (do_GET_missing W _ (effective_path p)) by (auto; reflexivity).
    rewrite (send_error_spec W 404 (Some "File not found") None _ (effective_path p))
      by (auto; reflexivity).
    change (pending (parsed req "GET" p v hs h)) with (pending h).
    change (wfile (parsed req "GET" p v hs h)) with (wfile h).
    rewrite Hpend, Hw. cbn [state_of wfile set_wfile app].
    unfold added. rewrite (effective_path_wasm p Hwasm).
    split; reflexivity.
Qed.

(** C3, as amended.  [WasmHandler.end_headers] for a path that ends in
    [.wasm], on a request that is answered with headers, appends
    [Content-Type: application/wasm] and the CORS header after the
    lines that the library has put in the buffer, and sends the block:
    the library's Content-Type headers come first and the added value
    is the last one. *)
Theorem added_type_follows_library_headers (h : handler) (p : string) :
  path h = Some p ->
  endswith p ".wasm" = true ->
  request_version h <> "HTTP/0.9" ->
  exists h',
    WasmHandler.end_headers h = Ret tt h'
    /\ wfile h' =
       (wfile h ++ [HeaderBlock (pending h ++ [wasm_header; cors_header; BlankLine])])%list
    /\ content_types (pending h ++ [wasm_header; cors_header; BlankLine])
       = (content_types (pending h) ++ ["application/wasm"])%list.
Proof.
  intros Hp Hwasm Hv. eexists. split; [|split].
  - rewrite (end_headers_spec h p Hp Hv), Hwasm. reflexivity.
  - reflexivity.
  - now rewrite content_types_app.
Qed.

Lemma wasm_suffix_separated (base query : string) (sep : ascii) :
  sep = "?"%char \/ sep = "#"%char ->
  endswith query ".wasm" = false ->
  endswith (base ++ String sep query) ".wasm" = false.
Proof.
  intros Hsep Hq.
  destruct (endswith (base ++ String sep query) ".wasm") eqn:E; [|reflexivity].
  destruct (endswith_after_sep _ _ _ _ E) as [H | H].
  - congruence.
  - destruct Hsep; subst sep; discriminate.
Qed.

(** C10, as amended.  For every GET request with an HTTP/1.x request
    line whose raw path is [base ? query] or [base # fragment], where the
    query or fragment does not itself end in [.wasm], and which resolves
    to an existing readable file sent with status 200: the header block
    is the library's own lines followed by the CORS header only, and the
    response carries no added [Content-Type: application/wasm]. *)
Theorem suffixed_path_gets_no_added_type (W : World) (req : request)
  (base query v data : string) (sep : ascii) (hs : list (string * string))
  (mtime : Z) (h : handler) :
  console_works W ->
  http1_request req "GET" (base ++ String sep query) v hs ->
  sep = "?"%char \/ sep = "#"%char ->
  endswith query ".wasm" = false ->
  let name :=
    translate_path W (directory h) (effective_path (base ++ String sep query)) in
  fs W name = File data mtime true ->
  endswith name "/" = false ->
  not_modified W hs mtime = false ->
  wfile h = [] ->
  pending h = [] ->
  let out := wfile (state_of (WasmHandler.handle_one_request W req h)) in
  out = HeaderBlock (file_head W name data mtime ++ [cors_header; BlankLine])
        :: (if is_empty data then [] else [Body data])
  /\ ~ carries wasm_header out.
Proof.
  intros Hcon Hreq Hsep Hq name Hfs Hslash Hims Hw Hpend out.
  assert (Hout : out = HeaderBlock (file_head W name data mtime ++ [cors_header; BlankLine])
                       :: (if is_empty data then [] else [Body data])).
  { subst out. unfold WasmHandler.handle_one_request.
    rewrite (handle_one_request_ok W _ _ req "GET" _ v hs h Hreq).
    destruct Hreq as (_ & _ & _ & Hv & _).
    change (WasmHandler.do_method W "GET") with (Some (do_GET W (WasmHandler.self W))).
    cbv iota.
    erewrite do_GET_200
      with (name := name) (p := effective_path (base ++ String sep query)); eauto.
    unfold added.
    rewrite effective_path_wasm_eq, (wasm_suffix_separated _ _ _ Hsep Hq).
    change (pending (parsed req "GET" (base ++ String sep query) v hs h)) with (pending h).
    change (wfile (parsed req "GET" (base ++ String sep query) v hs h)) with (wfile h).
    rewrite Hpend, Hw. reflexivity. }
  split; [exact Hout|].
  rewrite Hout. intros (ls & Hin & Hl).
  assert (Hls : ls = (file_head W name data mtime ++ [cors_header; BlankLine])%list).
  { destruct Hin as [Hin | Hin]; [congruence|].
    destruct (is_empty data); simpl in Hin; [contradiction|].
    destruct Hin as [Hin | []]. discriminate. }
  subst ls. unfold file_head, response_head, wasm_header, cors_header in Hl.
  simpl in Hl. intuition discriminate.
Qed.

(** *** Files are served from below the directory *)





Section Serving.

Variable W : World.
Variable root : string.














End Serving.


(** *** A console that refuses the log line *)

Section Refused.

Variable W : World.
Variable sent : list chunk.
Variable printed : list string.

Hypothesis refused : forall text, console W (length printed) text = false.














End Refused.



(** *** The main block *)

(** C5.  When the port cannot be bound, the process ends with exit
    status 1: [bind] has been called at most once, on [PORT] and on no
    other port, the socket is closed, the server has never listened,
    nothing has been printed and no connection has been served. *)
Theorem bind_failure_is_fatal (W : World) (cwd : string) (r : run) :
  bind_ok W PORT = false ->
  let p := fst (main W cwd r) in
  snd (main W cwd r) = Exited 1
  /\ (proc_calls p = [SysChdir]
      \/ proc_calls p = [SysChdir; SysSocket; SysBind PORT; SysClose])
  /\ proc_stdout p = []
  /\ proc_sent p = [].
Proof.
  intros Hbind p. subst p. unfold main.
  destruct (chdir_ok W); simpl.
  - unfold TCPServer.init. rewrite Hbind. simpl. repeat split. now right.
  - repeat split. now left.
Qed.

Lemma serve_forever_ending (W : World) (cwd : string) (incoming : list arrival)
  (last : exn) (p : process) :
  fst (TCPServer.serve_forever W cwd incoming last p) = last
  \/ fst (TCPServer.serve_forever W cwd incoming last p) = KeyboardInterrupt.
Proof.
  revert p. induction incoming as [|a rest IH]; intros p; simpl; [now left|].
  destruct (TCPServer.handle_request_noblock W cwd a p) as [[e|] p'] eqn:Ha;
    [|apply IH].
  right. simpl. unfold TCPServer.handle_request_noblock in Ha.
  destruct a as [c|]; [|discriminate].
  destruct (raised _) as [e'|]; [|discriminate].
  destruct e'; simpl in Ha; congruence.
Qed.

Lemma serve_forever_calls (W : World) (cwd : string) (incoming : list arrival)
  (last : exn) (p : process) :
  exists more,
    proc_calls (snd (TCPServer.serve_forever W cwd incoming last p))
    = (proc_calls p ++ more)%list.
Proof.
  revert p. induction incoming as [|a rest IH]; intros p; simpl.
  - exists []. now rewrite app_nil_r.
  - assert (Ha : exists more,
               proc_calls (snd (TCPServer.handle_request_noblock W cwd a p))
               = (proc_calls p ++ more)%list).
    { unfold TCPServer.handle_request_noblock.
      destruct a as [c|]; [|now exists [SysAccept]].
      destruct (raised _) as [e|]; [destruct (is_Exception e)|]; simpl;
        exists [SysAccept; SysCloseRequest]; now rewrite <- app_assoc. }
    destruct (TCPServer.handle_request_noblock W cwd a p) as [[e|] p'];
      simpl in *; [exact Ha|].
    destruct Ha as [more Ha]. destruct (IH p') as [more' IH'].
    exists (more ++ more')%list. now rewrite IH', Ha, app_assoc.
Qed.

(** C7, as amended.  When the script has changed directory, bound the
    port and printed its banner, and [serve_forever] is ended by an
    interrupt, and [print] takes the farewell text: the farewell is the
    last text printed and the listening socket is closed last.  The
    exit status is 0 when the flush of standard output at interpreter
    exit succeeds, and 120 when it fails: the texts that are still in
    the buffer, the farewell among them, are then lost.  So a status
    other than 0 is not reserved for a failure to bind. *)
Theorem interrupt_ends_cleanly (W : World) (cwd : string) (r : run) :
  chdir_ok W = true ->
  bind_ok W PORT = true ->
  console W 0 banner = true ->
  (forall n, console W n farewell = true) ->
  ending r = KeyboardInterrupt ->
  let p := fst (main W cwd r) in
  (exists before, proc_stdout p = (before ++ [farewell])%list)
  /\ (exists before,
         proc_calls p
         = ([SysChdir; SysSocket; SysBind PORT; SysListen] ++ before ++ [SysClose])%list)
  /\ snd (main W cwd r)
     = if flush_ok W (length (proc_stdout p)) then Exited 0 else Exited 120.
Proof.
  intros Hchdir Hbind Hbanner Hfarewell Hend p. subst p.
  assert (Hmain : exists q more,
             proc_calls q
             = ([SysChdir; SysSocket; SysBind PORT; SysListen] ++ more)%list
             /\ main W cwd r
                = Py_Finalize W
                    (TCPServer.server_close
                       (mkProcess (proc_stdout q ++ [farewell]) (proc_stderr q)
                          (proc_calls q) (proc_sent q)),
                     Exited 0)).
  { unfold main. rewrite Hchdir. cbn [negb].
    unfold TCPServer.init. rewrite Hbind. cbv zeta.
    unfold with_body. unfold proc_print at 1.
    cbn [call proc_stdout proc_stderr proc_calls proc_sent length app].
    rewrite Hbanner.
    match goal with
    | |- context [TCPServer.serve_forever W cwd ?i ?l ?q] =>
        pose proof (serve_forever_ending W cwd i l q) as He;
        pose proof (serve_forever_calls W cwd i l q) as [more Hc];
        destruct (TCPServer.serve_forever W cwd i l q) as [e p']
    end.
    cbn [fst snd proc_calls] in He, Hc. rewrite Hend in He.
    assert (e = KeyboardInterrupt) as -> by (now destruct He).
    unfold proc_print. rewrite Hfarewell.
    exists p', more. split; [exact Hc | reflexivity]. }
  destruct Hmain as (q & more & Hc & ->).
  rewrite finalize_stdout, finalize_calls, finalize_status.
  cbn [fst snd TCPServer.server_close call proc_stdout proc_calls].
  split; [now eexists|]. split; [|reflexivity].
  exists more. rewrite Hc. now rewrite <- app_assoc.
Qed.

(** C8, as amended.  Every call of [log_message] prints one line,
    [marker client-host - message].  A GET request with an HTTP/1.x
    request line that is answered with the file prints exactly one line,
    with the quoted request line, the status 200 and [-]; one that is
    answered 404 prints two, the first for [log_error] and the second
    for [log_request]. *)
Theorem log_lines_of_a_request (W : World) (req : request) (p v : string)
  (hs : list (string * string)) (h : handler) :
  console_works W ->
  http1_request req "GET" p v hs ->
  let name := translate_path W (directory h) (effective_path p) in
  let host := fst (client_address h) in
  let line := rstrip is_crlf (raw_requestline req) in
  let r := WasmHandler.handle_one_request W req h in
  let sent_line :=
    marker ++ " " ++ host ++ " - " ++ dquote ++ line ++ dquote ++ " 200 -" in
  let error_line := marker ++ " " ++ host ++ " - code 404, message File not found" in
  let missing_line :=
    marker ++ " " ++ host ++ " - " ++ dquote ++ line ++ dquote ++ " 404 -" in
  (forall format args message h0,
      pyformat format args = Some message ->
      WasmHandler.log_message W format args h0 =
      Ret tt
        (set_stdout
           (stdout h0 ++ [marker ++ " " ++ fst (client_address h0) ++ " - " ++ message])
           h0))
  /\ (forall data mtime,
         fs W name = File data mtime true ->
         endswith name "/" = false ->
         not_modified W hs mtime = false ->
         stdout (state_of r) = (stdout h ++ [sent_line])%list)
  /\ (fs W name = NoEntry ->
      stdout (state_of r) = (stdout h ++ [error_line; missing_line])%list).
Proof.
  intros Hcon Hreq name host line r sent_line error_line missing_line.
  assert (Hr : r = do_GET W (WasmHandler.self W) (parsed req "GET" p v hs h)).
  { subst r. unfold WasmHandler.handle_one_request.
    now rewrite (handle_one_request_ok W _ _ req "GET" p v hs h Hreq). }
  destruct Hreq as (_ & _ & _ & Hv & _).
  split; [|split].
  - intros format args message h0 Hf.
    apply log_message_spec; [exact Hf | apply Hcon].
  - intros data mtime Hfs Hslash Hims. rewrite Hr.
    erewrite do_GET_200 with (name := name) (p := effective_path p); eauto.
  - intros Hfs. rewrite Hr.
    rewrite (do_GET_missing W name (effective_path p)) by (auto; reflexivity).
    rewrite (send_error_spec W 404 (Some "File not found") None _ (effective_path p))
      by (auto; reflexivity).
    reflexivity.
Qed.

(** *** The properties on the example worlds *)

Lemma console_utf8_works (mime : string -> string) (port_free : bool) :
  console_works (example_world mime console_utf8 port_free).
Proof. intros n text. reflexivity. Qed.

Lemma get_is_http1 (cmd p : string) :
  split_ws (rstrip is_crlf (cmd ++ " " ++ p ++ " HTTP/1.1" ++ CRLF)) = [cmd; p; "HTTP/1.1"] ->
  (Z.of_nat (String.length (cmd ++ " " ++ p ++ " HTTP/1.1" ++ CRLF)) <= 65536)%Z ->
  http1_request (get (cmd ++ " " ++ p ++ " HTTP/1.1")) cmd p "HTTP/1.1" [].
Proof.
  intros Hwords Hlen. unfold http1_request, get. cbn [raw_requestline raw_headers].
  rewrite !append_assoc. cbn [append] in *.
  repeat split; try assumption.
  - exists "1.1", (1, 1)%Z. split; reflexivity.
  - discriminate.
Qed.

(** C1: the theorem at [/m.wasm] with tables that do not know [.wasm]. *)
Lemma wasm_type_follows_inferred_type_witness :
  content_types (response_headers (answer world_old "GET /m.wasm HTTP/1.1"))
  = ["application/octet-stream"; "application/wasm"].
Proof.
  apply (wasm_type_follows_inferred_type world_old (get "GET /m.wasm HTTP/1.1")
           "/m.wasm" "HTTP/1.1" "not a module" [] 0%Z fresh).
  - apply console_utf8_works.
  - apply (get_is_http1 "GET" "/m.wasm"); [reflexivity | vm_compute; discriminate].
  - reflexivity.
  - reflexivity.
  - reflexivity.
  - reflexivity.
  - reflexivity.
  - reflexivity.
Defined.

(** C1: the claim as stated. *)
Lemma wasm_type_is_not_the_only_content_type :
  ~ content_type_is "application/wasm" (answer world_old "GET /m.wasm HTTP/1.1").
Proof.
  intros [_ H]. vm_compute in H. inversion H. discriminate.
Qed.

(** C2: the second part of the theorem at a missing file. *)
Lemma cors_on_every_header_block_witness :
  status (answer world311 "GET /nope HTTP/1.1") = Some 404
  /\ carries cors_header (answer world311 "GET /nope HTTP/1.1").
Proof.
  apply (proj2 cors_on_every_header_block world311 (get "GET /nope HTTP/1.1")
           "/nope" "HTTP/1.1" [] fresh).
  - apply console_utf8_works.
  - apply (get_is_http1 "GET" "/nope"); [reflexivity | vm_compute; discriminate].
  - reflexivity.
  - reflexivity.
  - reflexivity.
Defined.

(** C2: a request line without a version is answered without headers. *)
Lemma no_cors_header_for_http09 :
  answer world311 "GET /index.html" = [Body "<h1>hello</h1>"]
  /\ ~ carries cors_header (answer world311 "GET /index.html").
Proof.
  split; [reflexivity|].
  intros (ls & Hin & _). vm_compute in Hin.
  destruct Hin as [Hin | []]. discriminate.
Qed.

(** C3: the theorem with the library's lines in the buffer. *)
Lemma added_type_follows_library_headers_witness :
  exists h',
    WasmHandler.end_headers before_end_headers = Ret tt h'
    /\ wfile h' =
       [HeaderBlock
          (file_head world_old "/srv/www/m.wasm" "not a module" 0
           ++ [wasm_header; cors_header; BlankLine])]
    /\ content_types
         (file_head world_old "/srv/www/m.wasm" "not a module" 0
          ++ [wasm_header; cors_header; BlankLine])
       = ["application/octet-stream"; "application/wasm"].
Proof.
  apply (added_type_follows_library_headers before_end_headers "/m.wasm").
  - reflexivity.
  - reflexivity.
  - discriminate.
Defined.

(** C3: the library's header is in the block before the added one. *)
Lemma added_type_is_not_sent_first :
  let sent := response_headers (answer world_old "GET /m.wasm HTTP/1.1") in
  let inferred := Header "Content-type" "application/octet-stream" in
  sent_before inferred wasm_header sent /\ ~ sent_before wasm_header inferred sent.
Proof.
  split.
  - exists 3, 6. repeat split. lia.
  - intros (i & j & Hi & Hj & Hlt).
    vm_compute in Hi, Hj. injection Hi as <-. injection Hj as <-. lia.
Qed.


(** C5: the theorem with the port taken. *)
Lemma bind_failure_is_fatal_witness :
  let W := example_world mime_with_wasm console_utf8 false in
  bind_ok W PORT = false
  /\ snd (main W "/srv/www" (one_request "GET / HTTP/1.1")) = Exited 1.
Proof.
  intros W. split; [reflexivity|].
  apply (bind_failure_is_fatal W "/srv/www" (one_request "GET / HTTP/1.1")).
  reflexivity.
Defined.


(** C7: the theorem on a run with one request, at a terminal. *)
Lemma interrupt_ends_cleanly_witness :
  snd (main world311 "/srv/www" (one_request "GET / HTTP/1.1")) = Exited 0.
Proof.
  pose proof (interrupt_ends_cleanly world311 "/srv/www"
                (one_request "GET / HTTP/1.1") eq_refl eq_refl eq_refl
                (fun n => eq_refl) eq_refl) as (_ & _ & Hexit).
  exact Hexit.
Defined.

(** C7: the port is bound and the console cannot encode the banner; and
    the port is bound, every text is taken and the run is ended by an
    interrupt, but standard output is a pipe that the reader has
    closed. *)
Lemma nonzero_exit_without_bind_failure :
  let W := example_world mime_with_wasm console_ascii true in
  let outcome := main W "/srv/www" (one_request "GET / HTTP/1.1") in
  let piped := main world_pipe "/srv/www" (one_request "GET / HTTP/1.1") in
  bind_ok W PORT = true
  /\ In SysListen (proc_calls (fst outcome))
  /\ snd outcome = Exited 1
  /\ bind_ok world_pipe PORT = true
  /\ console_works world_pipe
  /\ ending (one_request "GET / HTTP/1.1") = KeyboardInterrupt
  /\ snd piped = Exited 120.
Proof. repeat split. vm_compute. tauto. Qed.

(** C8: the theorem at an existing and at a missing file. *)
Lemma log_lines_of_a_request_witness :
  let req := get "GET /index.html HTTP/1.1" in
  let logged :=
    marker ++ " " ++ fst (client_address fresh) ++ " - "
    ++ dquote ++ rstrip is_crlf (raw_requestline req) ++ dquote ++ " 200 -" in
  stdout (state_of (WasmHandler.handle_one_request world311 req fresh))
  = (stdout fresh ++ [logged])%list.
Proof.
  intros req logged.
  assert (Hreq : http1_request req "GET" "/index.html" "HTTP/1.1" []).
  { apply (get_is_http1 "GET" "/index.html"); [reflexivity | vm_compute; discriminate]. }
  pose proof (log_lines_of_a_request world311 req "/index.html" "HTTP/1.1" [] fresh
                (console_utf8_works _ _) Hreq) as H.
  destruct H as (_ & H & _).
  apply (H "<h1>hello</h1>" 0%Z); reflexivity.
Defined.

(** C8: two lines are printed for a request that is answered 404. *)
Lemma two_log_lines_for_an_error :
  length (stdout (state_of (WasmHandler.handle_one_request world311
                              (get "GET /nope HTTP/1.1") fresh))) = 2.
Proof. vm_compute. reflexivity. Qed.

(** C9: the theorem at a missing [.wasm] file. *)
Lemma wasm_type_decided_by_raw_path_witness :
  let out := answer world311 "GET /nope.wasm HTTP/1.1" in
  status out = Some 404
  /\ response_headers out =
     (error_head world311 404 "File not found" (not_found_body world311)
      ++ [wasm_header; cors_header; BlankLine])%list.
Proof.
  assert (Hreq : http1_request (get "GET /nope.wasm HTTP/1.1")
                   "GET" "/nope.wasm" "HTTP/1.1" []).
  { apply (get_is_http1 "GET" "/nope.wasm"); [reflexivity | vm_compute; discriminate]. }
  pose proof (proj2 wasm_type_decided_by_raw_path world311 (get "GET /nope.wasm HTTP/1.1")
                "/nope.wasm" "HTTP/1.1" [] fresh (console_utf8_works _ _) Hreq) as H.
  apply H; reflexivity.
Defined.

(** C9: a request line without a version is answered without headers,
    whatever the path. *)
Lemma no_wasm_type_for_http09 :
  answer world311 "GET /m.wasm" = [Body "not a module"]
  /\ ~ carries wasm_header (answer world311 "GET /m.wasm").
Proof.
  split; [reflexivity|].
  intros (ls & Hin & _). vm_compute in Hin.
  destruct Hin as [Hin | []]. discriminate.
Qed.

(** C10: the theorem at [/m.wasm?v=1]. *)
Lemma suffixed_path_gets_no_added_type_witness :
  ~ carries wasm_header (answer world311 "GET /m.wasm?v=1 HTTP/1.1").
Proof.
  apply (suffixed_path_gets_no_added_type world311 (get "GET /m.wasm?v=1 HTTP/1.1")
           "/m.wasm" "v=1" "HTTP/1.1" "not a module" "?"%char [] 0%Z fresh).
  - apply console_utf8_works.
  - apply (get_is_http1 "GET" "/m.wasm?v=1"); [reflexivity | vm_compute; discriminate].
  - now left.
  - reflexivity.
  - reflexivity.
  - reflexivity.
  - reflexivity.
  - reflexivity.
  - reflexivity.
Defined.

(** C10: a query that itself ends in [.wasm]. *)
Lemma added_type_for_a_query_ending_in_wasm :
  carries wasm_header (answer world311 "GET /m.wasm?v=.wasm HTTP/1.1").
Proof.
  unfold carries. vm_compute.
  eexists. split; [left; reflexivity|].
  do 6 right. left. reflexivity.
Qed.

(* ================================================================== *)
(** ** Further properties *)

(** *** Invariants that depend on the header buffer or on the connection

    An invariant may speak of the header buffer, of [close_connection]
    and of the console: it is kept by every method that answers a
    request when it survives the appending of a line of the library, the
    setting of [close_connection], the writing of a body, a call of
    [WasmHandler.log_message] and one of [WasmHandler.end_headers]. *)

Lemma keeps_hook (I : handler -> Prop) (E : exn -> Prop) :
  (forall a, E (AttributeError a)) ->
  (forall h p,
      I h -> path h = Some p -> request_version h <> "HTTP/0.9" ->
      I (set_headers_buffer []
           (set_wfile (wfile h ++ [HeaderBlock (pending h ++ added p)]) h))) ->
  keeps I WasmHandler.end_headers any E.
Proof.
  intros He Hi h Hh.
  destruct (path h) as [p|] eqn:Hp.
  - destruct (String.eqb_spec (request_version h) "HTTP/0.9") as [Hv | Hv].
    + rewrite (end_headers_09 h p Hp Hv). now split.
    + rewrite (end_headers_spec h p Hp Hv). split; [|exact Logic.I].
      now apply Hi.
  - unfold WasmHandler.end_headers. cbn [bind gets]. rewrite Hp. split; auto.
Qed.

Section Tracking.

Variable W : World.
Variable I : handler -> Prop.
Variable E : exn -> Prop.

Hypothesis E_attribute : forall a, E (AttributeError a).
Hypothesis E_type : E TypeError.

Hypothesis I_requestline : forall v h, I h -> I (set_requestline v h).
Hypothesis I_request_version : forall v h, I h -> I (set_request_version v h).
Hypothesis I_headers : forall v h, I h -> I (set_headers v h).
Hypothesis I_closing : forall h, I h -> I (set_close_connection true h).
Hypothesis I_append : forall l h, library_line l -> I h -> I (buffer_append l h).
Hypothesis I_log :
  forall format args, keeps I (WasmHandler.log_message W format args) any E.
Hypothesis I_hook : keeps I WasmHandler.end_headers any E.

Lemma track_send_response_only (code : nat) (message : option string) :
  keeps I (send_response_only code message) any E.
Proof.
  unfold send_response_only.
  apply keeps_bind_gets. intros h0 _. apply keeps_when.
  apply keeps_modify; [|exact Logic.I].
  intros h Hi. apply I_append; [constructor | exact Hi].
Qed.

Lemma track_send_header (keyword value : string) :
  library_line (Header keyword value) ->
  (lower keyword =? "connection") = false ->
  keeps I (send_header keyword value) any E.
Proof.
  intros Hl Hk. unfold send_header. rewrite Hk.
  apply keeps_bind_gets. intros h0 _.
  apply keeps_bind with (Q1 := any); [|intros _ _; now apply keeps_ret].
  apply keeps_when. apply keeps_modify; [|exact Logic.I].
  intros h Hi. now apply I_append.
Qed.

Lemma track_send_header_close : keeps I (send_header "Connection" "close") any E.
Proof.
  unfold send_header.
  change (lower "Connection" =? "connection") with true.
  change (lower "close" =? "close") with true.
  apply keeps_bind_gets. intros h0 _.
  apply keeps_bind with (Q1 := any).
  - apply keeps_when. apply keeps_modify; [|exact Logic.I].
    intros h Hi. apply I_append; [constructor | exact Hi].
  - intros _ _. apply keeps_modify; [exact I_closing | exact Logic.I].
Qed.

Ltac setter := solve [ auto ].

Ltac track_step :=
  first
    [ lazymatch goal with
      | |- keeps _ (send_header "Connection" "close") _ _ =>
          apply track_send_header_close
      | |- keeps _ (send_header _ _) _ _ =>
          apply track_send_header; [constructor | reflexivity]
      | |- keeps _ (send_response_only _ _) _ _ =>
          apply track_send_response_only
      | |- keeps _ WasmHandler.end_headers _ _ => exact I_hook
      | |- keeps _ (WasmHandler.log_message _ _ _) _ _ => apply I_log
      end
    | solve [eauto 2]
    | keeps_step
    | apply keeps_modify; [setter | exact Logic.I] ].

Ltac track := repeat track_step.

Lemma track_send_response (code : nat) (message : option string) :
  keeps I (send_response W (WasmHandler.self W) code message) any E.
Proof.
  unfold send_response, log_request.
  cbn [m_log_message WasmHandler.self].
  track.
Qed.

(** The body of an error page is written unless the command is
    [HEAD]. *)
Hypothesis I_error_page :
  forall code message explain h,
    I h ->
    match command h with Some c => c =? "HEAD" | None => false end = false ->
    I (set_wfile (wfile h ++ [Body (error_page W code message explain)]) h).

Lemma track_send_error (code : nat) (message explain : option string) :
  keeps I (send_error W (WasmHandler.self W) code message explain) any E.
Proof.
  unfold send_error, log_error.
  cbn [m_log_message m_end_headers WasmHandler.self].
  pose proof track_send_response.
  destruct (responses code) as [[shortmsg longmsg]|].
  all: do 3 (apply keeps_bind with (Q1 := any); [solve [track] | intros ? _]).
  all: apply keeps_bind
         with (Q1 := fun b => match b with
                              | Some d => exists c m e, d = error_page W c m e
                              | None => True
                              end).
  all: try (destruct (_ && _); track; apply keeps_ret; eauto).
  all: intros [d|] Hd; [|solve [track]].
  all: apply keeps_bind with (Q1 := any); [exact I_hook | intros _ _].
  all: destruct Hd as (c & m & e & ->).
  all: intros h Hi; unfold bind, gets, when, wfile_write, modify, ret.
  all: destruct (match command h with Some c0 => c0 =? "HEAD" | None => false end)
         eqn:Hc; cbn [negb andb]; [now split|].
  all: destruct (negb (is_empty _)); split; auto; exact Logic.I.
Qed.

Hypothesis I_opened : forall v h, I h -> I (set_opened v h).

Lemma track_list_directory (name : string) :
  keeps I (list_directory W (WasmHandler.self W) name) any E.
Proof.
  unfold list_directory. cbn [m_end_headers WasmHandler.self].
  pose proof track_send_response. pose proof track_send_error.
  track.
Qed.

Lemma track_send_head_file (name : string) :
  keeps I (send_head_file W (WasmHandler.self W) name) any E.
Proof.
  unfold send_head_file. cbn [m_end_headers WasmHandler.self].
  pose proof track_send_response. pose proof track_send_error.
  track.
Qed.

Lemma track_send_head : keeps I (send_head W (WasmHandler.self W)) any E.
Proof.
  unfold send_head. cbn [m_end_headers WasmHandler.self].
  pose proof track_send_response.
  pose proof track_send_head_file. pose proof track_list_directory.
  track.
Qed.

Lemma track_do_HEAD : keeps I (do_HEAD W (WasmHandler.self W)) any E.
Proof. unfold do_HEAD. pose proof track_send_head. track. Qed.

Hypothesis I_body : forall data h, I h -> I (set_wfile (wfile h ++ [Body data]) h).

Lemma track_do_GET : keeps I (do_GET W (WasmHandler.self W)) any E.
Proof.
  unfold do_GET, copyfile, wfile_write. pose proof track_send_head. track.
Qed.

Lemma track_dispatched (cmd : string) : keeps I (dispatched W cmd) any E.
Proof.
  unfold dispatched, WasmHandler.do_method.
  destruct (cmd =? "GET"); [apply track_do_GET|].
  destruct (cmd =? "HEAD"); [apply track_do_HEAD | apply track_send_error].
Qed.

Hypothesis I_command : forall v h, I h -> I (set_command v h).
Hypothesis I_path : forall v h, I h -> I (set_path v h).

Ltac http_1_0 :=
  progress (rewrite ?protocol_is_1_0, ?andb_false_r, ?andb_false_l; cbn [andb when]).

Lemma track_parse_request (req : request) :
  keeps I (parse_request W (WasmHandler.self W) req) any E.
Proof.
  unfold parse_request, parse_request_words, parse_request_headers, handle_expect_100.
  cbn [m_end_headers WasmHandler.self].
  pose proof track_send_error.
  repeat first [ http_1_0 | track_step ].
Qed.

Lemma track_handle_one_request (req : request) :
  keeps I (WasmHandler.handle_one_request W req) any E.
Proof.
  unfold WasmHandler.handle_one_request, handle_one_request.
  pose proof track_send_error. pose proof track_parse_request.
  pose proof track_dispatched as Hd. unfold dispatched in Hd.
  track.
Qed.

Lemma track_handle (reqs : list request) :
  keeps I (WasmHandler.handle W reqs) any E.
Proof.
  unfold WasmHandler.handle, handle.
  apply keeps_bind with (Q1 := any);
    [apply keeps_modify; [exact I_closing | exact Logic.I] | intros _ _].
  induction reqs as [|req rest IH]; cbn [handle_requests].
  - apply track_handle_one_request.
  - pose proof track_handle_one_request. track.
Qed.

End Tracking.

Lemma keeps_log (W : World) (I : handler -> Prop) (E : exn -> Prop)
  (format : string) (args : list pyval) :
  E TypeError -> E ConsoleError ->
  (forall v h, I h -> I (set_stdout v h)) ->
  keeps I (WasmHandler.log_message W format args) any E.
Proof.
  intros Ht Hc Hi h Hh.
  unfold WasmHandler.log_message, address_string, bind, gets, print.
  destruct (pyformat format args) as [message|]; [|now split].
  destruct (console W _ _); split; auto. exact Logic.I.
Qed.

(** *** One request for each connection *)

Lemma closing_handle_one_request (W : World) (req : request) :
  keeps closing (WasmHandler.handle_one_request W req) any any.
Proof.
  apply track_handle_one_request; try inert; try (intros; exact Logic.I).
  - intros h _. reflexivity.
  - intros l [] _ Hi. exact Hi.
  - intros format args. apply keeps_log; try exact Logic.I. inert.
  - apply keeps_hook; [intros; exact Logic.I|]. intros [] p Hi _ _. exact Hi.
  - intros code message explain [] Hi _. exact Hi.
  - intros data [] Hi. exact Hi.
Qed.

Lemma handle_first_request (W : World) (req : request) (rest : list request)
  (h : handler) :
  WasmHandler.handle W (req :: rest) h
  = WasmHandler.handle_one_request W req (set_close_connection true h).
Proof.
  unfold WasmHandler.handle, handle. cbn [bind modify handle_requests].
  pose proof (closing_handle_one_request W req (set_close_connection true h)
                eq_refl) as Hk.
  unfold WasmHandler.handle_one_request in *. unfold bind at 1.
  destruct (handle_one_request W (WasmHandler.self W) (WasmHandler.do_method W) req
              (set_close_connection true h)) as [[] h' | e h']; [|reflexivity].
  destruct Hk as [Hc _]. unfold closing in Hc.
  unfold bind, gets. now rewrite Hc.
Qed.

(** X5.  The handler answers one request for each connection: it keeps
    the library's protocol version HTTP/1.0, so [close_connection] stays
    set, whatever the version and the [Connection] header of the
    request.  Handling a connection is handling its first request, and
    the requests that follow it change nothing of what the server
    does. *)
Theorem one_request_for_each_connection :
  (forall (W : World) (req : request) (rest : list request) (h : handler),
      WasmHandler.handle W (req :: rest) h
      = WasmHandler.handle_one_request W req (set_close_connection true h))
  /\ (forall (W : World) (cwd : string) (client : string * N) (req : request)
             (rest : list request) (p : process),
         TCPServer.handle_request_noblock W cwd
           (Accepted (mkConnection client (req :: rest))) p
         = TCPServer.handle_request_noblock W cwd
             (Accepted (mkConnection client [req])) p).
Proof.
  split; [exact handle_first_request|].
  intros W cwd client req rest p.
  unfold TCPServer.handle_request_noblock. cbn [requests].
  now rewrite !handle_first_request.
Qed.

(** *** The handler raises no [KeyboardInterrupt] *)

Lemma handle_raises_exceptions (W : World) (reqs : list request) :
  keeps (fun _ => True) (WasmHandler.handle W reqs) any
    (fun e => is_Exception e = true).
Proof.
  apply track_handle; try (intros; exact Logic.I); try reflexivity.
  - intros format args. apply keeps_log; auto.
  - apply keeps_hook; auto.
Qed.

Lemma handle_request_noblock_returns (W : World) (cwd : string) (a : arrival)
  (p : process) :
  fst (TCPServer.handle_request_noblock W cwd a p) = None.
Proof.
  destruct a as [c|]; [|reflexivity].
  unfold TCPServer.handle_request_noblock.
  pose proof (handle_raises_exceptions W (requests c)
                (TCPServer.new_handler cwd c (call SysAccept p)) Logic.I) as Hk.
  destruct (WasmHandler.handle W (requests c) _) as [a h | e h]; [reflexivity|].
  destruct Hk as [_ He]. cbn [raised]. now rewrite He.
Qed.

(** [serve_forever] takes every arrival and ends by the exception of
    the run. *)
Lemma serve_forever_unfold (W : World) (cwd : string) (a : arrival)
  (rest : list arrival) (last : exn) (p : process) :
  TCPServer.serve_forever W cwd (a :: rest) last p
  = TCPServer.serve_forever W cwd rest last
      (snd (TCPServer.handle_request_noblock W cwd a p)).
Proof.
  cbn [TCPServer.serve_forever].
  pose proof (handle_request_noblock_returns W cwd a p) as Hn.
  destruct (TCPServer.handle_request_noblock W cwd a p) as [e p'].
  cbn [fst snd] in *. now rewrite Hn.
Qed.

Lemma serve_forever_last (W : World) (cwd : string) (incoming : list arrival)
  (last : exn) (p : process) :
  fst (TCPServer.serve_forever W cwd incoming last p) = last.
Proof.
  revert p. induction incoming as [|a rest IH]; intros p; [reflexivity|].
  rewrite serve_forever_unfold. apply IH.
Qed.

(** What holds of the process after every arrival holds after
    [serve_forever]. *)
Lemma serve_forever_ind (W : World) (cwd : string) (P : process -> Prop)
  (incoming : list arrival) (last : exn) (p : process) :
  (forall a q, In a incoming -> P q ->
               P (snd (TCPServer.handle_request_noblock W cwd a q))) ->
  P p -> P (snd (TCPServer.serve_forever W cwd incoming last p)).
Proof.
  revert p. induction incoming as [|a rest IH]; intros p Hstep Hp; [exact Hp|].
  rewrite serve_forever_unfold. apply IH.
  - intros b q Hb. apply Hstep. now right.
  - apply Hstep; [now left | exact Hp].
Qed.

(** The main block, when the directory is changed and the port bound. *)
Lemma main_banner_refused (W : World) (cwd : string) (r : run) :
  chdir_ok W = true ->
  bind_ok W PORT = true ->
  console W 0 banner = false ->
  main W cwd r =
  Py_Finalize W
    (uncaught ConsoleError
       (mkProcess [] [] [SysChdir; SysSocket; SysBind PORT; SysListen; SysClose] [])).
Proof.
  intros Hchdir Hbind Hbanner. unfold main. rewrite Hchdir. cbn [negb].
  unfold TCPServer.init. rewrite Hbind. cbv zeta.
  unfold with_body, proc_print. cbn [proc_stdout call length].
  now rewrite Hbanner.
Qed.

Lemma main_started (W : World) (cwd : string) (r : run) :
  chdir_ok W = true ->
  bind_ok W PORT = true ->
  console W 0 banner = true ->
  main W cwd r =
  let p :=
    snd (TCPServer.serve_forever W cwd (arrivals r) (ending r)
           (mkProcess [banner] [] [SysChdir; SysSocket; SysBind PORT; SysListen] []))
  in
  Py_Finalize W
    match ending r with
    | KeyboardInterrupt =>
        if console W (length (proc_stdout p)) farewell
        then (TCPServer.server_close
                (mkProcess (proc_stdout p ++ [farewell]) (proc_stderr p) (proc_calls p)
                   (proc_sent p)),
              Exited 0)
        else uncaught ConsoleError (TCPServer.server_close p)
    | e => uncaught e (TCPServer.server_close p)
    end.
Proof.
  intros Hchdir Hbind Hbanner. unfold main. rewrite Hchdir. cbn [negb].
  unfold TCPServer.init. rewrite Hbind. cbv zeta.
  unfold with_body. unfold proc_print at 1.
  cbn [call proc_stdout proc_stderr proc_calls proc_sent length app].
  rewrite Hbanner.
  match goal with
  | |- context [TCPServer.serve_forever W cwd ?i ?l ?q] =>
      pose proof (serve_forever_last W cwd i l q) as Hl;
      destruct (TCPServer.serve_forever W cwd i l q) as [e p2]
  end.
  cbn [fst snd] in *. subst e.
  destruct (ending r); try reflexivity.
  unfold proc_print. destruct (console W _ farewell); reflexivity.
Qed.

(** What every connection has received satisfies what the handler
    ensures for one connection. *)
Lemma sent_by_main (P : list chunk -> Prop) (W : World) (cwd : string) (r : run) :
  (forall c p,
      P (wfile (state_of (WasmHandler.handle W (requests c)
                            (TCPServer.new_handler cwd c p))))) ->
  Forall P (proc_sent (fst (main W cwd r))).
Proof.
  intros Hc.
  assert (Hstep : forall a q,
             Forall P (proc_sent q) ->
             Forall P (proc_sent (snd (TCPServer.handle_request_noblock W cwd a q)))).
  { intros a q Hq. destruct a as [c|]; [|exact Hq].
    unfold TCPServer.handle_request_noblock.
    specialize (Hc c (call SysAccept q)).
    destruct (WasmHandler.handle W (requests c) _) as [x h | e h]; cbn [raised state_of] in *.
    - cbn. apply Forall_app. split; [exact Hq | now constructor].
    - destruct (is_Exception e); cbn;
        (apply Forall_app; split; [exact Hq | now constructor]). }
  destruct (chdir_ok W) eqn:Hchdir; [|unfold main; rewrite Hchdir; constructor].
  destruct (bind_ok W PORT) eqn:Hbind.
  2:{ unfold main, TCPServer.init. rewrite Hchdir, Hbind. constructor. }
  destruct (console W 0 banner) eqn:Hbanner.
  2:{ rewrite (main_banner_refused W cwd r Hchdir Hbind Hbanner), finalize_sent.
      constructor. }
  rewrite (main_started W cwd r Hchdir Hbind Hbanner). cbv zeta.
  rewrite finalize_sent.
  match goal with
  | |- context [TCPServer.serve_forever W cwd ?i ?l ?p] =>
      pose proof (serve_forever_ind W cwd (fun q => Forall P (proc_sent q)) i l p
                    (fun a q _ => Hstep a q) (Forall_nil _)) as Hs;
      set (p2 := snd (TCPServer.serve_forever W cwd i l p)) in *
  end.
  destruct (ending r); try exact Hs.
  destruct (console W _ farewell); exact Hs.
Qed.

(** *** The header blocks: lines of the library, then the added lines *)

Lemma library_line_not_cors (l : hline) : library_line l -> is_cors l = false.
Proof. intros Hl. destruct Hl; reflexivity. Qed.

Lemma library_lines_no_cors (ls : list hline) :
  Forall library_line ls -> filter is_cors ls = [].
Proof.
  induction 1 as [|l ls Hl _ IH]; [reflexivity|].
  cbn [filter]. now rewrite (library_line_not_cors l Hl).
Qed.

Lemma library_line_not_wasm (l : hline) : library_line l -> l <> wasm_header.
Proof. intros Hl. destruct Hl; discriminate. Qed.

Lemma hooked_block_cors_once (c : chunk) : hooked_block c -> cors_once c.
Proof.
  intros [p Hc]. destruct c as [ls | data]; [|exact Logic.I].
  destruct Hc as (lib & Hlib & ->). unfold added.
  exists (lib ++ (if endswith p ".wasm" then [wasm_header] else []))%list.
  split; [now rewrite <- !app_assoc|].
  rewrite filter_app, (library_lines_no_cors lib Hlib).
  now destruct (endswith p ".wasm").
Qed.

Lemma hooked_handle (W : World) (reqs : list request) :
  keeps hooked (WasmHandler.handle W reqs) any any.
Proof.
  apply track_handle; try inert; try (intros; exact Logic.I).
  - intros h Hi. exact Hi.
  - intros l h Hl [Hp Hw]. split; [|exact Hw].
    unfold buffer_append. cbn. apply Forall_app. split; [exact Hp | now constructor].
  - intros format args. apply keeps_log; try exact Logic.I. inert.
  - apply keeps_hook; [intros; exact Logic.I|].
    intros h p [Hp Hw] _ _. split; [constructor|]. cbn.
    apply Forall_app. split; [exact Hw|]. constructor; [|constructor].
    exists p, (pending h). now split.
  - intros code message explain h [Hp Hw] _. split; [exact Hp|]. cbn.
    apply Forall_app. split; [exact Hw|]. constructor; [|constructor].
    now exists EmptyString.
  - intros data h [Hp Hw]. split; [exact Hp|]. cbn.
    apply Forall_app. split; [exact Hw|]. constructor; [|constructor].
    now exists EmptyString.
Qed.

(** X1.  In every header block that the server sends, to every
    connection of every run, [Access-Control-Allow-Origin: *] occurs
    once: it is the last line before the blank line, and no line before
    it is an [Access-Control-Allow-Origin] header, the names compared
    without case.  The library sends none of its own and
    [WasmHandler.end_headers] adds one to each block. *)
Theorem cors_header_once_and_last (W : World) (cwd : string) (r : run) :
  Forall (Forall cors_once) (proc_sent (fst (main W cwd r))).
Proof.
  apply sent_by_main. intros c p.
  pose proof (hooked_handle W (requests c) (TCPServer.new_handler cwd c p)) as Hk.
  assert (Hh : hooked (state_of (WasmHandler.handle W (requests c)
                                   (TCPServer.new_handler cwd c p)))).
  { destruct (WasmHandler.handle W (requests c) _); apply Hk; split; constructor. }
  destruct Hh as [_ Hw].
  eapply Forall_impl; [|exact Hw]. exact hooked_block_cors_once.
Qed.

(** *** The console *)

Lemma logging_handle (W : World) (reqs : list request) (address : string * N)
  (printed : list string) :
  keeps (logging address printed) (WasmHandler.handle W reqs) any any.
Proof.
  apply track_handle; try inert; try (intros; exact Logic.I).
  - intros h Hi. exact Hi.
  - intros l [] _ Hi. exact Hi.
  - intros format args h [Ha (lines & Hs & Hl)].
    unfold WasmHandler.log_message, address_string, bind, gets, print.
    destruct (pyformat format args) as [message|];
      [|split; [split; eauto | exact Logic.I]].
    destruct (console W _ _); (split; [|exact Logic.I]).
    + split; [exact Ha|]. exists (lines ++ [log_line h message])%list.
      cbn. rewrite Hs, <- app_assoc. split; [reflexivity|].
      apply Forall_app. split; [exact Hl|]. constructor; [|constructor].
      exists message. unfold log_line. now rewrite Ha.
    + split; eauto.
  - apply keeps_hook; [intros; exact Logic.I|]. intros [] p Hi _ _. exact Hi.
  - intros code message explain [] Hi _. exact Hi.
  - intros data [] Hi. exact Hi.
Qed.

Lemma accepted_in (c : connection) (incoming : list arrival) :
  In (Accepted c) incoming -> In c (accepted incoming).
Proof.
  induction incoming as [|a rest IH]; [contradiction|].
  intros [-> | Hin]; [now left|].
  destruct a; [right|]; now apply IH.
Qed.

Lemma noblock_stdout (W : World) (cwd : string) (a : arrival) (p : process) :
  exists lines,
    proc_stdout (snd (TCPServer.handle_request_noblock W cwd a p))
    = (proc_stdout p ++ lines)%list
    /\ match a with
       | Accepted c => Forall (marked (fst (peer c))) lines
       | AcceptFailed => lines = []
       end.
Proof.
  destruct a as [c|]; [|exists []; cbn; now rewrite app_nil_r].
  unfold TCPServer.handle_request_noblock.
  pose proof (logging_handle W (requests c) (peer c) (proc_stdout p)
                (TCPServer.new_handler cwd c (call SysAccept p))) as Hk.
  assert (Hh : logging (peer c) (proc_stdout p)
                 (state_of (WasmHandler.handle W (requests c)
                              (TCPServer.new_handler cwd c (call SysAccept p))))).
  { destruct (WasmHandler.handle W (requests c) _); apply Hk;
      (split; [reflexivity|]; exists []; cbn; now rewrite app_nil_r). }
  destruct Hh as [_ (lines & Hs & Hl)]. exists lines. split; [|exact Hl].
  destruct (WasmHandler.handle W (requests c) _) as [x h | e h];
    cbn [raised state_of] in *; [exact Hs|].
  destruct (is_Exception e); exact Hs.
Qed.

Lemma serve_forever_stdout (W : World) (cwd : string) (incoming : list arrival)
  (last : exn) (p : process) :
  exists lines,
    proc_stdout (snd (TCPServer.serve_forever W cwd incoming last p))
    = (proc_stdout p ++ lines)%list
    /\ Forall (logged_for incoming) lines.
Proof.
  apply (serve_forever_ind W cwd
           (fun q => exists lines,
                proc_stdout q = (proc_stdout p ++ lines)%list
                /\ Forall (logged_for incoming) lines)).
  - intros a q Hin (lines & Hs & Hl).
    destruct (noblock_stdout W cwd a q) as (more & Hm & Ha).
    exists (lines ++ more)%list. rewrite Hm, Hs, <- app_assoc. split; [reflexivity|].
    apply Forall_app. split; [exact Hl|].
    destruct a as [c|]; [|subst more; constructor].
    eapply Forall_impl; [|exact Ha].
    intros line Hline. exists c. split; [now apply accepted_in | exact Hline].
  - exists []. now rewrite app_nil_r.
Qed.

(** X13.  The handler prints log lines only: everything it prints for
    a connection is [marker host - message] with the host of that
    connection.  So the standard output of a run is empty, or it is the
    banner, then log lines of the connections that arrived, then
    nothing or the farewell, and the farewell only on an interrupt. *)
Theorem console_output_of_a_run :
  (forall (W : World) (reqs : list request) (h : handler),
      exists lines,
        stdout (state_of (WasmHandler.handle W reqs h)) = (stdout h ++ lines)%list
        /\ Forall (marked (fst (client_address h))) lines)
  /\ (forall (W : World) (cwd : string) (r : run),
         let out := proc_stdout (fst (main W cwd r)) in
         out = []
         \/ exists lines tail,
              out = (banner :: lines ++ tail)%list
              /\ Forall (logged_for (arrivals r)) lines
              /\ (tail = [] \/ tail = [farewell] /\ ending r = KeyboardInterrupt)).
Proof.
  split.
  - intros W reqs h.
    pose proof (logging_handle W reqs (client_address h) (stdout h) h) as Hk.
    assert (Hh : logging (client_address h) (stdout h)
                   (state_of (WasmHandler.handle W reqs h))).
    { destruct (WasmHandler.handle W reqs h); apply Hk;
        (split; [reflexivity|]; exists []; now rewrite app_nil_r). }
    exact (proj2 Hh).
  - intros W cwd r out. subst out.
    destruct (chdir_ok W) eqn:Hchdir; [|left; unfold main; now rewrite Hchdir].
    destruct (bind_ok W PORT) eqn:Hbind.
    2:{ left. unfold main, TCPServer.init. now rewrite Hchdir, Hbind. }
    destruct (console W 0 banner) eqn:Hbanner.
    2:{ left.
        now rewrite (main_banner_refused W cwd r Hchdir Hbind Hbanner), finalize_stdout. }
    rewrite (main_started W cwd r Hchdir Hbind Hbanner). cbv zeta.
    rewrite finalize_stdout.
    right.
    match goal with
    | |- context [TCPServer.serve_forever W cwd ?i ?l ?p] =>
        destruct (serve_forever_stdout W cwd i l p) as (lines & Hs & Hl);
        set (p2 := snd (TCPServer.serve_forever W cwd i l p)) in *
    end.
    cbn [proc_stdout app] in Hs.
    assert (Hplain : exists lines0 tail,
               proc_stdout p2 = (banner :: lines0 ++ tail)%list
               /\ Forall (logged_for (arrivals r)) lines0
               /\ (tail = [] \/ tail = [farewell] /\ ending r = KeyboardInterrupt)).
    { exists lines, []. rewrite app_nil_r. auto. }
    destruct (ending r) eqn:Hend; try exact Hplain.
    destruct (console W _ farewell); [|exact Hplain].
    exists lines, [farewell]. cbn. rewrite Hs. auto.
Qed.

(** *** The system calls of a run *)




(** *** Every connection is served *)



(** *** A log line that [print] refuses, and one that is never written *)


(** X16.  The exit status is 0 only when [serve_forever] was ended by
    an interrupt: then the directory was changed and the port bound,
    the banner is the first text printed and the farewell the last. *)
Theorem exit_status_0_means_interrupt (W : World) (cwd : string) (r : run) :
  snd (main W cwd r) = Exited 0 ->
  chdir_ok W = true
  /\ bind_ok W PORT = true
  /\ ending r = KeyboardInterrupt
  /\ exists lines,
       proc_stdout (fst (main W cwd r)) = (banner :: lines ++ [farewell])%list.
Proof.
  intros Hexit.
  destruct (chdir_ok W) eqn:Hchdir;
    [|unfold main in Hexit; rewrite Hchdir in Hexit; discriminate].
  destruct (bind_ok W PORT) eqn:Hbind.
  2:{ unfold main, TCPServer.init in Hexit. rewrite Hchdir, Hbind in Hexit.
      discriminate. }
  destruct (console W 0 banner) eqn:Hbanner.
  2:{ rewrite (main_banner_refused W cwd r Hchdir Hbind Hbanner) in Hexit.
      apply finalize_exit_0 in Hexit. discriminate. }
  rewrite (main_started W cwd r Hchdir Hbind Hbanner) in *. cbv zeta in *.
  rewrite finalize_stdout. apply finalize_exit_0 in Hexit.
  match goal with
  | |- context [TCPServer.serve_forever W cwd ?i ?l ?p] =>
      destruct (serve_forever_stdout W cwd i l p) as (lines & Hs & _);
      set (p2 := snd (TCPServer.serve_forever W cwd i l p)) in *
  end.
  cbn [proc_stdout app] in Hs.
  destruct (ending r); try discriminate.
  destruct (console W _ farewell); [|discriminate].
  repeat split. exists lines. cbn. now rewrite Hs.
Qed.

(** *** A request that is refused before its path is read *)

Section Unparsed.

Variable W : World.
Variable sent : list chunk.

Hypothesis works : console_works W.









End Unparsed.


(** *** Commands other than [GET] and [HEAD] *)

(** X6.  The class has [do_GET] and [do_HEAD] only: a request with an
    HTTP/1.x request line and any other command is answered with status
    501 and the message [Unsupported method], in a header block that
    ends with the lines added for its path, followed by the error page;
    no file is opened. *)
Theorem other_commands_are_not_implemented (W : World) (req : request)
  (cmd p v : string) (hs : list (string * string)) (h : handler) :
  console_works W ->
  http1_request req cmd p v hs ->
  cmd <> "GET" ->
  cmd <> "HEAD" ->
  wfile h = [] ->
  pending h = [] ->
  let r := WasmHandler.handle_one_request W req h in
  let message := "Unsupported method (" ++ py_repr W cmd ++ ")" in
  let body := error_body W 501 (Some message) None in
  raised r = None
  /\ wfile (state_of r)
     = HeaderBlock (error_head W 501 message body ++ added (effective_path p))
       :: (if is_empty body then [] else [Body body])
  /\ opened (state_of r) = opened h.
Proof.
  intros Hcon Hreq Hget Hhead Hw Hpend r message body. subst r.
  unfold WasmHandler.handle_one_request.
  rewrite (handle_one_request_ok W _ _ req cmd p v hs h Hreq).
  destruct Hreq as (_ & _ & _ & Hv & _).
  unfold WasmHandler.do_method.
  apply String.eqb_neq in Hget, Hhead. rewrite Hget, Hhead.
  rewrite (send_error_spec W 501 (Some message) None _ (effective_path p))
    by (auto; reflexivity).
  change (pending (parsed req cmd p v hs h)) with (pending h).
  change (wfile (parsed req cmd p v hs h)) with (wfile h).
  change (command (parsed req cmd p v hs h)) with (Some cmd).
  rewrite Hpend, Hw, Hhead. cbn [state_of wfile set_wfile app raised negb andb].
  fold body. destruct (is_empty body); now repeat split.
Qed.

(** *** The lines added for the path of the request *)

Lemma hooked_for_written (p : string) (sent : list chunk) (c : chunk) (h : handler) :
  library_block p c ->
  hooked_for p sent h -> hooked_for p sent (set_wfile (wfile h ++ [c]) h).
Proof.
  intros Hc (Hp & Hl & blocks & Hw & Hb). split; [exact Hp|]. split; [exact Hl|].
  exists (blocks ++ [c])%list. cbn. rewrite Hw, <- app_assoc. split; [reflexivity|].
  apply Forall_app. split; [exact Hb | now constructor].
Qed.

Lemma hooked_for_dispatched (W : World) (p : string) (sent : list chunk)
  (cmd : string) :
  keeps (hooked_for p sent) (dispatched W cmd) any any.
Proof.
  apply track_dispatched; try inert; try (intros; exact Logic.I).
  - intros h Hi. exact Hi.
  - intros l h Hl (Hp & Hb & Hw). split; [exact Hp|]. split; [|exact Hw].
    unfold buffer_append. cbn. apply Forall_app. split; [exact Hb | now constructor].
  - intros format args. apply keeps_log; try exact Logic.I. inert.
  - apply keeps_hook; [intros; exact Logic.I|].
    intros h q (Hp & Hl & blocks & Hw & Hb) Hq _.
    assert (q = p) as -> by congruence.
    split; [exact Hp|]. split; [constructor|].
    exists (blocks ++ [HeaderBlock (pending h ++ added p)])%list.
    cbn. rewrite Hw, <- app_assoc. split; [reflexivity|].
    apply Forall_app. split; [exact Hb|]. constructor; [|constructor].
    now exists (pending h).
  - intros code message explain h Hi _. now apply hooked_for_written.
  - intros data h Hi. now apply hooked_for_written.
Qed.

Lemma library_block_plain (p : string) (c : chunk) :
  endswith p ".wasm" = false ->
  library_block p c ->
  match c with
  | HeaderBlock ls => ~ In wasm_header ls
  | Body _ => True
  end.
Proof.
  intros Hp Hc. destruct c as [ls | data]; [|exact Logic.I].
  destruct Hc as (lib & Hlib & ->). unfold added. rewrite Hp. cbn [app].
  intros Hin. apply in_app_or in Hin. destruct Hin as [Hin | Hin].
  - rewrite Forall_forall in Hlib. now apply (library_line_not_wasm _ (Hlib _ Hin)).
  - destruct Hin as [Hin | [Hin | []]]; discriminate.
Qed.

(** X2.  For every request with an HTTP/1.x request line, whatever the
    command and whatever the file system holds, every header block
    written is lines of the library followed by the lines that
    [WasmHandler.end_headers] adds for the path of the request, and by
    nothing else; when the path does not end in [.wasm], no block has
    the line [Content-Type: application/wasm]. *)
Theorem header_blocks_of_a_request (W : World) (req : request) (cmd p v : string)
  (hs : list (string * string)) (h : handler) :
  http1_request req cmd p v hs ->
  wfile h = [] ->
  pending h = [] ->
  let out := wfile (state_of (WasmHandler.handle_one_request W req h)) in
  Forall (library_block (effective_path p)) out
  /\ (endswith p ".wasm" = false -> ~ carries wasm_header out).
Proof.
  intros Hreq Hw Hpend out.
  assert (Hout : Forall (library_block (effective_path p)) out).
  { subst out. unfold WasmHandler.handle_one_request.
    rewrite (handle_one_request_ok W _ _ req cmd p v hs h Hreq).
    pose proof (hooked_for_dispatched W (effective_path p) [] cmd
                  (parsed req cmd p v hs h)) as Hk.
    unfold dispatched in Hk.
    assert (Hi : hooked_for (effective_path p) [] (parsed req cmd p v hs h)).
    { split; [reflexivity|]. split.
      - change (pending (parsed req cmd p v hs h)) with (pending h).
        rewrite Hpend. constructor.
      - exists []. split; [exact Hw | constructor]. }
    specialize (Hk Hi).
    destruct (match WasmHandler.do_method W cmd with
              | Some method => method
              | None => _
              end (parsed req cmd p v hs h)) as [a h' | e h'];
      destruct Hk as [(_ & _ & blocks & Hw' & Hb) _];
      cbn [state_of]; rewrite Hw'; exact Hb. }
  split; [exact Hout|].
  intros Hp (ls & Hin & Hl).
  rewrite Forall_forall in Hout.
  rewrite <- effective_path_wasm_eq in Hp.
  exact (library_block_plain _ _ Hp (Hout _ Hin) Hl).
Qed.

(** *** [HEAD] *)

Lemma head_only_dispatched (W : World) (sent : list chunk) :
  keeps (head_only sent) (do_HEAD W (WasmHandler.self W)) any any.
Proof.
  apply track_do_HEAD; try inert; try (intros; exact Logic.I).
  - intros [] Hi. exact Hi.
  - intros l [] _ Hi. exact Hi.
  - intros format args. apply keeps_log; try exact Logic.I. inert.
  - apply keeps_hook; [intros; exact Logic.I|].
    intros h p (Hc & blocks & Hw & Hb) _ _. split; [exact Hc|].
    exists (blocks ++ [HeaderBlock (pending h ++ added p)])%list.
    cbn. rewrite Hw, <- app_assoc. split; [reflexivity|].
    rewrite forallb_app, Hb. reflexivity.
  - intros code message explain h (Hc & _) Hn. rewrite Hc in Hn. discriminate.
Qed.

(** X7.  A [HEAD] request with an HTTP/1.x request line is answered
    with header blocks only, whatever it asks for and whether or not
    the console takes the log line: no body is written, for a file, a
    directory or an error. *)
Theorem head_is_answered_without_a_body (W : World) (req : request)
  (p v : string) (hs : list (string * string)) (h : handler) :
  http1_request req "HEAD" p v hs ->
  exists blocks,
    wfile (state_of (WasmHandler.handle_one_request W req h))
    = (wfile h ++ blocks)%list
    /\ forallb is_header_block blocks = true.
Proof.
  intros Hreq. unfold WasmHandler.handle_one_request.
  rewrite (handle_one_request_ok W _ _ req "HEAD" p v hs h Hreq).
  change (WasmHandler.do_method W "HEAD") with (Some (do_HEAD W (WasmHandler.self W))).
  cbv iota.
  pose proof (head_only_dispatched W (wfile h) (parsed req "HEAD" p v hs h)) as Hk.
  assert (Hi : head_only (wfile h) (parsed req "HEAD" p v hs h)).
  { split; [reflexivity|]. exists []. now rewrite app_nil_r. }
  specialize (Hk Hi).
  destruct (do_HEAD W (WasmHandler.self W) (parsed req "HEAD" p v hs h));
    destruct Hk as [(_ & Hb) _]; exact Hb.
Qed.

(** *** A request line without a version *)

Lemma parse_request_simple (W : World) (self : methods) (req : request)
  (p : string) (hs : list (string * string)) (h : handler) :
  simple_request req p hs ->
  parse_request W self req h =
  Ret true
    (mkHandler (client_address h) (directory h)
       (rstrip is_crlf (raw_requestline req)) "HTTP/0.9" (Some "GET")
       (Some (effective_path p)) hs true (headers_buffer h) (wfile h) (stdout h)
       (opened h)).
Proof.
  intros (Hlen & Hwords & Hh).
  unfold parse_request.
  cbn [when ret bind modify gets]. rewrite Hwords.
  cbn [length Nat.eqb Nat.leb last].
  unfold parse_request_words.
  cbn [length Nat.eqb Nat.leb andb negb when ret bind modify gets].
  change ("GET" =? "GET") with true.
  cbn [length Nat.eqb Nat.leb andb negb when ret bind modify gets].
  erewrite parse_request_headers_ok by (first [exact Hh | reflexivity]).
  destruct h; reflexivity.
Qed.

Lemma bare_dispatched (W : World) (sent : list chunk) :
  keeps (bare sent) (do_GET W (WasmHandler.self W)) any any.
Proof.
  assert (Hbody : forall data h,
             bare sent h -> bare sent (set_wfile (wfile h ++ [Body data]) h)).
  { intros data h (Hv & bodies & Hw & Hb). split; [exact Hv|].
    exists (bodies ++ [Body data])%list. cbn. rewrite Hw, <- app_assoc.
    split; [reflexivity|]. rewrite forallb_app, Hb. reflexivity. }
  apply track_do_GET; try inert; try (intros; exact Logic.I).
  - intros [] Hi. exact Hi.
  - intros l [] _ Hi. exact Hi.
  - intros format args. apply keeps_log; try exact Logic.I. inert.
  - apply keeps_hook; [intros; exact Logic.I|].
    intros h p (Hv & _) _ Hn. contradiction.
  - intros code message explain h Hi _. now apply Hbody.
  - exact Hbody.
Qed.

(** X4.  A request line of two words, [GET p], is an HTTP/0.9 request:
    whatever it is answered with, no header block is written, only
    bodies, so the response has no status line, no CORS header and no
    added Content-Type. *)
Theorem request_without_version_gets_no_headers (W : World) (req : request)
  (p : string) (hs : list (string * string)) (h : handler) :
  simple_request req p hs ->
  exists bodies,
    wfile (state_of (WasmHandler.handle_one_request W req h))
    = (wfile h ++ bodies)%list
    /\ forallb (fun c => negb (is_header_block c)) bodies = true.
Proof.
  intros Hreq. pose proof Hreq as (Hlen & Hwords & Hh).
  unfold WasmHandler.handle_one_request, handle_one_request.
  apply Z.ltb_ge in Hlen. rewrite Hlen.
  assert (Hraw : is_empty (raw_requestline req) = false).
  { destruct (raw_requestline req); [discriminate | reflexivity]. }
  rewrite Hraw.
  erewrite bind_Ret by (eapply parse_request_simple; eassumption).
  cbn [negb bind gets command].
  change (WasmHandler.do_method W "GET") with (Some (do_GET W (WasmHandler.self W))).
  cbv iota.
  match goal with
  | |- context [do_GET W (WasmHandler.self W) ?h0] =>
      pose proof (bare_dispatched W (wfile h) h0) as Hk;
      assert (Hi : bare (wfile h) h0)
        by (split; [reflexivity|]; exists []; now rewrite app_nil_r);
      specialize (Hk Hi);
      destruct (do_GET W (WasmHandler.self W) h0)
  end; destruct Hk as [(_ & Hb) _]; exact Hb.
Qed.

(** *** Directories and conditional requests *)

Section Directories.

Variable W : World.

Hypothesis works : console_works W.

Lemma send_head_redirect (p : string) (h : handler) :
  path h = Some p ->
  request_version h <> "HTTP/0.9" ->
  isdir W (translate_path W (directory h) p) = true ->
  endswith (urlsplit_path W p) "/" = false ->
  send_head W (WasmHandler.self W) h =
  Ret None
    (set_wfile (wfile h ++ [HeaderBlock (pending h ++ redirect_head W p ++ added p)])
       (set_headers_buffer []
          (set_stdout (stdout h ++ [log_line h (request_log h 301)]) h))).
Proof.
  intros Hp Hv Hdir Hslash. unfold send_head.
  cbn [bind gets]. rewrite Hp. cbn [bind gets]. rewrite Hdir, Hslash. cbn [negb].
  erewrite bind_Ret by (apply send_response_spec; [apply works | exact Hv]).
  erewrite bind_Ret by (now apply send_header_plain).
  erewrite bind_Ret by (now apply send_header_plain).
  cbn [m_end_headers WasmHandler.self].
  erewrite bind_Ret by (now apply end_headers_spec with (p := p)).
  unfold ret, buffer_append, pending, redirect_head, response_head, added, phrase.
  destruct h; simpl. rewrite <- !app_assoc. reflexivity.
Qed.

Lemma send_head_file_304 (name data p : string) (mtime : Z) (h : handler) :
  path h = Some p ->
  request_version h <> "HTTP/0.9" ->
  endswith name "/" = false ->
  fs W name = File data mtime true ->
  not_modified W (headers h) mtime = true ->
  send_head_file W (WasmHandler.self W) name h =
  Ret None
    (set_wfile
       (wfile h ++ [HeaderBlock (pending h ++ response_head W 304 "Not Modified"
                                   ++ added p)])
       (set_headers_buffer []
          (set_stdout (stdout h ++ [log_line h (request_log h 304)])
             (set_opened (opened h ++ [name]) h)))).
Proof.
  intros Hp Hv Hslash Hfs Hims.
  unfold send_head_file. rewrite Hslash, Hfs.
  cbn [bind modify gets set_opened headers]. rewrite Hims.
  erewrite bind_Ret by (apply send_response_spec; [apply works | exact Hv]).
  cbn [m_end_headers WasmHandler.self].
  erewrite bind_Ret by (now apply end_headers_spec with (p := p)).
  unfold ret, buffer_append, pending, response_head, added, phrase,
    log_line, request_log.
  destruct h; simpl. rewrite <- !app_assoc. reflexivity.
Qed.

Lemma send_head_index (p name : string) (h : handler) :
  path h = Some p ->
  isdir W (translate_path W (directory h) p) = true ->
  endswith (urlsplit_path W p) "/" = true ->
  index_of W (translate_path W (directory h) p) = Some name ->
  send_head W (WasmHandler.self W) h = send_head_file W (WasmHandler.self W) name h.
Proof.
  intros Hp Hdir Hslash Hindex. unfold send_head.
  cbn [bind gets]. rewrite Hp. cbn [bind gets]. rewrite Hdir, Hslash. cbn [negb].
  unfold index_of in Hindex.
  destruct (isfile W (path_join _ "index.html")); [congruence|].
  destruct (isfile W (path_join _ "index.htm")); congruence.
Qed.

Lemma index_name (local name : string) :
  index_of W local = Some name -> endswith name "/" = false.
Proof.
  assert (Hjoin : forall index,
             startswith index "/" = false ->
             exists pre, path_join local index = pre ++ index).
  { intros index Hi. unfold path_join. rewrite Hi.
    destruct (is_empty local || endswith local "/").
    - now exists local.
    - exists (local ++ "/"). now rewrite append_assoc. }
  unfold index_of. intros Hindex.
  destruct (isfile W (path_join local "index.html")).
  - injection Hindex as <-.
    destruct (Hjoin "index.html" eq_refl) as [pre ->].
    unfold endswith. rewrite rev_string_app. reflexivity.
  - destruct (isfile W (path_join local "index.htm")); [|discriminate].
    injection Hindex as <-.
    destruct (Hjoin "index.htm" eq_refl) as [pre ->].
    unfold endswith. rewrite rev_string_app. reflexivity.
Qed.


End Directories.

Ltac dispatch_get_or_head Hcmd :=
  destruct Hcmd as [-> | ->];
  [ change (WasmHandler.do_method ?W "GET")
      with (Some (do_GET W (WasmHandler.self W)))
  | change (WasmHandler.do_method ?W "HEAD")
      with (Some (do_HEAD W (WasmHandler.self W))) ];
  cbv iota; [unfold do_GET | unfold do_HEAD].

(** X10.  A [GET] or [HEAD] for a path that names a directory and does
    not end in a slash is answered with status 301, a [Location] header
    and [Content-Length: 0], followed by the lines added for the path;
    no body is written and no file is opened. *)
Theorem directory_without_slash_is_redirected (W : World) (req : request)
  (cmd p v : string) (hs : list (string * string)) (h : handler) :
  console_works W ->
  http1_request req cmd p v hs ->
  cmd = "GET" \/ cmd = "HEAD" ->
  isdir W (translate_path W (directory h) (effective_path p)) = true ->
  endswith (urlsplit_path W (effective_path p)) "/" = false ->
  wfile h = [] ->
  pending h = [] ->
  let r := WasmHandler.handle_one_request W req h in
  raised r = None
  /\ wfile (state_of r)
     = [HeaderBlock (redirect_head W (effective_path p) ++ added (effective_path p))]
  /\ opened (state_of r) = opened h.
Proof.
  intros Hcon Hreq Hcmd Hdir Hslash Hw Hpend r. subst r.
  unfold WasmHandler.handle_one_request.
  rewrite (handle_one_request_ok W _ _ req cmd p v hs h Hreq).
  destruct Hreq as (_ & _ & _ & Hv & _).
  dispatch_get_or_head Hcmd.
  all: erewrite bind_Ret
      by (apply send_head_redirect with (p := effective_path p);
          [exact Hcon | reflexivity | exact Hv | exact Hdir | exact Hslash]).
  all: cbn [ret state_of raised wfile set_wfile opened set_headers_buffer set_stdout].
  all: match goal with
       | |- context [parsed ?r ?c ?q ?w ?l ?h0] =>
           change (pending (parsed r c q w l h0)) with (pending h0);
           change (wfile (parsed r c q w l h0)) with (wfile h0)
       end.
  all: rewrite Hpend, Hw; now repeat split.
Qed.

(** X12.  A [GET] or [HEAD] for a file that has not changed since the
    date of [If-Modified-Since] is answered with status 304: the header
    block has the status line, [Server], [Date] and the lines added for
    the path, no body is written, and the file has been opened. *)
Theorem unmodified_file_is_not_sent_again (W : World) (req : request)
  (cmd p v data : string) (hs : list (string * string)) (mtime : Z) (h : handler) :
  console_works W ->
  http1_request req cmd p v hs ->
  cmd = "GET" \/ cmd = "HEAD" ->
  let name := translate_path W (directory h) (effective_path p) in
  fs W name = File data mtime true ->
  endswith name "/" = false ->
  not_modified W hs mtime = true ->
  wfile h = [] ->
  pending h = [] ->
  let r := WasmHandler.handle_one_request W req h in
  raised r = None
  /\ wfile (state_of r)
     = [HeaderBlock (response_head W 304 "Not Modified" ++ added (effective_path p))]
  /\ opened (state_of r) = (opened h ++ [name])%list.
Proof.
  intros Hcon Hreq Hcmd name Hfs Hslash Hims Hw Hpend r. subst r.
  unfold WasmHandler.handle_one_request.
  rewrite (handle_one_request_ok W _ _ req cmd p v hs h Hreq).
  destruct Hreq as (_ & _ & _ & Hv & _).
  dispatch_get_or_head Hcmd.
  all: erewrite bind_Ret.
  2,4: erewrite send_head_regular
         with (name := name) (p := effective_path p) by (eauto; reflexivity);
       eapply send_head_file_304 with (p := effective_path p); eauto; reflexivity.
  all: cbn [ret state_of raised wfile set_wfile opened set_headers_buffer set_stdout
              set_opened].
  all: match goal with
       | |- context [parsed ?r ?c ?q ?w ?l ?h0] =>
           change (pending (parsed r c q w l h0)) with (pending h0);
           change (wfile (parsed r c q w l h0)) with (wfile h0);
           change (opened (parsed r c q w l h0)) with (opened h0)
       end.
  all: rewrite Hpend, Hw; now repeat split.
Qed.

(** X9.  A [GET] for a path that names a directory and ends in a slash
    is answered with the index file of the directory, [index.html] or
    else [index.htm]: status 200, the library's lines for that file,
    the lines added for the path of the request, then the content of
    the file. *)
Theorem directory_index_is_served (W : World) (req : request)
  (p v name data : string) (hs : list (string * string)) (mtime : Z) (h : handler) :
  console_works W ->
  http1_request req "GET" p v hs ->
  let local := translate_path W (directory h) (effective_path p) in
  isdir W local = true ->
  endswith (urlsplit_path W (effective_path p)) "/" = true ->
  index_of W local = Some name ->
  fs W name = File data mtime true ->
  not_modified W hs mtime = false ->
  wfile h = [] ->
  pending h = [] ->
  let r := WasmHandler.handle_one_request W req h in
  raised r = None
  /\ wfile (state_of r)
     = HeaderBlock (file_head W name data mtime ++ added (effective_path p))
       :: (if is_empty data then [] else [Body data]).
Proof.
  intros Hcon Hreq local Hdir Hslash Hindex Hfs Hims Hw Hpend r. subst r.
  unfold WasmHandler.handle_one_request.
  rewrite (handle_one_request_ok W _ _ req "GET" p v hs h Hreq).
  destruct Hreq as (_ & _ & _ & Hv & _).
  change (WasmHandler.do_method W "GET") with (Some (do_GET W (WasmHandler.self W))).
  cbv iota. unfold do_GET.
  erewrite bind_Ret.
  2:{ erewrite send_head_index
        with (name := name) (p := effective_path p) by (eauto; reflexivity).
      eapply send_head_file_200 with (p := effective_path p); eauto;
        try reflexivity.
      eapply index_name. exact Hindex. }
  unfold copyfile, when, wfile_write, modify, ret. cbn [f_data].
  change (pending (parsed req "GET" p v hs h)) with (pending h).
  change (wfile (parsed req "GET" p v hs h)) with (wfile h).
  rewrite Hpend, Hw.
  destruct (is_empty data); now repeat split.
Qed.


(** *** [HEAD] beside [GET] *)

Section Agree.

Context {A B : Type}.
Variable R : handler -> handler -> Prop.

Lemma agree_ret (a : A) : agree R (ret a) (ret a).
Proof. intros h1 h2 Hr. now split. Qed.

Lemma agree_raise (e : exn) : agree R (@raise A e) (raise e).
Proof. intros h1 h2 Hr. now split. Qed.

Lemma agree_gets (f : handler -> A) :
  (forall h1 h2, R h1 h2 -> f h1 = f h2) -> agree R (gets f) (gets f).
Proof. intros Hf h1 h2 Hr. split; auto. Qed.

Lemma agree_bind (m1 m2 : M A) (k1 k2 : A -> M B) :
  agree R m1 m2 ->
  (forall a, agree R (k1 a) (k2 a)) ->
  agree R (bind m1 k1) (bind m2 k2).
Proof.
  intros Hm Hk h1 h2 Hr. unfold bind. specialize (Hm h1 h2 Hr).
  destruct (m1 h1) as [a h1' | e h1'], (m2 h2) as [b h2' | e' h2'];
    try contradiction.
  - destruct Hm as [<- Hr']. now apply Hk.
  - exact Hm.
Qed.

End Agree.

Lemma agree_modify (R : handler -> handler -> Prop) (f : handler -> handler) :
  (forall h1 h2, R h1 h2 -> R (f h1) (f h2)) -> agree R (modify f) (modify f).
Proof. intros Hf h1 h2 Hr. split; auto. Qed.

Lemma agree_when (R : handler -> handler -> Prop) (c : bool) (m1 m2 : M unit) :
  agree R m1 m2 -> agree R (when c m1) (when c m2).
Proof. intros Hm. destruct c; [exact Hm | apply agree_ret]. Qed.

Ltac beside :=
  let g := fresh "g" in
  let h := fresh "h" in
  let Hr := fresh "Hr" in
  intros g h Hr; destruct g, h; unfold head_beside_get in *; cbn in *;
  decompose [and] Hr; subst; repeat split; try reflexivity; try congruence.

Ltac agree_step :=
  lazymatch goal with
  | |- agree _ (bind _ _) (bind _ _) => apply agree_bind; [ | intros ? ]
  | |- agree _ (ret _) (ret _) => apply agree_ret
  | |- agree _ (raise _) (raise _) => apply agree_raise
  | |- agree _ (gets _) (gets _) => apply agree_gets; beside
  | |- agree _ (modify _) (modify _) => apply agree_modify; beside
  | |- agree _ (when _ _) (when _ _) => apply agree_when
  | |- agree _ (if ?c then _ else _) (if ?c then _ else _) => destruct c
  | |- agree _ (match ?x with _ => _ end) (match ?x with _ => _ end) => destruct x
  end.

Ltac agree_auto := repeat first [ solve [eauto 2] | agree_step ].

Section Beside.

Variable W : World.

Hypothesis works : console_works W.

Lemma beside_log (format1 format2 : string) (args1 args2 : list pyval)
  (message1 message2 : string) :
  pyformat format1 args1 = Some message1 ->
  pyformat format2 args2 = Some message2 ->
  agree head_beside_get (WasmHandler.log_message W format1 args1)
    (WasmHandler.log_message W format2 args2).
Proof.
  intros H1 H2 g h Hr.
  rewrite (log_message_spec W format1 args1 message1 g H1 (works _ _)).
  rewrite (log_message_spec W format2 args2 message2 h H2 (works _ _)).
  split; [reflexivity|]. revert Hr. clear. revert g h. beside.
Qed.

Lemma beside_send_response_only (code : nat) (message : option string) :
  agree head_beside_get (send_response_only code message)
    (send_response_only code message).
Proof. unfold send_response_only, buffer_append, pending. agree_auto. Qed.

Lemma beside_send_header (keyword value : string) :
  agree head_beside_get (send_header keyword value) (send_header keyword value).
Proof. unfold send_header, buffer_append, pending. agree_auto. Qed.

Lemma beside_send_response (code : nat) (message : option string) :
  agree head_beside_get (send_response W (WasmHandler.self W) code message)
    (send_response W (WasmHandler.self W) code message).
Proof.
  unfold send_response, log_request. cbn [m_log_message WasmHandler.self].
  pose proof beside_send_response_only. pose proof beside_send_header.
  apply agree_bind; [|intros _; agree_auto].
  intros g h Hr. unfold bind, gets.
  eapply beside_log; [apply pyformat_request | apply pyformat_request | exact Hr].
Qed.

Lemma beside_hook :
  agree head_beside_get WasmHandler.end_headers WasmHandler.end_headers.
Proof.
  unfold WasmHandler.end_headers.
  pose proof beside_send_header.
  unfold end_headers, flush_headers, wfile_write, buffer_append, pending, header_blocks.
  agree_auto.
  all: rewrite filter_app; cbn; reflexivity.
Qed.

Lemma beside_send_error (code : nat) (message explain : option string) :
  agree head_beside_get (send_error W (WasmHandler.self W) code message explain)
    (send_error W (WasmHandler.self W) code message explain).
Proof.
  unfold send_error, log_error.
  cbn [m_log_message m_end_headers WasmHandler.self].
  pose proof beside_send_response. pose proof beside_send_header.
  pose proof beside_hook.
  destruct (responses code) as [[shortmsg longmsg]|].
  all: apply agree_bind;
    [eapply beside_log; apply pyformat_error | intros _].
  all: do 3 (apply agree_bind; [solve [agree_auto] | intros ?]).
  all: apply agree_bind; [solve [agree_auto] | intros _].
  all: intros g h Hr; unfold bind, gets, when, wfile_write, modify, ret.
  all: pose proof Hr as (Hg & Hh & _); rewrite Hg, Hh.
  all: change ("GET" =? "HEAD") with false; change ("HEAD" =? "HEAD") with true.
  all: cbn [negb andb].
  all: match goal with
       | |- match match ?b with _ => _ end _ with _ => _ end => destruct b as [body|]
       end.
  all: try (destruct (negb (is_empty body))).
  all: split; [reflexivity|]; revert Hr; clear; revert g h; beside.
  all: unfold header_blocks; rewrite filter_app; cbn; now rewrite app_nil_r.
Qed.

Lemma beside_list_directory (name : string) :
  agree head_beside_get (list_directory W (WasmHandler.self W) name)
    (list_directory W (WasmHandler.self W) name).
Proof.
  unfold list_directory. cbn [m_end_headers WasmHandler.self].
  pose proof beside_send_response. pose proof beside_send_header.
  pose proof beside_send_error. pose proof beside_hook.
  agree_auto.
Qed.

Lemma beside_send_head_file (name : string) :
  agree head_beside_get (send_head_file W (WasmHandler.self W) name)
    (send_head_file W (WasmHandler.self W) name).
Proof.
  unfold send_head_file. cbn [m_end_headers WasmHandler.self].
  pose proof beside_send_response. pose proof beside_send_header.
  pose proof beside_send_error. pose proof beside_hook.
  agree_auto.
Qed.

Lemma beside_send_head :
  agree head_beside_get (send_head W (WasmHandler.self W))
    (send_head W (WasmHandler.self W)).
Proof.
  unfold send_head. cbn [m_end_headers WasmHandler.self].
  pose proof beside_send_response. pose proof beside_send_header.
  pose proof beside_send_head_file. pose proof beside_list_directory.
  pose proof beside_hook.
  agree_auto.
Qed.

Lemma beside_do_GET_do_HEAD :
  agree head_beside_get (do_GET W (WasmHandler.self W)) (do_HEAD W (WasmHandler.self W)).
Proof.
  unfold do_GET, do_HEAD. apply agree_bind; [exact beside_send_head|].
  intros [f|]; [|apply agree_ret].
  unfold copyfile, when, wfile_write, modify, ret.
  intros g h Hr. destruct (negb (is_empty (f_data f))); (split; [reflexivity|]);
    [|exact Hr].
  revert Hr. clear. revert g h. beside.
  unfold header_blocks. rewrite filter_app. cbn. now rewrite app_nil_r.
Qed.

End Beside.

(** X8.  A [HEAD] request is answered with the header blocks of the
    [GET] request for the same path, version and headers, the lines
    added by [WasmHandler.end_headers] among them, and without the
    bodies; it raises what the [GET] raises and opens the files that
    the [GET] opens. *)
Theorem head_sends_the_header_blocks_of_get (W : World) (get_req head_req : request)
  (p v : string) (hs : list (string * string)) (h : handler) :
  console_works W ->
  http1_request get_req "GET" p v hs ->
  http1_request head_req "HEAD" p v hs ->
  wfile h = [] ->
  let to_get := WasmHandler.handle_one_request W get_req h in
  let to_head := WasmHandler.handle_one_request W head_req h in
  wfile (state_of to_head) = header_blocks (wfile (state_of to_get))
  /\ raised to_head = raised to_get
  /\ opened (state_of to_head) = opened (state_of to_get).
Proof.
  intros Hcon Hget Hhead Hw to_get to_head. subst to_get to_head.
  unfold WasmHandler.handle_one_request.
  rewrite (handle_one_request_ok W _ _ get_req "GET" p v hs h Hget).
  rewrite (handle_one_request_ok W _ _ head_req "HEAD" p v hs h Hhead).
  change (WasmHandler.do_method W "GET") with (Some (do_GET W (WasmHandler.self W))).
  change (WasmHandler.do_method W "HEAD") with (Some (do_HEAD W (WasmHandler.self W))).
  cbv iota.
  pose proof (beside_do_GET_do_HEAD W Hcon (parsed get_req "GET" p v hs h)
                (parsed head_req "HEAD" p v hs h)) as Hk.
  assert (Hr : head_beside_get (parsed get_req "GET" p v hs h)
                 (parsed head_req "HEAD" p v hs h)).
  { unfold head_beside_get, parsed. cbn. rewrite Hw. now repeat split. }
  specialize (Hk Hr).
  destruct (do_GET W (WasmHandler.self W) (parsed get_req "GET" p v hs h)),
    (do_HEAD W (WasmHandler.self W) (parsed head_req "HEAD" p v hs h));
    try contradiction.
  - destruct Hk as [_ Hk]. cbn [state_of raised].
    destruct Hk as (_ & _ & _ & _ & _ & _ & _ & _ & _ & Ho & Hf). now repeat split.
  - destruct Hk as [<- Hk]. cbn [state_of raised].
    destruct Hk as (_ & _ & _ & _ & _ & _ & _ & _ & _ & Ho & Hf). now repeat split.
Qed.

(** *** The further properties on the example worlds *)

Lemma site_console_works : console_works site_world.
Proof. intros n text. reflexivity. Qed.



(** X6: the theorem at a preflight request, [OPTIONS]. *)
Lemma other_commands_are_not_implemented_witness :
  status (answer world311 "OPTIONS /m.wasm HTTP/1.1") = Some 501
  /\ carries cors_header (answer world311 "OPTIONS /m.wasm HTTP/1.1").
Proof.
  assert (Hreq : http1_request (get "OPTIONS /m.wasm HTTP/1.1")
                   "OPTIONS" "/m.wasm" "HTTP/1.1" []).
  { apply (get_is_http1 "OPTIONS" "/m.wasm"); [reflexivity | vm_compute; discriminate]. }
  pose proof (other_commands_are_not_implemented world311
                (get "OPTIONS /m.wasm HTTP/1.1") "OPTIONS" "/m.wasm" "HTTP/1.1" []
                fresh (console_utf8_works _ _) Hreq) as Hthm.
  destruct Hthm as (_ & Hw & _); try discriminate; try reflexivity.
  unfold answer. rewrite Hw. split; [reflexivity|].
  unfold carries. eexists. split; [left; reflexivity|].
  vm_compute. do 7 right. left. reflexivity.
Defined.



(** X16: the theorem on a run with one request. *)
Lemma exit_status_0_means_interrupt_witness :
  exists lines,
    proc_stdout (fst (main world311 "/srv/www" (one_request "GET / HTTP/1.1")))
    = (banner :: lines ++ [farewell])%list.
Proof.
  assert (Hexit : snd (main world311 "/srv/www" (one_request "GET / HTTP/1.1"))
                  = Exited 0) by (vm_compute; reflexivity).
  pose proof (exit_status_0_means_interrupt world311 "/srv/www"
                (one_request "GET / HTTP/1.1") Hexit) as (_ & _ & _ & Hout).
  exact Hout.
Defined.

(** X2: the theorem at [/index.html]. *)
Lemma header_blocks_of_a_request_witness :
  Forall (library_block "/index.html") (answer world311 "GET /index.html HTTP/1.1")
  /\ ~ carries wasm_header (answer world311 "GET /index.html HTTP/1.1").
Proof.
  assert (Hreq : http1_request (get "GET /index.html HTTP/1.1")
                   "GET" "/index.html" "HTTP/1.1" []).
  { apply (get_is_http1 "GET" "/index.html");
      [reflexivity | vm_compute; discriminate]. }
  pose proof (header_blocks_of_a_request world311 (get "GET /index.html HTTP/1.1")
                "GET" "/index.html" "HTTP/1.1" [] fresh Hreq eq_refl eq_refl)
    as [Hblocks Hplain].
  split; [exact Hblocks | apply Hplain; reflexivity].
Defined.

(** X7: the theorem at [/index.html]. *)
Lemma head_is_answered_without_a_body_witness :
  exists blocks,
    wfile (state_of (WasmHandler.handle_one_request world311
                       (get "HEAD /index.html HTTP/1.1") fresh))
    = (wfile fresh ++ blocks)%list
    /\ forallb is_header_block blocks = true.
Proof.
  apply (head_is_answered_without_a_body world311 (get "HEAD /index.html HTTP/1.1")
           "/index.html" "HTTP/1.1" [] fresh).
  apply (get_is_http1 "HEAD" "/index.html"); [reflexivity | vm_compute; discriminate].
Defined.

(** X4: the theorem at [GET /m.wasm]. *)
Lemma request_without_version_gets_no_headers_witness :
  exists bodies,
    wfile (state_of (WasmHandler.handle_one_request world311
                       (get "GET /m.wasm") fresh))
    = (wfile fresh ++ bodies)%list
    /\ forallb (fun c => negb (is_header_block c)) bodies = true.
Proof.
  apply (request_without_version_gets_no_headers world311 (get "GET /m.wasm")
           "/m.wasm" [] fresh).
  repeat split. vm_compute. discriminate.
Defined.

Lemma get_is_http1_on (cmd p : string) (hs : list (string * string)) :
  split_ws (rstrip is_crlf (cmd ++ " " ++ p ++ " HTTP/1.1" ++ CRLF)) = [cmd; p; "HTTP/1.1"] ->
  (Z.of_nat (String.length (cmd ++ " " ++ p ++ " HTTP/1.1" ++ CRLF)) <= 65536)%Z ->
  http1_request (mkRequest ((cmd ++ " " ++ p ++ " HTTP/1.1") ++ CRLF) (HeadersOk hs))
    cmd p "HTTP/1.1" hs.
Proof.
  intros Hwords Hlen. unfold http1_request. cbn [raw_requestline raw_headers].
  rewrite !append_assoc. cbn [append] in *.
  repeat split; try assumption.
  - exists "1.1", (1, 1)%Z. split; reflexivity.
  - discriminate.
Qed.

(** X10: the theorem at the directory [/pkg]. *)
Lemma directory_without_slash_is_redirected_witness :
  let r := WasmHandler.handle_one_request site_world (get "GET /pkg HTTP/1.1") fresh in
  status (wfile (state_of r)) = Some 301
  /\ carries (Header "Location" "/pkg/") (wfile (state_of r))
  /\ opened (state_of r) = [].
Proof.
  intros r.
  assert (Hreq : http1_request (get "GET /pkg HTTP/1.1") "GET" "/pkg" "HTTP/1.1" []).
  { apply (get_is_http1 "GET" "/pkg"); [reflexivity | vm_compute; discriminate]. }
  pose proof (directory_without_slash_is_redirected site_world
                (get "GET /pkg HTTP/1.1") "GET" "/pkg" "HTTP/1.1" [] fresh
                site_console_works Hreq (or_introl eq_refl) eq_refl eq_refl
                eq_refl eq_refl) as (_ & Hw & Ho).
  subst r. rewrite Hw, Ho. split; [reflexivity|]. split; [|reflexivity].
  unfold carries. eexists. split; [left; reflexivity|].
  vm_compute. do 3 right. left. reflexivity.
Defined.

(** X12: the theorem at [/m.wasm], unchanged since [epoch]. *)
Lemma unmodified_file_is_not_sent_again_witness :
  let r := WasmHandler.handle_one_request site_world
             (conditional_get "GET /m.wasm HTTP/1.1") fresh in
  wfile (state_of r)
  = [HeaderBlock (response_head site_world 304 "Not Modified"
                  ++ [wasm_header; cors_header; BlankLine])]
  /\ opened (state_of r) = ["/srv/www/m.wasm"].
Proof.
  intros r.
  assert (Hreq : http1_request (conditional_get "GET /m.wasm HTTP/1.1")
                   "GET" "/m.wasm" "HTTP/1.1" [("If-Modified-Since", epoch)]).
  { apply (get_is_http1_on "GET" "/m.wasm");
      [reflexivity | vm_compute; discriminate]. }
  pose proof (unmodified_file_is_not_sent_again site_world
                (conditional_get "GET /m.wasm HTTP/1.1") "GET" "/m.wasm" "HTTP/1.1"
                "not a module" [("If-Modified-Since", epoch)] 0%Z fresh
                site_console_works Hreq (or_introl eq_refl) eq_refl eq_refl
                eq_refl eq_refl eq_refl) as (_ & Hw & Ho).
  subst r. rewrite Hw, Ho. split; reflexivity.
Defined.

(** X9: the theorem at [/]. *)
Lemma directory_index_is_served_witness :
  answer world311 "GET / HTTP/1.1"
  = [HeaderBlock (file_head world311 "/srv/www/index.html" "<h1>hello</h1>" 0
                  ++ [cors_header; BlankLine]);
     Body "<h1>hello</h1>"].
Proof.
  assert (Hreq : http1_request (get "GET / HTTP/1.1") "GET" "/" "HTTP/1.1" []).
  { apply (get_is_http1 "GET" "/"); [reflexivity | vm_compute; discriminate]. }
  pose proof (directory_index_is_served world311 (get "GET / HTTP/1.1")
                "/" "HTTP/1.1" "/srv/www/index.html" "<h1>hello</h1>" [] 0%Z fresh
                (console_utf8_works _ _) Hreq eq_refl eq_refl eq_refl eq_refl
                eq_refl eq_refl eq_refl) as (_ & Hw).
  unfold answer. rewrite Hw. reflexivity.
Defined.


(** X8: the theorem at [/m.wasm]. *)
Lemma head_sends_the_header_blocks_of_get_witness :
  wfile (state_of (WasmHandler.handle_one_request world311
                     (get "HEAD /m.wasm HTTP/1.1") fresh))
  = header_blocks (answer world311 "GET /m.wasm HTTP/1.1").
Proof.
  assert (Hget : http1_request (get "GET /m.wasm HTTP/1.1")
                   "GET" "/m.wasm" "HTTP/1.1" []).
  { apply (get_is_http1 "GET" "/m.wasm"); [reflexivity | vm_compute; discriminate]. }
  assert (Hhead : http1_request (get "HEAD /m.wasm HTTP/1.1")
                    "HEAD" "/m.wasm" "HTTP/1.1" []).
  { apply (get_is_http1 "HEAD" "/m.wasm"); [reflexivity | vm_compute; discriminate]. }
  pose proof (head_sends_the_header_blocks_of_get world311
                (get "GET /m.wasm HTTP/1.1") (get "HEAD /m.wasm HTTP/1.1")
                "/m.wasm" "HTTP/1.1" [] fresh (console_utf8_works _ _)
                Hget Hhead eq_refl) as (Hw & _).
  exact Hw.
Defined.
